(** * Regrada demo: the interception proxy and the comparison engine

    A shallow embedding of [cmd/trace.go] and [cmd/run.go] of the Regrada
    demo, and the proofs of the properties its specification states about
    them.

    Conventions of the embedding.
    - A Go [string] and a Go [[]byte] are both byte sequences: they are
      modelled as [string] (a list of 8-bit [ascii]).
    - A Go [map[string]T] is a [gmap string T].  Go ranges over a map in an
      unspecified order; a [range] loop is modelled as a fold over an
      enumeration of the map, [map_to_list] being the one picked for the
      executable functions.
    - A Go [int], [int64] or [time.Duration] is a [Z].
    - A nil slice that the code distinguishes from a non-nil one is an
      [option].
    - Functions of Go's standard library that have a short exact
      definition on bytes (string joining, header canonicalisation, the
      JSON encoding of a string) are defined; the others (JSON decoding,
      gzip, Unicode case mapping and trimming, URLs) are [Variable]s of
      the sections that use them.
    - What the program prints is not part of the model. *)

From Stdlib Require Import ZArith Lia Bool Ascii String.
From stdpp Require Import base option list strings gmap fin_maps pretty.

Local Open Scope string_scope.
Local Open Scope Z_scope.

(** ** The pieces of Go's library that the code calls and that have a
    short exact definition on bytes *)

Module Go.

(** The numeric value of a byte. *)
Definition byteVal (c : ascii) : Z := Z.of_N (N_of_ascii c).

(** The byte of a value below 256. *)
Definition byteOf (n : Z) : ascii := ascii_of_N (Z.to_N n).

(** [len(s)] *)
Definition len (s : string) : Z := Z.of_nat (String.length s).

(** [strings.Join(elems, sep)] *)
Fixpoint Join (elems : list string) (sep : string) : string :=
  match elems with
  | [] => ""
  | [e] => e
  | e :: rest => e ++ sep ++ Join rest sep
  end.

(** [strings.HasPrefix(s, prefix)] *)
Definition HasPrefix (s prefix : string) : bool := String.prefix prefix s.

(** [strings.Index(s, string(c))] for a one-byte pattern: the position of
    the first [c], or [-1]. *)
Fixpoint IndexByte (s : string) (c : ascii) : Z :=
  match s with
  | EmptyString => -1
  | String a rest =>
      if Ascii.eqb a c then 0
      else let i := IndexByte rest c in if i <? 0 then -1 else i + 1
  end.

(** The slice expression [s[lo:hi]] for [0 <= lo <= hi <= len(s)]. *)
Definition slice (s : string) (lo hi : Z) : string :=
  String.substring (Z.to_nat lo) (Z.to_nat (hi - lo)) s.

(** [fmt.Sprintf("%d", n)] *)
Definition Sprintd (n : Z) : string := pretty n.

(** [int64] wrap-around. *)
Definition wrap64 (n : Z) : Z :=
  (n + 2 ^ 63) mod 2 ^ 64 - 2 ^ 63.

Definition maxDuration : Z := 2 ^ 63 - 1.
Definition minDuration : Z := - 2 ^ 63.

(** [time.Time.Sub] on two readings [t] and [u] of the monotonic clock
    (nanoseconds as [int64]): the difference, saturated. *)
Definition subMono (t u : Z) : Z :=
  let d := wrap64 (t - u) in
  if (d <? 0) && (u <? t) then maxDuration
  else if (0 <? d) && (t <? u) then minDuration
  else d.

(** [time.Since(start)] when the clock reads [now]. *)
Definition Since (start now : Z) : Z := subMono now start.

(** [time.Millisecond], in nanoseconds. *)
Definition Millisecond : Z := 1000000.

(** [d / time.Millisecond]: Go's integer division truncates. *)
Definition toMilliseconds (d : Z) : Z := Z.quot d Millisecond.

End Go.

(** ** Configuration ([cmd/init.go]) *)

Module Config.

(** [type ProviderConfig struct] *)
Record ProviderConfig := mkProviderConfig {
  Type_ : string;
  BaseURL : string;
  Model : string
}.

(** [type CaptureConfig struct] *)
Record CaptureConfig := mkCaptureConfig {
  Requests : bool;
  Responses : bool;
  Traces : bool;
  Latency : bool
}.

(** [type EvalsConfig struct] *)
Record EvalsConfig := mkEvalsConfig {
  Path : string;
  Types : list string;
  Timeout : string;
  Concurrent : Z
}.

(** [type GateConfig struct]; the [float64] field [Threshold], which
    none of the modelled functions reads, is left out. *)
Record GateConfig := mkGateConfig {
  Enabled : bool;
  FailOn : string
}.

(** [type OutputConfig struct] *)
Record OutputConfig := mkOutputConfig {
  Format : string;
  Verbose : bool
}.

(** [type RegradaConfig struct] *)
Record RegradaConfig := mkRegradaConfig {
  Version : string;
  Project : string;
  Env : string;
  Provider : ProviderConfig;
  Capture : CaptureConfig;
  Evals : EvalsConfig;
  Gate : GateConfig;
  Output : OutputConfig
}.

(** [func getDefaultConfig(projectName string) RegradaConfig] *)
Definition getDefaultConfig (projectName : string) : RegradaConfig :=
  mkRegradaConfig "1" projectName "local"
    (mkProviderConfig "openai" "" "gpt-4o")
    (mkCaptureConfig true true true true)
    (mkEvalsConfig "evals" ["semantic"; "exact"] "30s" 5)
    (mkGateConfig true "regression")
    (mkOutputConfig "text" false).

End Config.

(** ** The eval runner and its comparison with a baseline ([cmd/run.go]) *)

Module Eval.

(** [type CheckResult struct] *)
Record CheckResult := mkCheckResult {
  Check : string;
  CheckPassed : bool;
  Message : string
}.

(** [type TestResult struct]; [Status] is a free-form string, documented
    as one of [passed], [failed], [error]. *)
Record TestResult := mkTestResult {
  Name : string;
  Status : string;
  Duration : Z;
  CheckResults : list CheckResult;
  Error : string;
  Regression : bool
}.

(** [type BaselineComparison struct] *)
Record BaselineComparison := mkBaselineComparison {
  BaselineDate : Z;
  NewFailures : list string;
  NewPasses : list string;
  RemovedTests : list string;
  AddedTests : list string;
  BehaviorChanges : list string
}.

(** [type EvalResult struct] *)
Record EvalResult := mkEvalResult {
  Timestamp : Z;
  TestSuiteName : string;
  TotalTests : Z;
  Passed : Z;
  Failed : Z;
  Regressions : Z;
  TestResults : list TestResult;
  Comparison : option BaselineComparison
}.

(** What [os.Stat], [os.ReadFile] and [json.Unmarshal] make of the
    baseline path: no file, a file that cannot be read or decoded, or a
    decoded [EvalResult]. *)
Inductive BaselineFile :=
| Missing
| Unreadable
| Decoded (baseline : EvalResult).

(** The zero value [&BaselineComparison{}]; [time.Time{}] is instant 0. *)
Definition emptyComparison : BaselineComparison :=
  mkBaselineComparison 0 [] [] [] [] [].

(** [m := make(map[string]TestResult); for _, tr := range rs { m[tr.Name] = tr }] *)
Definition indexByName (rs : list TestResult) : gmap string TestResult :=
  foldl (fun m tr => <[Name tr := tr]> m) ∅ rs.

(** One iteration of the loop over [currentResults]. *)
Definition compareStep (baselineResults : gmap string TestResult)
    (comparison : BaselineComparison) (entry : string * TestResult)
    : BaselineComparison :=
  let '(name, cr) := entry in
  match baselineResults !! name with
  | Some br =>
      if String.eqb (Status br) "passed" && String.eqb (Status cr) "failed" then
        mkBaselineComparison (BaselineDate comparison)
          (NewFailures comparison ++ [name]) (NewPasses comparison)
          (RemovedTests comparison) (AddedTests comparison)
          (BehaviorChanges comparison)
      else if String.eqb (Status br) "failed" && String.eqb (Status cr) "passed" then
        mkBaselineComparison (BaselineDate comparison)
          (NewFailures comparison) (NewPasses comparison ++ [name])
          (RemovedTests comparison) (AddedTests comparison)
          (BehaviorChanges comparison)
      else comparison
  | None =>
      mkBaselineComparison (BaselineDate comparison)
        (NewFailures comparison) (NewPasses comparison)
        (RemovedTests comparison) (AddedTests comparison ++ [name])
        (BehaviorChanges comparison)
  end.

(** One iteration of the loop over [baselineResults]. *)
Definition removedStep (currentResults : gmap string TestResult)
    (comparison : BaselineComparison) (entry : string * TestResult)
    : BaselineComparison :=
  match currentResults !! entry.1 with
  | Some _ => comparison
  | None =>
      mkBaselineComparison (BaselineDate comparison)
        (NewFailures comparison) (NewPasses comparison)
        (RemovedTests comparison ++ [entry.1]) (AddedTests comparison)
        (BehaviorChanges comparison)
  end.

(** The two loops of [compareWithBaselineResults], run over given
    enumerations of the two maps. *)
Definition compareLoops (baselineDate : Z)
    (baselineResults currentResults : gmap string TestResult)
    (currentOrder baselineOrder : list (string * TestResult))
    : BaselineComparison :=
  let comparison := mkBaselineComparison baselineDate [] [] [] [] [] in
  let comparison := foldl (compareStep baselineResults) comparison currentOrder in
  foldl (removedStep currentResults) comparison baselineOrder.

(** [func compareWithBaselineResults(current *EvalResult, baselinePath string)],
    the file at [baselinePath] being given by what reading it produced. *)
Definition compareWithBaselineResults (current : EvalResult)
    (file : BaselineFile) : BaselineComparison :=
  match file with
  | Missing | Unreadable => emptyComparison
  | Decoded baseline =>
      let baselineResults := indexByName (TestResults baseline) in
      let currentResults := indexByName (TestResults current) in
      compareLoops (Timestamp baseline) baselineResults currentResults
        (map_to_list currentResults) (map_to_list baselineResults)
  end.

(** [type TestCase struct] *)
Record TestCase := mkTestCase {
  CaseName : string;
  Prompt : string;
  Checks : list string
}.

(** [type TestSuite struct] *)
Record TestSuite := mkTestSuite {
  SuiteName : string;
  Description : string;
  Tests : list TestCase
}.

(** How a call of [runEvals] ends: with an exit code (and the
    [EvalResult] it built, once the suite is loaded), or in the run-time
    panic of reading [config.Evals.Path] through a nil [config]. *)
Inductive Outcome :=
| NilConfigPanic
| Returned (code : Z) (result : option EvalResult).

Section Runner.

(** [strings.TrimSpace] and [filepath.Join], of Go's library. *)
Variable TrimSpace : string -> string.
Variable filepath_Join : list string -> string.

(** The files the run reads and the clock it consults: [loadConfig] and
    [loadTestSuite] at a path ([None] for an error), the baseline file at
    a path, and the successive readings of [time.Now()]. *)
Variable loadConfig : string -> option Config.RegradaConfig.
Variable loadTestSuite : string -> option TestSuite.
Variable baselineAt : string -> BaselineFile.
Variable clock : nat -> Z.

(** The [switch checkType] of [runCheck]: verdict and message. *)
Definition checkVerdict (checkType checkParam : string) : bool * string :=
  if String.eqb checkType "schema_valid" then
    (true, "Response matches expected schema")
  else if String.eqb checkType "tool_called" then
    (true, "Tool '" ++ checkParam ++ "' was called")
  else if String.eqb checkType "no_tool_called" then
    (true, "No tools were called")
  else if String.eqb checkType "grounded_in_retrieval" then
    (true, "Response is grounded in retrieved documents")
  else if String.eqb checkType "no_hallucination"
          || String.eqb checkType "no_fabrication" then
    (true, "No hallucinated content detected")
  else if String.eqb checkType "tone" then
    (true, "Tone matches: " ++ checkParam)
  else if String.eqb checkType "sentiment" then
    (true, "Sentiment is " ++ checkParam)
  else if String.eqb checkType "stays_on_topic" then
    (true, "Response stays on topic")
  else if String.eqb checkType "response_time" then
    (true, "Response time within " ++ checkParam)
  else if String.eqb checkType "length" then
    (true, "Response length within " ++ checkParam ++ " chars")
  else if String.eqb checkType "INTENTIONAL_FAIL" then
    (false, "Intentional failure for testing")
  else
    (true, "Check '" ++ checkType ++ "' not yet implemented").

(** [func runCheck(check string, test TestCase, config *RegradaConfig) CheckResult] *)
Definition runCheck (check : string) (test : TestCase)
    (config : option Config.RegradaConfig) : CheckResult :=
  let idx := Go.IndexByte check ":" in
  let checkType :=
    if 0 <? idx then TrimSpace (Go.slice check 0 idx) else check in
  let checkParam :=
    if 0 <? idx then TrimSpace (Go.slice check (idx + 1) (Go.len check))
    else "" in
  let '(passed, message) := checkVerdict checkType checkParam in
  mkCheckResult check passed message.

(** The body of the loop over [test.Checks] in [runTest]. *)
Definition runTestStep (test : TestCase)
    (config : option Config.RegradaConfig)
    (result : TestResult) (check : string) : TestResult :=
  let checkResult := runCheck check test config in
  mkTestResult (Name result)
    (if CheckPassed checkResult then Status result else "failed")
    (Duration result) (CheckResults result ++ [checkResult])
    (Error result) (Regression result).

(** [func runTest(test TestCase, config *RegradaConfig, verbose bool) TestResult];
    [tick] counts the readings of the clock made so far. *)
Definition runTest (test : TestCase) (config : option Config.RegradaConfig)
    (verbose : bool) (tick : nat) : TestResult * nat :=
  let startTime := clock tick in
  let result := mkTestResult (CaseName test) "passed" 0 [] "" false in
  let result := foldl (runTestStep test config) result (Checks test) in
  let duration := Go.toMilliseconds (Go.Since startTime (clock (S tick))) in
  (mkTestResult (Name result) (Status result) duration (CheckResults result)
     (Error result) (Regression result),
   S (S tick)).

(** The body of the loop over [suite.Tests] in [runEvals]. *)
Definition runEvalsStep (config : option Config.RegradaConfig)
    (verbose : bool) (acc : EvalResult * nat) (test : TestCase)
    : EvalResult * nat :=
  let '(result, tick) := acc in
  let '(testResult, tick) := runTest test config verbose tick in
  let passed := String.eqb (Status testResult) "passed" in
  (mkEvalResult (Timestamp result) (TestSuiteName result) (TotalTests result)
     (if passed then Passed result + 1 else Passed result)
     (if passed then Failed result else Failed result + 1)
     (Regressions result) (TestResults result ++ [testResult])
     (Comparison result),
   tick).

(** The configuration [runEvals] works with: the loaded one, the default
    when loading failed and the output is not JSON, nil otherwise. *)
Definition evalConfig (configPath outputFormat : string)
    : option Config.RegradaConfig :=
  match loadConfig configPath with
  | Some config => Some config
  | None =>
      if negb (String.eqb outputFormat "json")
      then Some (Config.getDefaultConfig ".")
      else None
  end.

(** The path of the test suite; [None] is the nil dereference. *)
Definition resolveTestsPath (config : option Config.RegradaConfig)
    (testsPath : string) : option string :=
  if String.eqb testsPath "" then
    match config with
    | Some c => Some (filepath_Join [Config.Path (Config.Evals c); "tests.yaml"])
    | None => None
    end
  else Some testsPath.

(** The baseline path of [runEvals]. *)
Definition resolveBaselinePath (baselinePath : string) : string :=
  if String.eqb baselinePath "" then filepath_Join [".regrada"; "baseline.json"]
  else baselinePath.

(** The comparison step of [runEvals]: [os.Stat] succeeds on every file
    but a missing one. *)
Definition attachComparison (result : EvalResult) (file : BaselineFile)
    : EvalResult :=
  match file with
  | Missing => result
  | _ =>
      let comparison := compareWithBaselineResults result file in
      mkEvalResult (Timestamp result) (TestSuiteName result) (TotalTests result)
        (Passed result) (Failed result)
        (Z.of_nat (length (NewFailures comparison)))
        (TestResults result) (Some comparison)
  end.

(** [// Determine exit code] *)
Definition exitCode (ciMode : bool) (result : EvalResult) : Z :=
  if ciMode && ((0 <? Failed result) || (0 <? Regressions result))
  then 1 else 0.

(** [func runEvals(testsPath, baselinePath string, ciMode bool,
    outputFormat, configPath string) int].  What the run prints, and the
    copy of the result it writes to [.regrada/results.json] in CI mode,
    are not part of the model. *)
Definition runEvals (testsPath baselinePath : string) (ciMode : bool)
    (outputFormat configPath : string) : Outcome :=
  let config := evalConfig configPath outputFormat in
  match resolveTestsPath config testsPath with
  | None => NilConfigPanic
  | Some testsPath =>
      match loadTestSuite testsPath with
      | None => Returned 1 None
      | Some suite =>
          let result :=
            mkEvalResult (clock 0%nat) (SuiteName suite)
              (Z.of_nat (length (Tests suite))) 0 0 0 [] None in
          let verbose := negb (String.eqb outputFormat "json") in
          let '(result, _) :=
            foldl (runEvalsStep config verbose) (result, 1%nat) (Tests suite) in
          let result :=
            attachComparison result (baselineAt (resolveBaselinePath baselinePath)) in
          Returned (exitCode ciMode result) (Some result)
      end
  end.

End Runner.

End Eval.


(** ** JSON values, UTF-8 and the JSON encoding of a string
    ([encoding/json], [unicode/utf8]) *)

Module Json.

(** What [json.Unmarshal] stores in an [interface{}]: nil, a [bool], a
    [float64], a [string], a [[]interface{}] or a
    [map[string]interface{}].  The type [float64] is left abstract. *)
#[warnings="-register-all"]
Inductive value (float64 : Type) :=
| Null
| Bool (b : bool)
| Number (f : float64)
| Str (s : string)
| Array (elems : list (value float64))
| Object (fields : gmap string (value float64)).

Arguments Null {float64}.
Arguments Bool {float64} b.
Arguments Number {float64} f.
Arguments Str {float64} s.
Arguments Array {float64} elems.
Arguments Object {float64} fields.

(** The checked type assertions [v.(string)], [v.(float64)],
    [v.([]interface{})] and [v.(map[string]interface{})] on the result of
    a map lookup; a missing key yields the nil interface, on which every
    assertion fails. *)
Definition asString {F} (v : option (value F)) : option string :=
  match v with Some (Str s) => Some s | _ => None end.

Definition asNumber {F} (v : option (value F)) : option F :=
  match v with Some (Number f) => Some f | _ => None end.

Definition asArray {F} (v : option (value F)) : option (list (value F)) :=
  match v with Some (Array l) => Some l | _ => None end.

Definition asObject {F} (v : option (value F))
    : option (gmap string (value F)) :=
  match v with Some (Object m) => Some m | _ => None end.

(** [utf8.RuneError] *)
Definition RuneError : Z := 0xFFFD.

(** The table [first] of [unicode/utf8] for a lead byte of a multi-byte
    sequence: the length of the sequence and the range accepted for its
    second byte. *)
Definition leadInfo (b : Z) : option (nat * Z * Z) :=
  if b <? 0xC2 then None
  else if b <=? 0xDF then Some (2%nat, 0x80, 0xBF)
  else if b =? 0xE0 then Some (3%nat, 0xA0, 0xBF)
  else if b <=? 0xEC then Some (3%nat, 0x80, 0xBF)
  else if b =? 0xED then Some (3%nat, 0x80, 0x9F)
  else if b <=? 0xEF then Some (3%nat, 0x80, 0xBF)
  else if b =? 0xF0 then Some (4%nat, 0x90, 0xBF)
  else if b <=? 0xF3 then Some (4%nat, 0x80, 0xBF)
  else if b =? 0xF4 then Some (4%nat, 0x80, 0x8F)
  else None.

(** A continuation byte: [locb <= b <= hicb]. *)
Definition isCont (b : Z) : bool := (0x80 <=? b) && (b <=? 0xBF).

(** [utf8.DecodeRuneInString]: the first rune of [s] and its width;
    [(RuneError, 1)] for an invalid encoding. *)
Definition DecodeRune (s : string) : Z * nat :=
  match s with
  | EmptyString => (RuneError, 0%nat)
  | String c0 r0 =>
      let s0 := Go.byteVal c0 in
      if s0 <? 0x80 then (s0, 1%nat)
      else
        match leadInfo s0 with
        | None => (RuneError, 1%nat)
        | Some (sz, lo, hi) =>
            match r0 with
            | EmptyString => (RuneError, 1%nat)
            | String c1 r1 =>
                let s1 := Go.byteVal c1 in
                if (String.length s <? sz)%nat then (RuneError, 1%nat)
                else if (s1 <? lo) || (hi <? s1) then (RuneError, 1%nat)
                else if (sz <=? 2)%nat then
                  (Z.lor (Z.shiftl (Z.land s0 0x1F) 6) (Z.land s1 0x3F), 2%nat)
                else
                  match r1 with
                  | EmptyString => (RuneError, 1%nat)
                  | String c2 r2 =>
                      let s2 := Go.byteVal c2 in
                      if negb (isCont s2) then (RuneError, 1%nat)
                      else if (sz <=? 3)%nat then
                        (Z.lor (Z.lor (Z.shiftl (Z.land s0 0x0F) 12)
                                      (Z.shiftl (Z.land s1 0x3F) 6))
                               (Z.land s2 0x3F), 3%nat)
                      else
                        match r2 with
                        | EmptyString => (RuneError, 1%nat)
                        | String c3 _ =>
                            let s3 := Go.byteVal c3 in
                            if negb (isCont s3) then (RuneError, 1%nat)
                            else
                              (Z.lor (Z.lor (Z.lor
                                 (Z.shiftl (Z.land s0 0x07) 18)
                                 (Z.shiftl (Z.land s1 0x3F) 12))
                                 (Z.shiftl (Z.land s2 0x3F) 6))
                                 (Z.land s3 0x3F), 4%nat)
                        end
                  end
            end
        end
  end.

(** [s[:n]] and [s[n:]] *)
Fixpoint takeBytes (n : nat) (s : string) : string :=
  match n, s with
  | S n, String c r => String c (takeBytes n r)
  | _, _ => EmptyString
  end.

Fixpoint dropBytes (n : nat) (s : string) : string :=
  match n, s with
  | S n, String _ r => dropBytes n r
  | _, _ => s
  end.

(** [utf8.ValidString], by the loop of [DecodeRune]. *)
Fixpoint validUTF8Loop (fuel : nat) (s : string) : bool :=
  match fuel with
  | O => true
  | S fuel =>
      match s with
      | EmptyString => true
      | String _ rest =>
          let '(r, size) := DecodeRune s in
          if (r =? RuneError) && (size =? 1)%nat then false
          else validUTF8Loop fuel (dropBytes size s)
      end
  end.

Definition ValidString (s : string) : bool :=
  validUTF8Loop (String.length s) s.

(** The double quote and the reverse solidus. *)
Definition dquote : ascii := ascii_of_nat 34.
Definition backslash : ascii := ascii_of_nat 92.

(** [const hex = "0123456789abcdef"]; [hex[n]] *)
Definition hexDigit (n : Z) : ascii :=
  match String.get (Z.to_nat n) "0123456789abcdef" with
  | Some c => c
  | None => "0"%char
  end.

(** [htmlSafeSet[b]] for a byte below [utf8.RuneSelf]: the printable
    ASCII bytes but the double quote, the reverse solidus, and the three
    bytes that HTML escaping rewrites. *)
Definition htmlSafe (b : Z) : bool :=
  (0x20 <=? b) && (b <? 0x80)
  && negb ((b =? 0x22) || (b =? 0x5C) || (b =? 0x26) || (b =? 0x3C) || (b =? 0x3E)).

(** The [switch b] of [appendString] on a byte below [utf8.RuneSelf]
    (Go 1.22 and later, which write [\b] and [\f] in the short form). *)
Definition escapeByte (c : ascii) : string :=
  let b := Go.byteVal c in
  if htmlSafe b then String c EmptyString
  else if (b =? 0x5C) || (b =? 0x22) then String backslash (String c EmptyString)
  else if b =? 0x08 then String backslash "b"
  else if b =? 0x0C then String backslash "f"
  else if b =? 0x0A then String backslash "n"
  else if b =? 0x0D then String backslash "r"
  else if b =? 0x09 then String backslash "t"
  else String backslash
         (String "u" (String "0" (String "0"
           (String (hexDigit (Z.shiftr b 4))
             (String (hexDigit (Z.land b 0xF)) EmptyString))))).

(** The loop of [appendString(dst, src, escapeHTML = true)]: ASCII bytes
    are copied or escaped, an invalid byte becomes the escape of U+FFFD, U+2028 and
    U+2029 are escaped, every other rune is copied. *)
Fixpoint appendStringLoop (fuel : nat) (src : string) : string :=
  match fuel with
  | O => EmptyString
  | S fuel =>
      match src with
      | EmptyString => EmptyString
      | String c rest =>
          if Go.byteVal c <? 0x80 then
            escapeByte c +:+ appendStringLoop fuel rest
          else
            let '(r, size) := DecodeRune src in
            if (r =? RuneError) && (size =? 1)%nat then
              String backslash "ufffd" +:+ appendStringLoop fuel rest
            else if (r =? 0x2028) || (r =? 0x2029) then
              String backslash "u202"
                +:+ String (hexDigit (Z.land r 0xF)) EmptyString
                +:+ appendStringLoop fuel (dropBytes size src)
            else
              takeBytes size src +:+ appendStringLoop fuel (dropBytes size src)
      end
  end.

(** [json.Marshal(s)] for a Go string [s]: it never fails. *)
Definition MarshalString (s : string) : string :=
  String dquote (appendStringLoop (String.length s) s)
    +:+ String dquote EmptyString.

(** *** Reading a JSON string back

    The inverse of [MarshalString], by which the properties state that an
    encoding loses nothing: the decoder handles every escape that
    [appendString] writes. *)

(** The value of a hexadecimal digit. *)
Definition hexVal (c : ascii) : option Z :=
  let b := Go.byteVal c in
  if (0x30 <=? b) && (b <=? 0x39) then Some (b - 0x30)
  else if (0x61 <=? b) && (b <=? 0x66) then Some (b - 0x61 + 10)
  else if (0x41 <=? b) && (b <=? 0x46) then Some (b - 0x41 + 10)
  else None.

(** The UTF-8 encoding of a rune below [0x10000]. *)
Definition encodeRune (r : Z) : string :=
  if r <? 0x80 then String (Go.byteOf r) EmptyString
  else if r <? 0x800 then
    String (Go.byteOf (Z.lor 0xC0 (Z.shiftr r 6)))
      (String (Go.byteOf (Z.lor 0x80 (Z.land r 0x3F))) EmptyString)
  else
    String (Go.byteOf (Z.lor 0xE0 (Z.shiftr r 12)))
      (String (Go.byteOf (Z.lor 0x80 (Z.land (Z.shiftr r 6) 0x3F)))
        (String (Go.byteOf (Z.lor 0x80 (Z.land r 0x3F))) EmptyString)).

(** The byte that a one-letter escape stands for. *)
Definition unescape (c : ascii) : option ascii :=
  let b := Go.byteVal c in
  if (b =? 0x22) || (b =? 0x5C) || (b =? 0x2F) then Some c
  else if b =? 0x62 then Some (Go.byteOf 0x08)
  else if b =? 0x66 then Some (Go.byteOf 0x0C)
  else if b =? 0x6E then Some (Go.byteOf 0x0A)
  else if b =? 0x72 then Some (Go.byteOf 0x0D)
  else if b =? 0x74 then Some (Go.byteOf 0x09)
  else None.

(** The text between the quotes, up to the closing quote, which must be
    the last byte. *)
Fixpoint unquoteLoop (s : string) : option string :=
  match s with
  | EmptyString => None
  | String c rest =>
      if Ascii.eqb c dquote then
        match rest with EmptyString => Some EmptyString | _ => None end
      else if Ascii.eqb c backslash then
        match rest with
        | EmptyString => None
        | String e rest =>
            if Ascii.eqb e "u" then
              match rest with
              | String h1 (String h2 (String h3 (String h4 rest))) =>
                  match hexVal h1, hexVal h2, hexVal h3, hexVal h4 with
                  | Some d1, Some d2, Some d3, Some d4 =>
                      match unquoteLoop rest with
                      | Some out =>
                          Some (encodeRune (((d1 * 16 + d2) * 16 + d3) * 16 + d4)
                                  +:+ out)
                      | None => None
                      end
                  | _, _, _, _ => None
                  end
              | _ => None
              end
            else
              match unescape e, unquoteLoop rest with
              | Some b, Some out => Some (String b out)
              | _, _ => None
              end
        end
      else
        match unquoteLoop rest with
        | Some out => Some (String c out)
        | None => None
        end
  end.

(** The Go string that a JSON string, as written by [MarshalString],
    stands for. *)
Definition Unquote (s : string) : option string :=
  match s with
  | String c rest => if Ascii.eqb c dquote then unquoteLoop rest else None
  | EmptyString => None
  end.

(** *** Notions for the proof that the decoder undoes the encoder *)

(** The 256 bytes. *)
Definition allAscii : list ascii := List.map ascii_of_nat (seq 0 256).

(** The runes that [DecodeRune] computes from two, three and four bytes. *)
Definition rune2 (c0 c1 : ascii) : Z :=
  Z.lor (Z.shiftl (Z.land (Go.byteVal c0) 0x1F) 6) (Z.land (Go.byteVal c1) 0x3F).

Definition rune3 (c0 c1 c2 : ascii) : Z :=
  Z.lor (Z.lor (Z.shiftl (Z.land (Go.byteVal c0) 0x0F) 12)
               (Z.shiftl (Z.land (Go.byteVal c1) 0x3F) 6))
        (Z.land (Go.byteVal c2) 0x3F).

Definition rune4 (c0 c1 c2 c3 : ascii) : Z :=
  Z.lor (Z.lor (Z.lor (Z.shiftl (Z.land (Go.byteVal c0) 0x07) 18)
                      (Z.shiftl (Z.land (Go.byteVal c1) 0x3F) 12))
               (Z.shiftl (Z.land (Go.byteVal c2) 0x3F) 6))
        (Z.land (Go.byteVal c3) 0x3F).

(** U+2028 or U+2029. *)
Definition isSeparator (r : Z) : bool := (r =? 0x2028) || (r =? 0x2029).

(** The lead byte of a sequence of three, or of four, bytes. *)
Definition lead3 (c0 : ascii) : bool :=
  match leadInfo (Go.byteVal c0) with Some (3%nat, _, _) => true | _ => false end.

Definition lead4 (c0 : ascii) : bool :=
  match leadInfo (Go.byteVal c0) with Some (4%nat, _, _) => true | _ => false end.

(** A second byte in the range that its lead byte accepts. *)
Definition second (c0 c1 : ascii) : bool :=
  match leadInfo (Go.byteVal c0) with
  | Some (_, lo, hi) => negb ((Go.byteVal c1 <? lo) || (hi <? Go.byteVal c1))
  | None => false
  end.

(** A string of bytes none of which is ASCII. *)
Fixpoint allHigh (p : string) : bool :=
  match p with
  | EmptyString => true
  | String c rest => (0x80 <=? Go.byteVal c) && allHigh rest
  end.

End Json.

(** ** HTTP headers ([net/http], [net/textproto]) *)

Module Http.

(** [type Header map[string][]string] *)
Abbreviation Header := (gmap string (list string)).

(** [validHeaderFieldByte]: the token bytes of RFC 7230. *)
Definition validHeaderFieldByte (c : ascii) : bool :=
  let b := Go.byteVal c in
  ((0x30 <=? b) && (b <=? 0x39))
  || ((0x41 <=? b) && (b <=? 0x5A))
  || ((0x61 <=? b) && (b <=? 0x7A))
  || (0 <=? Go.IndexByte "!#$%&'*+-.^_`|~" c).

Fixpoint allValidHeaderFieldBytes (s : string) : bool :=
  match s with
  | EmptyString => true
  | String c rest => validHeaderFieldByte c && allValidHeaderFieldBytes rest
  end.

(** The case loop of [canonicalMIMEHeaderKey]: upper case for the first
    letter and for a letter after a dash, lower case elsewhere. *)
Fixpoint canonicalCase (upper : bool) (s : string) : string :=
  match s with
  | EmptyString => EmptyString
  | String c rest =>
      let b := Go.byteVal c in
      let c :=
        if upper && (0x61 <=? b) && (b <=? 0x7A) then Go.byteOf (b - 0x20)
        else if negb upper && (0x41 <=? b) && (b <=? 0x5A) then Go.byteOf (b + 0x20)
        else c in
      String c (canonicalCase (Ascii.eqb c "-") rest)
  end.

(** [textproto.CanonicalMIMEHeaderKey]: a key with a byte that is not a
    token byte is returned as it is. *)
Definition CanonicalMIMEHeaderKey (s : string) : string :=
  if allValidHeaderFieldBytes s then canonicalCase true s else s.

(** [h.Get(key)]: the first value under the canonical key, or [""]. *)
Definition Get (h : Header) (key : string) : string :=
  match h !! CanonicalMIMEHeaderKey key with
  | Some (v :: _) => v
  | _ => ""
  end.

(** [h.Add(key, value)] *)
Definition Add (h : Header) (key value : string) : Header :=
  let key := CanonicalMIMEHeaderKey key in
  <[key := (default [] (h !! key) ++ [value])%list]> h.

(** [h.Set(key, value)] *)
Definition Set_ (h : Header) (key value : string) : Header :=
  <[CanonicalMIMEHeaderKey key := [value]]> h.

(** [h.Del(key)] *)
Definition Del (h : Header) (key : string) : Header :=
  delete (CanonicalMIMEHeaderKey key) h.

(** [for key, values := range src { for _, value := range values
    { dst.Add(key, value) } }], over every key that [keep] retains. *)
Definition addAll (keep : string -> bool) (src dst : Header) : Header :=
  foldl (fun dst entry =>
           if keep entry.1
           then foldl (fun dst value => Add dst entry.1 value) dst entry.2
           else dst)
        dst (map_to_list src).

(** [http.StatusBadGateway] and [http.StatusInternalServerError] *)
Definition StatusBadGateway : Z := 502.
Definition StatusInternalServerError : Z := 500.

(** [type URL struct], the fields the proxy reads or writes. *)
Record URL := mkURL {
  Scheme : string;
  Host : string;
  Path : string;
  RawQuery : string
}.

(** The inbound [*http.Request]: [r.Method], [r.URL.Path],
    [r.URL.RawQuery], [r.Header], and what [io.ReadAll(r.Body)] returns
    ([None] for a nil [r.Body]). *)
Record Request := mkRequest {
  Method : string;
  URLPath : string;
  URLRawQuery : string;
  ReqHeader : Header;
  ReqBody : option string
}.

(** The outbound request built by [http.NewRequest] and the header loop. *)
Record ProxyRequest := mkProxyRequest {
  OutMethod : string;
  OutURL : URL;
  OutHeader : Header;
  OutBody : string
}.

(** The upstream [*http.Response]: status, headers and the bytes that
    reading [resp.Body] to its end yields. *)
Record Response := mkResponse {
  StatusCode : Z;
  RespHeader : Header;
  RespBody : string
}.

(** What [p.httpClient.Do(proxyReq)] returns. *)
Inductive DoResult :=
| DoError (err : string)
| DoOK (resp : Response).

(** What the handler has written to its [http.ResponseWriter]. *)
Record Written := mkWritten {
  WStatus : Z;
  WHeader : Header;
  WBody : string
}.

(** [http.Error(w, error, code)] on a fresh writer. *)
Definition Error (error : string) (code : Z) : Written :=
  mkWritten code
    (Set_ (Set_ ∅ "Content-Type" "text/plain; charset=utf-8")
          "X-Content-Type-Options" "nosniff")
    (error +:+ String (ascii_of_nat 10) EmptyString).

(** What [gzip.NewReader] and [io.ReadAll] make of a body: a header that
    is no gzip header, or the bytes read and whether the stream was read
    to its end without an error. *)
Inductive GzipResult :=
| GzipHeaderError
| GzipData (data : string) (complete : bool).

End Http.

(** ** The interception proxy ([cmd/trace.go]) *)

Module Proxy.

(** [type ToolCall struct]; a nil [json.RawMessage] is [None]. *)
Record ToolCall := mkToolCall {
  ToolID : string;
  ToolName : string;
  Args : option string;
  ToolResponse : option string
}.

(** [type TraceRequest struct] *)
Record TraceRequest := mkTraceRequest {
  ReqMethod : string;
  ReqPath : string;
  ReqHeaders : gmap string string;
  ReqBody : option string
}.

(** [type TraceResponse struct] *)
Record TraceResponse := mkTraceResponse {
  RespStatusCode : Z;
  RespHeaders : gmap string string;
  RespBody : option string
}.

(** [type LLMTrace struct]; [Metadata], which nothing sets, stays nil. *)
Record LLMTrace := mkLLMTrace {
  ID : string;
  Timestamp : Z;
  Provider : string;
  Endpoint : string;
  Model : string;
  Request : TraceRequest;
  Response : TraceResponse;
  Latency : Z;
  ToolCalls : list ToolCall;
  TokensIn : Z;
  TokensOut : Z
}.

(** [type LLMProxy struct]: the trace list, the configuration and the
    provider table.  The listener, the server, the HTTP client and the
    mutex are run-time resources; the lock makes each append atomic, so
    that the handlers act on [traces] one after the other, in the order
    in which they reach the append. *)
Record LLMProxy := mkLLMProxy {
  traces : list LLMTrace;
  config : Config.RegradaConfig;
  providers : gmap string Http.URL
}.

(** What one run of the handler meets: the inbound request, the readings
    of the monotonic clock at entry and after the upstream body is read,
    the wall-clock readings that [generateTraceID] and [createTrace]
    take, and the answer of the upstream to the outbound request. *)
Record Exchange := mkExchange {
  request : Http.Request;
  startTime : Z;
  endTime : Z;
  idTime : Z;
  stampTime : Z;
  upstream : Http.ProxyRequest -> Http.DoResult
}.

(** [url.Parse] of the two constants of [newLLMProxy]. *)
Definition openaiURL : Http.URL := Http.mkURL "https" "api.openai.com" "" "".
Definition anthropicURL : Http.URL := Http.mkURL "https" "api.anthropic.com" "" "".

(** [func generateTraceID() string], the wall clock reading [now]
    nanoseconds. *)
Definition generateTraceID (now : Z) : string := Go.Sprintd now.

(** [func getString(m map[string]interface{}, key string) string] *)
Definition getString {F} (m : gmap string (Json.value F)) (key : string)
    : string :=
  match Json.asString (m !! key) with
  | Some v => v
  | None => ""
  end.

(** The placeholder written over a credential. *)
Definition REDACTED : string := "[REDACTED]".

(** What becomes of the forwarding of one request: the provider is not
    in the table, the outbound request cannot be built, the transport
    fails, or the upstream answers. *)
Inductive Fate :=
| UnknownProvider
| RequestError (err : string)
| TransportError (err : string)
| Forwarded (resp : Http.Response).

Definition isForwarded (f : Fate) : bool :=
  match f with Forwarded _ => true | _ => false end.

Section Handler.

(** Go's library: [strings.ToLower]; the [float64] type and the
    conversion [int(f)]; [json.Unmarshal] into a
    [map[string]interface{}] (the map it leaves, its error being
    ignored by the caller) and into an [interface{}] (whether it returns
    no error); [json.Marshal] of a decoded value; [gzip]; [url.Parse],
    [URL.String] and the error of [http.NewRequest]. *)
Variable ToLower : string -> string.
Variable float64 : Type.
Variable int_of_float64 : float64 -> Z.
Variable json_Unmarshal_map : string -> gmap string (Json.value float64).
Variable json_Unmarshal_ok : string -> bool.
Variable json_Marshal : Json.value float64 -> option string.
Variable gunzip : string -> Http.GzipResult.
Variable url_Parse : string -> option Http.URL.
Variable URL_String : Http.URL -> string.
Variable http_NewRequest_error : string -> string -> option string.

(** The test [// Skip sensitive headers] of [flattenHeaders]. *)
Definition sensitive (key : string) : bool :=
  let lowerKey := ToLower key in
  String.eqb lowerKey "authorization"
  || String.eqb lowerKey "x-api-key"
  || String.eqb lowerKey "api-key".

(** One iteration of the loop of [flattenHeaders]. *)
Definition flattenStep (key : string) (values : list string)
    (result : gmap string string) : gmap string string :=
  if sensitive key then <[key := REDACTED]> result
  else <[key := Go.Join values ", "]> result.

(** [func flattenHeaders(h http.Header) map[string]string] *)
Definition flattenHeaders (h : Http.Header) : gmap string string :=
  map_fold flattenStep ∅ h.

(** What [flattenHeaders] stores under a key, from the values of the
    header. *)
Definition stored (key : string) (values : list string) : string :=
  if sensitive key then REDACTED else Go.Join values ", ".

(** [func sanitizeBody(body []byte) json.RawMessage]; [None] is nil. *)
Definition sanitizeBody (body : string) : option string :=
  if Go.len body =? 0 then None
  else if negb (json_Unmarshal_ok body) then Some (Json.MarshalString body)
  else Some body.

(** The token counts under [respData["usage"]], by the two key names. *)
Definition usageTokens (respData : gmap string (Json.value float64))
    (inKey outKey : string) : Z * Z :=
  match Json.asObject (respData !! "usage") with
  | Some usage =>
      (match Json.asNumber (usage !! inKey) with
       | Some pt => int_of_float64 pt
       | None => 0
       end,
       match Json.asNumber (usage !! outKey) with
       | Some ct => int_of_float64 ct
       | None => 0
       end)
  | None => (0, 0)
  end.

(** The body of the loop over [msg["tool_calls"]] (OpenAI). *)
Definition openaiToolStep (toolCalls : list ToolCall)
    (tc : Json.value float64) : list ToolCall :=
  match Json.asObject (Some tc) with
  | Some tcMap =>
      let toolCall := mkToolCall (getString tcMap "id") "" None None in
      let toolCall :=
        match Json.asObject (tcMap !! "function") with
        | Some fn =>
            mkToolCall (ToolID toolCall) (getString fn "name")
              (match Json.asString (fn !! "arguments") with
               | Some args => Some args
               | None => Args toolCall
               end)
              (ToolResponse toolCall)
        | None => toolCall
        end in
      (toolCalls ++ [toolCall])%list
  | None => toolCalls
  end.

(** The body of the loop over [respData["content"]] (Anthropic). *)
Definition anthropicToolStep (toolCalls : list ToolCall)
    (c : Json.value float64) : list ToolCall :=
  match Json.asObject (Some c) with
  | Some cMap =>
      match Json.asString (cMap !! "type") with
      | Some ty =>
          if String.eqb ty "tool_use" then
            let args :=
              match cMap !! "input" with
              | Some input => json_Marshal input
              | None => None
              end in
            (toolCalls ++ [mkToolCall (getString cMap "id")
                                      (getString cMap "name") args None])%list
          else toolCalls
      | None => toolCalls
      end
  | None => toolCalls
  end.

(** [func parseAPIDetails(provider string, reqBody, respBody []byte)
    (model string, tokensIn, tokensOut int, toolCalls []ToolCall)];
    [None] is the run-time panic of an index out of range. *)
Definition parseAPIDetails (provider reqBody respBody : string)
    : option (string * Z * Z * list ToolCall) :=
  let reqData := json_Unmarshal_map reqBody in
  let respData := json_Unmarshal_map respBody in
  let model := getString reqData "model" in
  if String.eqb provider "openai" then
    let '(tokensIn, tokensOut) :=
      usageTokens respData "prompt_tokens" "completion_tokens" in
    match Json.asArray (respData !! "choices") with
    | Some choices =>
        if (0 <? length choices)%nat then
          match choices !! 0%nat with
          | None => None
          | Some choice0 =>
              Some (model, tokensIn, tokensOut,
                    match Json.asObject (Some choice0) with
                    | Some choice =>
                        match Json.asObject (choice !! "message") with
                        | Some msg =>
                            match Json.asArray (msg !! "tool_calls") with
                            | Some tcs => foldl openaiToolStep [] tcs
                            | None => []
                            end
                        | None => []
                        end
                    | None => []
                    end)
          end
        else Some (model, tokensIn, tokensOut, [])
    | None => Some (model, tokensIn, tokensOut, [])
    end
  else if String.eqb provider "anthropic" then
    let '(tokensIn, tokensOut) :=
      usageTokens respData "input_tokens" "output_tokens" in
    Some (model, tokensIn, tokensOut,
          match Json.asArray (respData !! "content") with
          | Some content => foldl anthropicToolStep [] content
          | None => []
          end)
  else Some (model, 0, 0, []).

(** [func (p *LLMProxy) createTrace(provider, req, reqBody, resp,
    respBody, latency) LLMTrace] *)
Definition createTrace (provider : string) (req : Http.Request)
    (reqBody : string) (resp : Http.Response) (respBody : string)
    (latency idNow stampNow : Z) : option LLMTrace :=
  match parseAPIDetails provider reqBody respBody with
  | None => None
  | Some (model, tokensIn, tokensOut, toolCalls) =>
      Some (mkLLMTrace (generateTraceID idNow) stampNow provider
              (Http.URLPath req) model
              (mkTraceRequest (Http.Method req) (Http.URLPath req)
                 (flattenHeaders (Http.ReqHeader req)) (sanitizeBody reqBody))
              (mkTraceResponse (Http.StatusCode resp)
                 (flattenHeaders (Http.RespHeader resp)) (sanitizeBody respBody))
              (Go.toMilliseconds latency) toolCalls tokensIn tokensOut)
  end.

(** [func newLLMProxy(config *RegradaConfig)], once the listener is
    bound. *)
Definition newLLMProxy (config : Config.RegradaConfig) : LLMProxy :=
  let providers : gmap string Http.URL :=
    <["anthropic" := anthropicURL]> (<["openai" := openaiURL]> ∅) in
  let providers :=
    if negb (String.eqb (Config.BaseURL (Config.Provider config)) "") then
      match url_Parse (Config.BaseURL (Config.Provider config)) with
      | Some customURL => <["custom" := customURL]> providers
      | None => providers
      end
    else providers in
  mkLLMProxy [] config providers.

(** [// Determine target based on X-Regrada-Target header or path] *)
Definition targetProvider (r : Http.Request) : string :=
  let targetProvider := Http.Get (Http.ReqHeader r) "X-Regrada-Target" in
  if String.eqb targetProvider "" then "openai" else targetProvider.

(** [// Read response body] *)
Definition readResponseBody (resp : Http.Response) : string :=
  if String.eqb (Http.Get (Http.RespHeader resp) "Content-Encoding") "gzip" then
    match gunzip (Http.RespBody resp) with
    | Http.GzipHeaderError => ""
    | Http.GzipData data _ => data
    end
  else Http.RespBody resp.

(** [// Write response] *)
Definition writeResponse (resp : Http.Response) (responseBody : string)
    : Http.Written :=
  let header := Http.addAll (fun _ => true) (Http.RespHeader resp) ∅ in
  let header := Http.Del header "Content-Encoding" in
  let header := Http.Set_ header "Content-Length" (Go.Sprintd (Go.len responseBody)) in
  Http.mkWritten (Http.StatusCode resp) header responseBody.

(** [func (p *LLMProxy) handleRequest(w http.ResponseWriter, r *http.Request)]:
    the proxy after the call and what was written to [w] ([None] when
    the handler panicked). *)
Definition handleRequest (p : LLMProxy) (x : Exchange)
    : LLMProxy * option Http.Written :=
  let r := request x in
  let targetProvider := targetProvider r in
  match providers p !! targetProvider with
  | None => (p, Some (Http.Error "Unknown provider" Http.StatusBadGateway))
  | Some targetURL =>
      let requestBody := default "" (Http.ReqBody r) in
      let proxyURL :=
        Http.mkURL (Http.Scheme targetURL) (Http.Host targetURL)
          (Http.URLPath r) (Http.URLRawQuery r) in
      match http_NewRequest_error (Http.Method r) (URL_String proxyURL) with
      | Some err => (p, Some (Http.Error err Http.StatusInternalServerError))
      | None =>
          let proxyReq :=
            Http.mkProxyRequest (Http.Method r) proxyURL
              (Http.addAll (fun key => negb (Go.HasPrefix key "X-Regrada-"))
                 (Http.ReqHeader r) ∅)
              requestBody in
          match upstream x proxyReq with
          | Http.DoError err => (p, Some (Http.Error err Http.StatusBadGateway))
          | Http.DoOK resp =>
              let responseBody := readResponseBody resp in
              let latency := Go.Since (startTime x) (endTime x) in
              match createTrace targetProvider r requestBody resp responseBody
                      latency (idTime x) (stampTime x) with
              | None => (p, None)
              | Some trace =>
                  (mkLLMProxy (traces p ++ [trace])%list (config p) (providers p),
                   Some (writeResponse resp responseBody))
              end
          end
      end
  end.

(** The outbound request that the handler builds for [r] and a target. *)
Definition outbound (targetURL : Http.URL) (r : Http.Request)
    : Http.ProxyRequest :=
  Http.mkProxyRequest (Http.Method r)
    (Http.mkURL (Http.Scheme targetURL) (Http.Host targetURL)
       (Http.URLPath r) (Http.URLRawQuery r))
    (Http.addAll (fun key => negb (Go.HasPrefix key "X-Regrada-"))
       (Http.ReqHeader r) ∅)
    (default "" (Http.ReqBody r)).

(** The fate of the forwarding of [x] with a given provider table. *)
Definition fate (providers : gmap string Http.URL) (x : Exchange) : Fate :=
  match providers !! targetProvider (request x) with
  | None => UnknownProvider
  | Some targetURL =>
      let proxyReq := outbound targetURL (request x) in
      match http_NewRequest_error (Http.OutMethod proxyReq)
              (URL_String (Http.OutURL proxyReq)) with
      | Some err => RequestError err
      | None =>
          match upstream x proxyReq with
          | Http.DoError err => TransportError err
          | Http.DoOK resp => Forwarded resp
          end
      end
  end.

(** The clock of an exchange is monotonic and reads [int64] values. *)
Definition monotonic (x : Exchange) : Prop :=
  - 2 ^ 63 <= startTime x /\ startTime x <= endTime x /\ endTime x < 2 ^ 63.

(** [func (p *LLMProxy) getTraces() []LLMTrace]: a copy of the list. *)
Definition getTraces (p : LLMProxy) : list LLMTrace := ([] ++ traces p)%list.

(** The proxy after the handler has run on each exchange in turn. *)
Definition serve (p : LLMProxy) (xs : list Exchange) : LLMProxy :=
  foldl (fun p x => (handleRequest p x).1) p xs.

End Handler.

End Proxy.

(** ** Notions used to state the properties *)

Module Props.

Import Eval.

(** The status a list of results gives a name: that of the last result
    of that name (the map built from the list keeps the last write). *)
Definition statusIn (rs : list TestResult) (name : string) : option string :=
  Status <$> last (filter (fun tr => Name tr = name) rs).

(** The entries of the current results that the first loop files under
    new failures, new passes and added tests. *)
Definition isNewFailure (baselineResults : gmap string TestResult)
    (entry : string * TestResult) : bool :=
  match baselineResults !! entry.1 with
  | Some br => String.eqb (Status br) "passed" && String.eqb (Status entry.2) "failed"
  | None => false
  end.

Definition isNewPass (baselineResults : gmap string TestResult)
    (entry : string * TestResult) : bool :=
  match baselineResults !! entry.1 with
  | Some br =>
      negb (String.eqb (Status br) "passed" && String.eqb (Status entry.2) "failed")
      && (String.eqb (Status br) "failed" && String.eqb (Status entry.2) "passed")
  | None => false
  end.

Definition isAdded (baselineResults : gmap string TestResult)
    (entry : string * TestResult) : bool :=
  match baselineResults !! entry.1 with
  | Some _ => false
  | None => true
  end.

Definition isRemoved (currentResults : gmap string TestResult)
    (entry : string * TestResult) : bool :=
  match currentResults !! entry.1 with
  | Some _ => false
  | None => true
  end.

(** How the comparison files a name. *)
Inductive Class :=
| NewFailure
| NewPass
| Added
| Removed
| Unlisted.

(** The class the code gives a name, from the status the baseline and
    the current results give it ([None] when the name is absent). *)
Definition classOf (baselineStatus currentStatus : option string) : Class :=
  match baselineStatus, currentStatus with
  | None, None => Unlisted
  | None, Some _ => Added
  | Some _, None => Removed
  | Some b, Some c =>
      if String.eqb b "passed" && String.eqb c "failed" then NewFailure
      else if String.eqb b "failed" && String.eqb c "passed" then NewPass
      else Unlisted
  end.

(** A name is in the list of its class and in no other of the four. *)
Definition listedAs (name : string) (c : BaselineComparison) (k : Class)
    : Prop :=
  (name ∈ NewFailures c ↔ k = NewFailure)
  ∧ (name ∈ NewPasses c ↔ k = NewPass)
  ∧ (name ∈ AddedTests c ↔ k = Added)
  ∧ (name ∈ RemovedTests c ↔ k = Removed).

(** The statuses that [runTest] sets. *)
Definition passedOrFailed (t : TestResult) : Prop :=
  Status t = "passed" ∨ Status t = "failed".

(** What the loop of [runEvals] over the tests keeps true of the result
    it builds. *)
Definition tallied (r : EvalResult) : Prop :=
  Failed r = Z.of_nat (length (filter (fun t => Status t = "failed") (TestResults r)))
  ∧ Regressions r = 0 ∧ Comparison r = None.

(** A test result and an eval result with the fields the comparison
    reads, the others being zero. *)
Definition result (name status : string) : TestResult :=
  mkTestResult name status 0 [] "" false.

Definition evalOf (rs : list TestResult) : EvalResult :=
  mkEvalResult 0 "" (Z.of_nat (length rs)) 0 0 0 rs None.

End Props.

(** ** Concrete inputs

    The functions of Go's library on the inputs below (the stand-ins
    agree with the library there; the gzip layer is a mock that marks
    what it unpacks), and the inputs on which the properties are run. *)

Module Sample.

Import Eval Props.

(** [strings.ToLower] on a string of ASCII bytes. *)
Fixpoint asciiToLower (s : string) : string :=
  match s with
  | EmptyString => EmptyString
  | String c rest =>
      let b := Go.byteVal c in
      String (if (0x41 <=? b) && (b <=? 0x5A) then Go.byteOf (b + 0x20) else c)
             (asciiToLower rest)
  end.

(** [strings.TrimSpace] on a string without white space. *)
Definition noSpace (s : string) : string := s.

(** [filepath.Join] on clean relative elements. *)
Definition joinPath (elems : list string) : string := Go.Join elems "/".

(** A text between double quotes. *)
Definition quoted (s : string) : string :=
  String Json.dquote s +:+ String Json.dquote EmptyString.

(** The JSON text of an object with the one field [model]. *)
Definition modelBody (model : string) : string :=
  "{" +:+ quoted "model" +:+ ":" +:+ quoted model +:+ "}".

(** [json.Unmarshal] into a map, on the body [modelBody "gpt-4"] and on
    bodies that are no JSON object. *)
Definition decodeMap (body : string) : gmap string (Json.value Z) :=
  if String.eqb body (modelBody "gpt-4")
  then {[ "model" := Json.Str "gpt-4" ]}
  else ∅.

(** The verdict of [json.Unmarshal] on the bodies below: only
    [modelBody "gpt-4"] is JSON. *)
Definition decodeOK (body : string) : bool :=
  String.eqb body (modelBody "gpt-4").

(** [json.Marshal] is not reached by the runs below. *)
Definition encode (v : Json.value Z) : option string := None.

(** A mock of the gzip layer: every body unpacks, to itself after a
    mark. *)
Definition gunzip (body : string) : Http.GzipResult :=
  Http.GzipData ("plain:" +:+ body) true.

Definition parseURL (s : string) : option Http.URL := None.

Definition showURL (u : Http.URL) : string :=
  Http.Scheme u +:+ "://" +:+ Http.Host u +:+ Http.Path u.

Definition newRequestError (method url : string) : option string := None.

(** The model of the proxy on these stand-ins. *)
Definition flattenHeaders := Proxy.flattenHeaders asciiToLower.
Definition sanitizeBody := Proxy.sanitizeBody decodeOK.
Definition parseAPIDetails :=
  Proxy.parseAPIDetails Z (fun f => f) decodeMap encode.
Definition handleRequest :=
  Proxy.handleRequest asciiToLower Z (fun f => f) decodeMap decodeOK encode
    gunzip showURL newRequestError.
Definition newLLMProxy := Proxy.newLLMProxy parseURL.
Definition serve :=
  Proxy.serve asciiToLower Z (fun f => f) decodeMap decodeOK encode
    gunzip showURL newRequestError.
Definition fate := Proxy.fate showURL newRequestError.

(** Two headers that carry the same credential. *)
Definition credentialHeaders : Http.Header :=
  {[ "Authorization" := ["Bearer secret123"];
     "Proxy-Authorization" := ["Bearer secret123"] ]}.

(** The bytes 0xFF and 0xFE, which are no UTF-8. *)
Definition byteFF : string := String (ascii_of_nat 255) EmptyString.
Definition byteFE : string := String (ascii_of_nat 254) EmptyString.

(** A configuration that names Anthropic as its provider. *)
Definition anthropicConfig : Config.RegradaConfig :=
  Config.mkRegradaConfig "1" "demo" "local"
    (Config.mkProviderConfig "anthropic" "" "claude-3")
    (Config.mkCaptureConfig true true true true)
    (Config.mkEvalsConfig "evals" [] "30s" 1)
    (Config.mkGateConfig true "regression")
    (Config.mkOutputConfig "text" false).

(** An upstream that answers 200 with the host it was reached at. *)
Definition echoHost (req : Http.ProxyRequest) : Http.DoResult :=
  Http.DoOK (Http.mkResponse 200 ∅ (Http.Host (Http.OutURL req))).

(** An upstream that answers 200 with a gzip-encoded body. *)
Definition gzipUpstream (req : Http.ProxyRequest) : Http.DoResult :=
  Http.DoOK (Http.mkResponse 200
               {[ "Content-Encoding" := ["gzip"]; "Content-Length" := ["3"] ]}
               "zip").

(** An upstream that cannot be reached. *)
Definition unreachable (req : Http.ProxyRequest) : Http.DoResult :=
  Http.DoError "dial tcp: connection refused".

(** A POST without the header [X-Regrada-Target]. *)
Definition plainRequest : Http.Request :=
  Http.mkRequest "POST" "/v1/chat/completions" ""
    {[ "Content-Type" := ["application/json"] ]}
    (Some (modelBody "gpt-4")).

Definition exchange (upstream : Http.ProxyRequest -> Http.DoResult)
    : Proxy.Exchange :=
  Proxy.mkExchange plainRequest 1000000 43000000 1700000000 1700000001 upstream.

(** The suite of the demo: the second test has the failing check. *)
Definition demoSuite : TestSuite :=
  mkTestSuite "demo" ""
    [ mkTestCase "A" "prompts/a.txt" ["schema_valid"];
      mkTestCase "B" "prompts/b.txt" ["schema_valid"; "INTENTIONAL_FAIL"];
      mkTestCase "C" "prompts/c.txt" ["stays_on_topic"] ].

(** The baseline of the demo: [A] and [B] passed. *)
Definition demoBaseline : EvalResult :=
  evalOf [result "A" "passed"; result "B" "passed"].

Definition demoRun (ciMode : bool) : Outcome :=
  runEvals noSpace joinPath (fun _ => None) (fun _ => Some demoSuite)
    (fun _ => Decoded demoBaseline) (fun n => Z.of_nat n)
    "" "" ciMode "text" ".regrada.yaml".

End Sample.

(** ** The summary of a session and its comparison with a baseline
    ([cmd/trace.go]) *)

Module Session.

Import Proxy.

(** [type TraceSummary struct] *)
Record TraceSummary := mkTraceSummary {
  TotalCalls : Z;
  TotalTokensIn : Z;
  TotalTokensOut : Z;
  TotalLatency : Z;
  ByProvider : gmap string Z;
  ByModel : gmap string Z;
  ToolsCalled : list string
}.

(** [type TraceSession struct] *)
Record TraceSession := mkTraceSession {
  SessionID : string;
  StartTime : Z;
  EndTime : Z;
  Command : string;
  Traces : list LLMTrace;
  Summary : TraceSummary
}.

(** [m[key]++] on a [map[string]int]: a missing key reads as 0.  The
    count of the elements of a slice stays below the length of the
    slice and does not wrap. *)
Definition increment (m : gmap string Z) (key : string) : gmap string Z :=
  <[key := default 0 (m !! key) + 1]> m.

(** The body of the loop over [traces] in [calculateSummary], on the
    summary and the set of tool names; the sums of [int] and of
    [time.Duration] wrap at 64 bits. *)
Definition summaryStep (acc : TraceSummary * gmap string bool) (t : LLMTrace)
    : TraceSummary * gmap string bool :=
  let '(summary, toolSet) := acc in
  (mkTraceSummary (TotalCalls summary)
     (Go.wrap64 (TotalTokensIn summary + TokensIn t))
     (Go.wrap64 (TotalTokensOut summary + TokensOut t))
     (Go.wrap64 (TotalLatency summary + Latency t))
     (increment (ByProvider summary) (Provider t))
     (if negb (String.eqb (Model t) "") then increment (ByModel summary) (Model t)
      else ByModel summary)
     (ToolsCalled summary),
   foldl (fun toolSet tc => <[ToolName tc := true]> toolSet) toolSet (ToolCalls t)).

(** [func calculateSummary(traces []LLMTrace) TraceSummary] *)
Definition calculateSummary (traces : list LLMTrace) : TraceSummary :=
  let summary := mkTraceSummary (Z.of_nat (length traces)) 0 0 0 ∅ ∅ [] in
  let '(summary, toolSet) := foldl summaryStep (summary, ∅) traces in
  mkTraceSummary (TotalCalls summary) (TotalTokensIn summary)
    (TotalTokensOut summary) (TotalLatency summary) (ByProvider summary)
    (ByModel summary)
    (foldl (fun tools entry => (tools ++ [entry.1])%list) (ToolsCalled summary)
       (map_to_list toolSet)).

(** What reading the baseline of a session produced. *)
Inductive BaselineFile :=
| Missing
| Unreadable
| Decoded (baseline : TraceSession).

(** What [compareWithBaseline] prints, line by line: the empty line and
    the heading, [Call count changed: b → c], [Call count unchanged: c],
    [New tool called: t], [Tool no longer called: t],
    [Model m usage changed: b → c], [New model used: m] and
    [Token usage <direction> by n]. *)
Inductive Line :=
| Blank
| Heading
| CallCountChanged (baselineCalls calls : Z)
| CallCountUnchanged (calls : Z)
| NewTool (tool : string)
| ToolGone (tool : string)
| ModelUsageChanged (model : string) (baselineCount count : Z)
| NewModel (model : string)
| TokenUsage (direction : string) (amount : Z).

(** [m := make(map[string]bool); for _, t := range tools { m[t] = true }] *)
Definition toolSetOf (tools : list string) : gmap string bool :=
  foldl (fun m t => <[t := true]> m) ∅ tools.

(** [m[tool]] on a [map[string]bool]: a missing key reads as [false]. *)
Definition called (m : gmap string bool) (tool : string) : bool :=
  default false (m !! tool).

(** The lines about the models: the loop over [session.Summary.ByModel]. *)
Definition modelLine (baselineByModel : gmap string Z)
    (entry : string * Z) : list Line :=
  match baselineByModel !! entry.1 with
  | Some baselineCount =>
      if negb (entry.2 =? baselineCount)
      then [ModelUsageChanged entry.1 baselineCount entry.2]
      else []
  | None => [NewModel entry.1]
  end.

(** The line about the tokens. *)
Definition tokenLines (summary baseline : TraceSummary) : list Line :=
  let tokenDiff :=
    Go.wrap64 (Go.wrap64 (TotalTokensIn summary + TotalTokensOut summary)
               - Go.wrap64 (TotalTokensIn baseline + TotalTokensOut baseline)) in
  if negb (tokenDiff =? 0) then
    if tokenDiff <? 0 then [TokenUsage "decreased" (Go.wrap64 (- tokenDiff))]
    else [TokenUsage "increased" tokenDiff]
  else [].

(** [func compareWithBaseline(session *TraceSession, baselinePath string,
    successStyle, warnStyle lipgloss.Style)]: the lines it prints. *)
Definition compareWithBaseline (session : TraceSession) (file : BaselineFile)
    : list Line :=
  match file with
  | Missing | Unreadable => []
  | Decoded baseline =>
      let s := Summary session in
      let b := Summary baseline in
      let baselineTools := toolSetOf (ToolsCalled b) in
      let currentTools := toolSetOf (ToolsCalled s) in
      ([Blank; Heading]
      ++ [if negb (TotalCalls s =? TotalCalls b)
          then CallCountChanged (TotalCalls b) (TotalCalls s)
          else CallCountUnchanged (TotalCalls s)]
      ++ flat_map (fun entry => if negb (called baselineTools entry.1)
                                then [NewTool entry.1] else [])
           (map_to_list currentTools)
      ++ flat_map (fun entry => if negb (called currentTools entry.1)
                                then [ToolGone entry.1] else [])
           (map_to_list baselineTools)
      ++ flat_map (modelLine (ByModel b)) (map_to_list (ByModel s))
      ++ tokenLines s b)%list
  end.

End Session.

(** ** The GitHub Actions output of an eval run ([cmd/run.go]) *)

Module GitHub.

Import Eval.

(** The lines [  - check: message] of the failed checks of a test. *)
Definition failedCheckLines (tr : TestResult) : list string :=
  flat_map (fun cr =>
              if negb (CheckPassed cr)
              then ["  - " +:+ Check cr +:+ ": " +:+ Message cr]
              else [])
    (CheckResults tr).

(** The lines of one test result in the group [Test Results]. *)
Definition testLines (tr : TestResult) : list string :=
  if String.eqb (Status tr) "passed" then ["✓ " +:+ Name tr]
  else ("✗ " +:+ Name tr) :: failedCheckLines tr.

(** [// Report regressions as errors] *)
Definition regressionLines (result : EvalResult) : list string :=
  match Comparison result with
  | Some comparison =>
      if (0 <? length (NewFailures comparison))%nat then
        (["::group::Regressions Detected"]
         ++ List.map (fun name =>
                        "::error title=Regression::" +:+ name
                          +:+ " failed (was passing in baseline)")
              (NewFailures comparison)
         ++ ["::endgroup::"])%list
      else []
  | None => []
  end.

(** [// Summary] *)
Definition summaryLine (result : EvalResult) : string :=
  if 0 <? Regressions result then
    "::error::" +:+ Go.Sprintd (Regressions result)
      +:+ " regression(s) detected. " +:+ Go.Sprintd (Passed result)
      +:+ "/" +:+ Go.Sprintd (TotalTests result) +:+ " tests passed."
  else if 0 <? Failed result then
    "::warning::" +:+ Go.Sprintd (Failed result)
      +:+ " test(s) failed. " +:+ Go.Sprintd (Passed result)
      +:+ "/" +:+ Go.Sprintd (TotalTests result) +:+ " tests passed."
  else
    "::notice::All " +:+ Go.Sprintd (TotalTests result) +:+ " tests passed.".

(** [func outputGitHub(result *EvalResult, ciMode bool)]: the text of
    each of its print calls, without the final newline. *)
Definition outputGitHub (result : EvalResult) (ciMode : bool) : list string :=
  (["::set-output name=total::" +:+ Go.Sprintd (TotalTests result);
    "::set-output name=passed::" +:+ Go.Sprintd (Passed result);
    "::set-output name=failed::" +:+ Go.Sprintd (Failed result);
    "::set-output name=regressions::" +:+ Go.Sprintd (Regressions result);
    "::group::Test Results"]
   ++ flat_map testLines (TestResults result)
   ++ ["::endgroup::"]
   ++ regressionLines result
   ++ [summaryLine result])%list.

End GitHub.

(** ** Notions used to state further properties *)

Module Props2.

Import Eval.

(** The type of a check specification, as [runCheck] reads it: the
    trimmed text before the first colon, when a colon comes after the
    first byte, and the whole specification otherwise. *)
Definition checkTypeOf (TrimSpace : string -> string) (check : string)
    : string :=
  let idx := Go.IndexByte check ":" in
  if 0 <? idx then TrimSpace (Go.slice check 0 idx) else check.

(** The one check type that fails. *)
Definition failing (TrimSpace : string -> string) (check : string) : bool :=
  String.eqb (checkTypeOf TrimSpace check) "INTENTIONAL_FAIL".

(** A test result is what [runTest] returns for a test, at some reading
    of the clock. *)
Definition ranTest (TrimSpace : string -> string) (clock : nat -> Z)
    (config : option Config.RegradaConfig) (verbose : bool)
    (test : TestCase) (tr : TestResult) : Prop :=
  exists tick, tr = (runTest TrimSpace clock test config verbose tick).1.

(** Every key of a header map is in canonical form, as the keys of the
    header maps that [net/http] builds are. *)
Definition canonicalKeys (h : Http.Header) : bool :=
  forallb (fun entry => String.eqb (Http.CanonicalMIMEHeaderKey entry.1) entry.1)
    (map_to_list h).

(** The values that [Header.Add] stores for a header: a header without
    values leaves no entry. *)
Definition copied (values : option (list string)) : option (list string) :=
  match values with
  | Some (v :: vs) => Some (v :: vs)
  | _ => None
  end.

(** The number of elements of a list that satisfy a test. *)
Definition count {A} (P : A -> bool) (l : list A) : Z :=
  Z.of_nat (length (List.filter P l)).

(** The sum of the values of a map of counts. *)
Definition total (m : gmap string Z) : Z :=
  map_fold (fun _ n sum => n + sum) 0 m.

(** The sum of a field over the traces. *)
Definition sumOf (f : Proxy.LLMTrace -> Z) (traces : list Proxy.LLMTrace) : Z :=
  foldr (fun t sum => f t + sum) 0 traces.

(** A trace holds a call of the tool. *)
Definition callsTool (tool : string) (t : Proxy.LLMTrace) : bool :=
  existsb (fun tc => String.eqb (Proxy.ToolName tc) tool) (Proxy.ToolCalls t).

End Props2.

(** ** Further concrete inputs *)

Module Sample2.

Import Proxy Session.

(** A trace of a call to OpenAI that called the tool [search], and a
    trace of a call to Anthropic without tool call. *)
Definition searchTrace : LLMTrace :=
  mkLLMTrace "1700000000" 1700000001 "openai" "/v1/chat/completions" "gpt-4"
    (mkTraceRequest "POST" "/v1/chat/completions" ∅ None)
    (mkTraceResponse 200 ∅ None)
    42 [mkToolCall "call_1" "search" None None] 100 20.

Definition plainTrace : LLMTrace :=
  mkLLMTrace "1700000002" 1700000003 "anthropic" "/v1/messages" "claude-3"
    (mkTraceRequest "POST" "/v1/messages" ∅ None)
    (mkTraceResponse 200 ∅ None)
    17 [] 50 10.

(** The session that [runTrace] makes of a list of traces. *)
Definition sessionOf (traces : list LLMTrace) : TraceSession :=
  mkTraceSession "1700000000" 0 1 "python agent.py" traces
    (calculateSummary traces).

(** A request for Anthropic, with its key. *)
Definition targetedRequest : Http.Request :=
  Http.mkRequest "POST" "/v1/messages" "beta=true"
    {[ "X-Regrada-Target" := ["anthropic"];
       "X-Api-Key" := ["sk-ant-1"];
       "Accept" := ["application/json"; "text/plain"] ]}
    (Some "{}").

Definition targetedExchange (upstream : Http.ProxyRequest -> Http.DoResult)
    : Exchange :=
  mkExchange targetedRequest 1000000 43000000 1700000000 1700000001 upstream.

(** An upstream that answers 200 with two cookies and a body that is no
    JSON. *)
Definition cookieUpstream (req : Http.ProxyRequest) : Http.DoResult :=
  Http.DoOK (Http.mkResponse 200
               {[ "Set-Cookie" := ["a=1"; "b=2"]; "Content-Length" := ["2"] ]}
               "ok").

(** The run of the demo with the GitHub output. *)
Definition githubRun (ciMode : bool) : Eval.Outcome :=
  (Eval.runEvals Sample.noSpace Sample.joinPath (fun _ => None)
     (fun _ => Some Sample.demoSuite)
     (fun _ => Eval.Decoded Sample.demoBaseline) (fun n => Z.of_nat n)
     "" "" ciMode "github" ".regrada.yaml").

End Sample2.

(** ** The environment of the traced command ([cmd/trace.go]) *)

Module TraceEnv.

(** [func buildProxyEnv(proxyAddr string, config *RegradaConfig) []string],
    [os.Environ()] being given. *)
Definition buildProxyEnv (environ : list string) (proxyAddr : string)
    (config : Config.RegradaConfig) : list string :=
  let env := environ in
  let proxyURL := "http://" +:+ proxyAddr in
  let env := (env ++ ["OPENAI_BASE_URL=" +:+ proxyURL])%list in
  let env := (env ++ ["OPENAI_API_BASE=" +:+ proxyURL])%list in
  let env := (env ++ ["ANTHROPIC_BASE_URL=" +:+ proxyURL])%list in
  let env := (env ++ ["AZURE_OPENAI_ENDPOINT=" +:+ proxyURL])%list in
  let env := (env ++ ["LLM_API_BASE=" +:+ proxyURL])%list in
  let env := (env ++ ["REGRADA_PROXY=" +:+ proxyURL])%list in
  let env := (env ++ ["REGRADA_TRACING=1"])%list in
  env.

(** The value that an entry [key=value] of an environment gives a key:
    the text after the first [=], when the text before it is the key. *)
Definition entryFor (key entry : string) : option string :=
  let idx := Go.IndexByte entry "=" in
  if idx <? 0 then None
  else if String.eqb (Go.slice entry 0 idx) key
       then Some (Go.slice entry (idx + 1) (Go.len entry))
       else None.

(** What the command started with [cmd.Env = env] finds for a key
    ([os/exec]: of duplicate keys, the last entry of the slice is the
    one used). *)
Definition Getenv (env : list string) (key : string) : option string :=
  last (omap (entryFor key) env).

(** The variables that [buildProxyEnv] points to the proxy. *)
Definition proxyVariables : list string :=
  ["OPENAI_BASE_URL"; "OPENAI_API_BASE"; "ANTHROPIC_BASE_URL";
   "AZURE_OPENAI_ENDPOINT"; "LLM_API_BASE"; "REGRADA_PROXY"].

End TraceEnv.

(** * Properties *)

(** ** The comparison with a baseline *)

Section ComparisonFacts.

Import Eval Props.

Lemma indexByName_snoc rs x :
  indexByName (rs ++ [x]) = <[Name x := x]> (indexByName rs).
Proof. unfold indexByName. by rewrite foldl_app. Qed.

(** The map built from a list gives a name the last result of that name. *)
Lemma indexByName_lookup rs n :
  indexByName rs !! n = last (filter (fun tr => Name tr = n) rs).
Proof.
  induction rs as [|x rs IH] using rev_ind;
    [unfold indexByName; cbn; by rewrite lookup_empty|].
  rewrite indexByName_snoc, filter_app.
  destruct (decide (Name x = n)) as [Heq|Hne].
  - rewrite Heq, lookup_insert_eq.
    rewrite filter_cons_True by done. rewrite filter_nil.
    by rewrite last_snoc.
  - rewrite lookup_insert_ne by done.
    rewrite filter_cons_False by done. by rewrite filter_nil, app_nil_r.
Qed.

Lemma statusIn_index rs n : statusIn rs n = Status <$> indexByName rs !! n.
Proof. unfold statusIn. by rewrite indexByName_lookup. Qed.

(** A name has a status in a list exactly when a result of the list
    bears it. *)
Lemma statusIn_is_Some rs n : is_Some (statusIn rs n) ↔ n ∈ Name <$> rs.
Proof.
  rewrite statusIn_index, fmap_is_Some.
  induction rs as [|x rs IH] using rev_ind.
  - unfold indexByName; cbn. rewrite lookup_empty. split.
    + by intros [? ?].
    + intros H. by apply elem_of_nil in H.
  - rewrite indexByName_snoc, fmap_app, elem_of_app. cbn.
    rewrite list_elem_of_singleton.
    destruct (decide (Name x = n)) as [Heq|Hne].
    + rewrite Heq, lookup_insert_eq. split; [by right|by eexists].
    + rewrite lookup_insert_ne by done. rewrite IH. split; [by left|].
      intros [H|H]; [done|]. by destruct Hne.
Qed.

(** The first loop, as three filters of the enumeration. *)
Lemma compareStep_fold B acc l :
  foldl (compareStep B) acc l =
  mkBaselineComparison (BaselineDate acc)
    (NewFailures acc ++ (fst <$> filter (fun e => isNewFailure B e = true) l))
    (NewPasses acc ++ (fst <$> filter (fun e => isNewPass B e = true) l))
    (RemovedTests acc)
    (AddedTests acc ++ (fst <$> filter (fun e => isAdded B e = true) l))
    (BehaviorChanges acc).
Proof.
  revert acc. induction l as [|[n cr] l IH]; intros acc.
  - cbn. rewrite !app_nil_r. by destruct acc.
  - cbn [foldl]. rewrite IH. clear IH.
    rewrite !filter_cons.
    unfold compareStep, isNewFailure, isNewPass, isAdded. cbn [fst snd].
    destruct (B !! n) as [br|]; cbn.
    + destruct (String.eqb (Status br) "passed" && String.eqb (Status cr) "failed")
        eqn:E1; cbn.
      * by rewrite <- !app_assoc.
      * destruct (String.eqb (Status br) "failed" && String.eqb (Status cr) "passed")
          eqn:E2; cbn; [by rewrite <- !app_assoc|done].
    + by rewrite <- !app_assoc.
Qed.

(** The second loop, as a filter of the enumeration. *)
Lemma removedStep_fold C acc l :
  foldl (removedStep C) acc l =
  mkBaselineComparison (BaselineDate acc) (NewFailures acc) (NewPasses acc)
    (RemovedTests acc ++ (fst <$> filter (fun e => isRemoved C e = true) l))
    (AddedTests acc) (BehaviorChanges acc).
Proof.
  revert acc. induction l as [|[n br] l IH]; intros acc.
  - cbn. rewrite !app_nil_r. by destruct acc.
  - cbn [foldl]. rewrite IH. clear IH.
    rewrite !filter_cons. unfold removedStep, isRemoved. cbn [fst snd].
    destruct (C !! n); cbn; [done|]. by rewrite <- !app_assoc.
Qed.

Lemma compareLoops_eq d B C lc lb :
  compareLoops d B C lc lb =
  mkBaselineComparison d
    (fst <$> filter (fun e => isNewFailure B e = true) lc)
    (fst <$> filter (fun e => isNewPass B e = true) lc)
    (fst <$> filter (fun e => isRemoved C e = true) lb)
    (fst <$> filter (fun e => isAdded B e = true) lc)
    [].
Proof.
  unfold compareLoops. by rewrite removedStep_fold, compareStep_fold.
Qed.

(** The order in which the two maps are ranged over permutes the lists
    and changes nothing else. *)
Lemma compareLoops_order d B C lc lc' lb lb' :
  lc ≡ₚ lc' → lb ≡ₚ lb' →
  let c := compareLoops d B C lc lb in
  let c' := compareLoops d B C lc' lb' in
  NewFailures c ≡ₚ NewFailures c' ∧ NewPasses c ≡ₚ NewPasses c'
  ∧ RemovedTests c ≡ₚ RemovedTests c' ∧ AddedTests c ≡ₚ AddedTests c'
  ∧ BaselineDate c = BaselineDate c'.
Proof.
  intros Hc Hb. cbn. rewrite !compareLoops_eq. cbn.
  repeat split; by (rewrite Hc || rewrite Hb).
Qed.

(** Membership in a filtered enumeration of a map. *)
Lemma elem_of_filtered_keys (P : string * TestResult → bool)
    (m : gmap string TestResult) n :
  n ∈ fst <$> filter (fun e => P e = true) (map_to_list m)
  ↔ ∃ t, m !! n = Some t ∧ P (n, t) = true.
Proof.
  rewrite list_elem_of_fmap. split.
  - intros [[n' t] [-> H]]. apply list_elem_of_filter in H as [HP H].
    apply elem_of_map_to_list in H. eauto.
  - intros [t [H HP]]. exists (n, t). split; [done|].
    apply list_elem_of_filter. split; [done|]. by apply elem_of_map_to_list.
Qed.

Lemma NoDup_filtered_keys (P : string * TestResult → bool)
    (m : gmap string TestResult) :
  NoDup (fst <$> filter (fun e => P e = true) (map_to_list m)).
Proof.
  eapply NoDup_fmap_fst.
  - intros n t1 t2 H1 H2.
    apply list_elem_of_filter in H1 as [_ H1].
    apply list_elem_of_filter in H2 as [_ H2].
    apply elem_of_map_to_list in H1, H2. congruence.
  - apply NoDup_filter, NoDup_map_to_list.
Qed.

Section Membership.

Variables baseline current : EvalResult.

Abbreviation B := (indexByName (TestResults baseline)).
Abbreviation C := (indexByName (TestResults current)).
Abbreviation cmp := (compareWithBaselineResults current (Decoded baseline)).

Lemma in_NewFailures n :
  n ∈ NewFailures cmp ↔
  ∃ br cr, B !! n = Some br ∧ C !! n = Some cr
           ∧ Status br = "passed" ∧ Status cr = "failed".
Proof.
  unfold compareWithBaselineResults. rewrite compareLoops_eq. cbn.
  rewrite elem_of_filtered_keys. unfold isNewFailure. cbn.
  split.
  - intros [cr [HC H]]. destruct (B !! n) as [br|]; [|done].
    apply andb_true_iff in H as [H1 H2].
    apply String.eqb_eq in H1, H2. eauto 10.
  - intros (br & cr & HB & HC & H1 & H2). exists cr. by rewrite HB, H1, H2.
Qed.

Lemma in_NewPasses n :
  n ∈ NewPasses cmp ↔
  ∃ br cr, B !! n = Some br ∧ C !! n = Some cr
           ∧ Status br = "failed" ∧ Status cr = "passed".
Proof.
  unfold compareWithBaselineResults. rewrite compareLoops_eq. cbn.
  rewrite elem_of_filtered_keys. unfold isNewPass. cbn.
  split.
  - intros [cr [HC H]]. destruct (B !! n) as [br|]; [|done].
    apply andb_true_iff in H as [_ H]. apply andb_true_iff in H as [H1 H2].
    apply String.eqb_eq in H1, H2. eauto 10.
  - intros (br & cr & HB & HC & H1 & H2). exists cr. by rewrite HB, H1, H2.
Qed.

Lemma in_AddedTests n :
  n ∈ AddedTests cmp ↔ is_Some (C !! n) ∧ B !! n = None.
Proof.
  unfold compareWithBaselineResults. rewrite compareLoops_eq. cbn.
  rewrite elem_of_filtered_keys. unfold isAdded. cbn.
  split.
  - intros [cr [HC H]]. destruct (B !! n); [done|]. eauto.
  - intros [[cr HC] HB]. exists cr. by rewrite HB.
Qed.

Lemma in_RemovedTests n :
  n ∈ RemovedTests cmp ↔ is_Some (B !! n) ∧ C !! n = None.
Proof.
  unfold compareWithBaselineResults. rewrite compareLoops_eq. cbn.
  rewrite elem_of_filtered_keys. unfold isRemoved. cbn.
  split.
  - intros [br [HB H]]. destruct (C !! n); [done|]. eauto.
  - intros [[br HB] HC]. exists br. by rewrite HC.
Qed.

End Membership.

Lemma comparison_lists_NoDup baseline current :
  let cmp := compareWithBaselineResults current (Decoded baseline) in
  NoDup (NewFailures cmp) ∧ NoDup (NewPasses cmp)
  ∧ NoDup (AddedTests cmp) ∧ NoDup (RemovedTests cmp).
Proof.
  cbn. rewrite compareLoops_eq. cbn. repeat split; apply NoDup_filtered_keys.
Qed.

Lemma option_status_cases (m : gmap string TestResult) n :
  (m !! n = None ∧ Status <$> m !! n = None)
  ∨ (∃ t, m !! n = Some t ∧ Status <$> m !! n = Some (Status t)).
Proof. destruct (m !! n) as [t|]; [right|left]; eauto. Qed.

(** Opens the characterisations of the four lists into cases and closes
    those that equate different constructors or different statuses. *)
Ltac membership_cases :=
  repeat match goal with
         | |- _ ∧ _ => split
         | |- _ ↔ _ => split
         | |- _ → _ => intros ?
         | H : ∃ _, _ |- _ => destruct H
         | H : _ ∧ _ |- _ => destruct H
         | H : is_Some _ |- _ => destruct H
         end;
  simplify_eq;
  repeat match goal with
         | H : Status ?t = _, E : context [String.eqb (Status ?t)] |- _ =>
             rewrite H in E
         end;
  try congruence; try discriminate; eauto 10.

(** C1, as amended: the comparison files every test name by the status
    that the baseline and the current results give it (the status of the
    last result of that name, none when the name is absent).  A name that
    only the current results have is an added test, a name that only the
    baseline has is a removed test; a name that both have is a new
    failure when it went from [passed] to [failed], a new pass when it
    went from [failed] to [passed], and is in none of the four lists for
    every other pair of statuses, equal or not.  The name is in the list
    of its class alone, and no list holds a name twice.  (A list gives a
    name a status exactly when one of its results bears the name.) *)
Theorem compare_files_each_name_by_class
    (baseline current : EvalResult) (name : string) :
  let cmp := compareWithBaselineResults current (Decoded baseline) in
  listedAs name cmp
    (classOf (statusIn (TestResults baseline) name)
             (statusIn (TestResults current) name))
  ∧ (is_Some (statusIn (TestResults baseline) name)
     ↔ name ∈ Name <$> TestResults baseline)
  ∧ (is_Some (statusIn (TestResults current) name)
     ↔ name ∈ Name <$> TestResults current)
  ∧ NoDup (NewFailures cmp) ∧ NoDup (NewPasses cmp)
  ∧ NoDup (AddedTests cmp) ∧ NoDup (RemovedTests cmp).
Proof.
  intros cmp. split; [|split; [apply statusIn_is_Some|split;
    [apply statusIn_is_Some|apply comparison_lists_NoDup]]].
  unfold listedAs, cmp.
  rewrite in_NewFailures, in_NewPasses, in_AddedTests, in_RemovedTests.
  rewrite !statusIn_index.
  destruct (option_status_cases (indexByName (TestResults baseline)) name)
    as [[HB ->]|(br & HB & ->)];
  destruct (option_status_cases (indexByName (TestResults current)) name)
    as [[HC ->]|(cr & HC & ->)];
  rewrite HB, HC; cbn [classOf].
  - membership_cases.
  - membership_cases.
  - membership_cases.
  - destruct (String.eqb (Status br) "passed" && String.eqb (Status cr) "failed")
      eqn:E1.
    { apply andb_true_iff in E1 as [E1 E1']. apply String.eqb_eq in E1, E1'.
      membership_cases. }
    destruct (String.eqb (Status br) "failed" && String.eqb (Status cr) "passed")
      eqn:E2.
    { apply andb_true_iff in E2 as [E2 E2']. apply String.eqb_eq in E2, E2'.
      membership_cases. }
    membership_cases.
Qed.

(** C1, as stated, fails: a test whose status went from [error] to
    [passed] has two different statuses and is neither a new failure nor
    a new pass. *)
Lemma compare_leaves_out_error_status :
  statusIn (TestResults (evalOf [result "A" "error"])) "A" = Some "error"
  ∧ statusIn (TestResults (evalOf [result "A" "passed"])) "A" = Some "passed"
  ∧ "error" ≠ "passed"
  ∧ ¬ ("A" ∈ NewFailures (compareWithBaselineResults
          (evalOf [result "A" "passed"]) (Decoded (evalOf [result "A" "error"]))))
  ∧ ¬ ("A" ∈ NewPasses (compareWithBaselineResults
          (evalOf [result "A" "passed"]) (Decoded (evalOf [result "A" "error"])))).
Proof.
  split; [reflexivity|]. split; [reflexivity|]. split; [discriminate|].
  split; vm_compute; intros H; inversion H.
Qed.

(** C6: compared with itself as its baseline, an eval result has no new
    failure, no new pass, no added and no removed test. *)
Theorem compare_with_itself_is_empty (r : EvalResult) :
  NewFailures (compareWithBaselineResults r (Decoded r)) = []
  ∧ NewPasses (compareWithBaselineResults r (Decoded r)) = []
  ∧ AddedTests (compareWithBaselineResults r (Decoded r)) = []
  ∧ RemovedTests (compareWithBaselineResults r (Decoded r)) = [].
Proof.
  repeat split; apply elem_of_nil_inv; intros n.
  - rewrite in_NewFailures. intros (? & ? & ? & ? & ? & ?). simplify_eq. congruence.
  - rewrite in_NewPasses. intros (? & ? & ? & ? & ? & ?). simplify_eq. congruence.
  - rewrite in_AddedTests. intros [[? ?] ?]. congruence.
  - rewrite in_RemovedTests. intros [[? ?] ?]. congruence.
Qed.

End ComparisonFacts.

(** ** The eval run and its exit code *)

Section RunnerFacts.

Import Eval Props.

Variable TrimSpace : string → string.
Variable filepath_Join : list string → string.
Variable loadConfig : string → option Config.RegradaConfig.
Variable loadTestSuite : string → option TestSuite.
Variable baselineAt : string → BaselineFile.
Variable clock : nat → Z.

Lemma runTestStep_status test config r check :
  passedOrFailed r → passedOrFailed (runTestStep TrimSpace test config r check).
Proof.
  unfold passedOrFailed, runTestStep. cbn.
  destruct (CheckPassed _); [done|]. by right.
Qed.

(** A test ends [passed] or [failed]. *)
Lemma runTest_status test config verbose tick :
  passedOrFailed (runTest TrimSpace clock test config verbose tick).1.
Proof.
  unfold runTest. cbn.
  assert (H : ∀ checks r, passedOrFailed r →
            passedOrFailed (foldl (runTestStep TrimSpace test config) r checks)).
  { induction checks as [|c checks IH]; intros r Hr; [done|].
    cbn. apply IH. by apply runTestStep_status. }
  specialize (H (Checks test) (mkTestResult (CaseName test) "passed" 0 [] "" false)).
  unfold passedOrFailed in *. cbn in *. apply H. by left.
Qed.

Lemma runEvalsStep_tallied config verbose r tick test :
  tallied r →
  tallied (runEvalsStep TrimSpace clock config verbose (r, tick) test).1.
Proof.
  intros (HF & HR & HC). unfold runEvalsStep.
  pose proof (runTest_status test config verbose tick) as Hs.
  destruct (runTest TrimSpace clock test config verbose tick) as [t tick'].
  cbn in Hs. unfold tallied. cbn. rewrite filter_app, length_app.
  repeat split; [|done|done].
  destruct Hs as [Hs|Hs]; rewrite Hs.
  - rewrite filter_cons_False by (rewrite Hs; discriminate).
    rewrite filter_nil. cbn. lia.
  - rewrite filter_cons_True by done. rewrite filter_nil. cbn. lia.
Qed.

Lemma runEvals_loop_tallied config verbose tests r tick :
  tallied r →
  tallied (foldl (runEvalsStep TrimSpace clock config verbose) (r, tick) tests).1.
Proof.
  revert r tick. induction tests as [|t tests IH]; intros r tick Hr; [done|].
  cbn [foldl].
  pose proof (runEvalsStep_tallied config verbose r tick t Hr) as H.
  destruct (runEvalsStep TrimSpace clock config verbose (r, tick) t) as [r' tick'].
  by apply IH.
Qed.

Lemma attachComparison_regressions r file :
  tallied r →
  Failed (attachComparison r file) = Failed r
  ∧ TestResults (attachComparison r file) = TestResults r
  ∧ Regressions (attachComparison r file) =
      match Comparison (attachComparison r file) with
      | Some c => Z.of_nat (length (NewFailures c))
      | None => 0
      end.
Proof.
  intros (HF & HR & HC). destruct file; cbn; by rewrite ?HR, ?HC.
Qed.

(** A suite that cannot be loaded ends the run with exit code 1, in CI
    mode or not, before any test is run. *)
Remark runEvals_unloadable_suite testsPath baselinePath ciMode outputFormat
    configPath path :
  resolveTestsPath filepath_Join
    (evalConfig loadConfig configPath outputFormat) testsPath = Some path →
  loadTestSuite path = None →
  runEvals TrimSpace filepath_Join loadConfig loadTestSuite baselineAt clock
    testsPath baselinePath ciMode outputFormat configPath = Returned 1 None.
Proof. intros Hp Hs. unfold runEvals. by rewrite Hp, Hs. Qed.

(** Without the CI flag the exit code of a run that loaded its suite is 0. *)
Remark exitCode_without_ci result : exitCode false result = 0.
Proof. done. Qed.

End RunnerFacts.



(** The scenario of the specification: regressions [B], no new pass,
    added [C], nothing removed, exit code 1 in CI mode. *)
Example demo_run_scenario :
  ∃ result,
    Sample.demoRun true = Eval.Returned 1 (Some result)
    ∧ (Eval.NewFailures <$> Eval.Comparison result) = Some ["B"]
    ∧ (Eval.NewPasses <$> Eval.Comparison result) = Some []
    ∧ (Eval.AddedTests <$> Eval.Comparison result) = Some ["C"]
    ∧ (Eval.RemovedTests <$> Eval.Comparison result) = Some [].
Proof. eexists. vm_compute. repeat split. Qed.

(** ** The JSON encoding of a string and its decoding *)

Section JsonFacts.

Import Json.

Lemma append_cons x (a b : string) : String x a +:+ b = String x (a +:+ b).
Proof. reflexivity. Qed.

Lemma append_nil (b : string) : EmptyString +:+ b = b.
Proof. reflexivity. Qed.

Lemma append_assoc (a b c : string) : (a +:+ b) +:+ c = a +:+ (b +:+ c).
Proof.
  induction a as [|x a IH]; [done|]. rewrite !append_cons. by rewrite IH.
Qed.

Lemma byteVal_range c : 0 ≤ Go.byteVal c < 256.
Proof.
  unfold Go.byteVal. pose proof (N_ascii_bounded c). lia.
Qed.

Lemma byteVal_inj c d : Go.byteVal c = Go.byteVal d → c = d.
Proof.
  unfold Go.byteVal. intros H. apply N2Z.inj in H.
  rewrite <- (ascii_N_embedding c), <- (ascii_N_embedding d). by rewrite H.
Qed.

(** What the decoder makes of the escape of one ASCII byte. *)
Lemma unquoteLoop_escapeByte c t :
  (Go.byteVal c <? 0x80) = true →
  unquoteLoop (escapeByte c +:+ t) =
  match unquoteLoop t with Some out => Some (String c out) | None => None end.
Proof.
  intros H.
  destruct c as [[] [] [] [] [] [] [] []]; try (vm_compute in H; discriminate H);
    clear H;
    match goal with
    | |- context [escapeByte ?c] =>
        let e := eval vm_compute in (escapeByte c) in
        change (escapeByte c) with e
    end; reflexivity.
Qed.

Lemma in_allAscii c : In c allAscii.
Proof.
  unfold allAscii. apply in_map_iff. exists (nat_of_ascii c). split.
  - apply ascii_nat_embedding.
  - apply in_seq. pose proof (nat_ascii_bounded c). lia.
Qed.

Lemma forallb_ascii (P : ascii → bool) :
  forallb P allAscii = true → ∀ c, P c = true.
Proof. intros H c. eapply forallb_forall in H; [done|apply in_allAscii]. Qed.

Lemma rune2_not_separator c0 c1 : isSeparator (rune2 c0 c1) = false.
Proof.
  revert c1. revert c0.
  assert (H : forallb (fun c0 => forallb (fun c1 =>
                negb (isSeparator (rune2 c0 c1))) allAscii) allAscii = true)
    by (vm_compute; reflexivity).
  intros c0 c1. apply forallb_ascii with (c := c0) in H.
  apply forallb_ascii with (c := c1) in H. by apply negb_true_iff in H.
Qed.

Lemma rune3_separator c0 c1 c2 :
  lead3 c0 = true → second c0 c1 = true → isCont (Go.byteVal c2) = true →
  isSeparator (rune3 c0 c1 c2) = true →
  String c0 (String c1 (String c2 EmptyString)) = encodeRune (rune3 c0 c1 c2).
Proof.
  assert (H : forallb (fun c0 => if lead3 c0 then forallb (fun c1 =>
                if second c0 c1 then forallb (fun c2 =>
                  if isCont (Go.byteVal c2) && isSeparator (rune3 c0 c1 c2)
                  then String.eqb (String c0 (String c1 (String c2 EmptyString)))
                                  (encodeRune (rune3 c0 c1 c2))
                  else true) allAscii
                else true) allAscii
              else true) allAscii = true)
    by (vm_compute; reflexivity).
  intros H0 H1 H2 H3.
  apply forallb_ascii with (c := c0) in H. rewrite H0 in H.
  apply forallb_ascii with (c := c1) in H. rewrite H1 in H.
  apply forallb_ascii with (c := c2) in H. rewrite H2, H3 in H. cbn [andb] in H.
  by apply String.eqb_eq in H.
Qed.

Lemma rune4_not_separator c0 c1 c2 c3 :
  lead4 c0 = true → second c0 c1 = true →
  isSeparator (rune4 c0 c1 c2 c3) = false.
Proof.
  assert (H : forallb (fun c0 => if lead4 c0 then forallb (fun c1 =>
                if second c0 c1 then
                  16 <=? Z.log2 (Z.lor (Z.shiftl (Z.land (Go.byteVal c0) 0x07) 18)
                                       (Z.shiftl (Z.land (Go.byteVal c1) 0x3F) 12))
                else true) allAscii
              else true) allAscii = true)
    by (vm_compute; reflexivity).
  intros H0 H1.
  apply forallb_ascii with (c := c0) in H. rewrite H0 in H.
  apply forallb_ascii with (c := c1) in H. rewrite H1 in H.
  apply Z.leb_le in H.
  pose proof (byteVal_range c0). pose proof (byteVal_range c1).
  pose proof (byteVal_range c2). pose proof (byteVal_range c3).
  assert (N0 : 0 ≤ Z.shiftl (Z.land (Go.byteVal c0) 7) 18)
    by (apply Z.shiftl_nonneg, Z.land_nonneg; lia).
  assert (N1 : 0 ≤ Z.shiftl (Z.land (Go.byteVal c1) 63) 12)
    by (apply Z.shiftl_nonneg, Z.land_nonneg; lia).
  assert (N2 : 0 ≤ Z.shiftl (Z.land (Go.byteVal c2) 63) 6)
    by (apply Z.shiftl_nonneg, Z.land_nonneg; lia).
  assert (N3 : 0 ≤ Z.land (Go.byteVal c3) 63) by (apply Z.land_nonneg; lia).
  assert (L : 16 ≤ Z.log2 (rune4 c0 c1 c2 c3)).
  { unfold rune4. rewrite !Z.log2_lor; try lia; rewrite ?Z.lor_nonneg; try lia.
    rewrite Z.log2_lor in H by lia. lia. }
  unfold isSeparator. apply orb_false_iff.
  split; apply Z.eqb_neq; intros E; rewrite E in L; vm_compute in L; by apply L.
Qed.

Lemma unquoteLoop_high c t :
  (0x80 <=? Go.byteVal c) = true →
  unquoteLoop (String c t) =
  match unquoteLoop t with Some out => Some (String c out) | None => None end.
Proof.
  intros H. apply Z.leb_le in H. cbn [unquoteLoop].
  assert (Ascii.eqb c dquote = false) as ->.
  { apply Ascii.eqb_neq. intros ->. vm_compute in H. by apply H. }
  assert (Ascii.eqb c backslash = false) as ->.
  { apply Ascii.eqb_neq. intros ->. vm_compute in H. by apply H. }
  done.
Qed.

Lemma unquoteLoop_allHigh p t :
  allHigh p = true →
  unquoteLoop (p +:+ t) =
  match unquoteLoop t with Some out => Some (p +:+ out) | None => None end.
Proof.
  induction p as [|c p IH]; intros H.
  - rewrite append_nil. by destruct (unquoteLoop t).
  - cbn [allHigh] in H. apply andb_true_iff in H as [Hc Hp].
    rewrite append_cons, unquoteLoop_high by done. rewrite IH by done.
    by destruct (unquoteLoop t).
Qed.

Lemma unquoteLoop_separator r t :
  isSeparator r = true →
  unquoteLoop (String backslash "u202"
                 +:+ String (hexDigit (Z.land r 0xF)) EmptyString +:+ t) =
  match unquoteLoop t with
  | Some out => Some (encodeRune r +:+ out)
  | None => None
  end.
Proof.
  unfold isSeparator. intros H. apply orb_true_iff in H as [H|H];
    apply Z.eqb_eq in H; subst r; reflexivity.
Qed.

Lemma leadInfo_inv b sz lo hi :
  leadInfo b = Some (sz, lo, hi) →
  (sz = 2 ∨ sz = 3 ∨ sz = 4)%nat ∧ 0x80 ≤ lo ∧ hi ≤ 0xBF.
Proof.
  unfold leadInfo.
  repeat match goal with
         | |- context [if ?c then _ else _] => destruct c
         end; intros H; try discriminate H; injection H as <- <- <-; lia.
Qed.

Local Arguments Go.byteVal : simpl never.
Local Arguments Z.lor : simpl never.
Local Arguments Z.land : simpl never.
Local Arguments Z.shiftl : simpl never.
Local Arguments Z.ltb : simpl never.
Local Arguments Z.leb : simpl never.
Local Arguments Z.eqb : simpl never.
Local Arguments leadInfo : simpl never.

(** The shape of a string that starts with a well-formed multi-byte
    sequence. *)
Lemma DecodeRune_multibyte c0 r0 r size :
  (Go.byteVal c0 <? 0x80) = false →
  DecodeRune (String c0 r0) = (r, size) →
  ((r =? RuneError) && (size =? 1)%nat) = false →
  ∃ p rest,
    String c0 r0 = p +:+ rest
    ∧ takeBytes size (String c0 r0) = p
    ∧ dropBytes size (String c0 r0) = rest
    ∧ (String.length rest < String.length (String c0 r0))%nat
    ∧ allHigh p = true
    ∧ (isSeparator r = true → p = encodeRune r).
Proof.
  intros Hhi HD Hok.
  assert (Hbad : (RuneError, 1%nat) = (r, size) → False).
  { intros E. injection E as <- <-. discriminate Hok. }
  assert (H0 : (0x80 <=? Go.byteVal c0) = true).
  { apply Z.leb_le. apply Z.ltb_ge in Hhi. lia. }
  unfold DecodeRune in HD. rewrite Hhi in HD.
  destruct (leadInfo (Go.byteVal c0)) as [[[sz lo] hi]|] eqn:HL; [|by destruct Hbad].
  pose proof (leadInfo_inv _ _ _ _ HL) as (Hsz & Hlo & Hhi').
  destruct r0 as [|c1 r1]; [by destruct Hbad|].
  destruct (String.length _ <? sz)%nat eqn:Hlen; [by destruct Hbad|].
  destruct ((Go.byteVal c1 <? lo) || (hi <? Go.byteVal c1)) eqn:H1; [by destruct Hbad|].
  assert (Hs3 : second c0 c1 = true) by (unfold second; rewrite HL, H1; done).
  assert (H1' : (0x80 <=? Go.byteVal c1) = true).
  { apply orb_false_iff in H1 as [H1 _]. apply Z.ltb_ge in H1. apply Z.leb_le. lia. }
  destruct Hsz as [-> | [-> | ->]]; cbn [Nat.leb] in HD.
  - injection HD as <- <-.
    exists (String c0 (String c1 EmptyString)), r1.
    repeat split; [cbn; lia|cbn [allHigh]; by rewrite H0, H1'|].
    intros Hsep. fold (rune2 c0 c1) in Hsep. by rewrite rune2_not_separator in Hsep.
  - destruct r1 as [|c2 r2]; [by destruct Hbad|].
    destruct (isCont (Go.byteVal c2)) eqn:H2; cbn [negb] in HD; [|by destruct Hbad].
    injection HD as <- <-.
    assert (H2' : (0x80 <=? Go.byteVal c2) = true).
    { unfold isCont in H2. by apply andb_true_iff in H2 as [H2 _]. }
    exists (String c0 (String c1 (String c2 EmptyString))), r2.
    repeat split; [cbn; lia|cbn [allHigh]; by rewrite H0, H1', H2'|].
    intros Hsep. fold (rune3 c0 c1 c2) in *.
    apply rune3_separator; try done. unfold lead3. by rewrite HL.
  - destruct r1 as [|c2 r2]; [by destruct Hbad|].
    destruct (isCont (Go.byteVal c2)) eqn:H2; cbn [negb] in HD; [|by destruct Hbad].
    destruct r2 as [|c3 r3]; [by destruct Hbad|].
    destruct (isCont (Go.byteVal c3)) eqn:H3; cbn [negb] in HD; [|by destruct Hbad].
    injection HD as <- <-.
    assert (H2' : (0x80 <=? Go.byteVal c2) = true).
    { unfold isCont in H2. by apply andb_true_iff in H2 as [H2 _]. }
    assert (H3' : (0x80 <=? Go.byteVal c3) = true).
    { unfold isCont in H3. by apply andb_true_iff in H3 as [H3 _]. }
    exists (String c0 (String c1 (String c2 (String c3 EmptyString)))), r3.
    repeat split; [cbn; lia|cbn [allHigh]; by rewrite H0, H1', H2', H3'|].
    intros Hsep. fold (rune4 c0 c1 c2 c3) in Hsep.
    rewrite rune4_not_separator in Hsep; [done| |done]. unfold lead4. by rewrite HL.
Qed.

(** The decoder undoes the loop of [appendString] on valid UTF-8. *)
Lemma unquoteLoop_appendStringLoop fuel s t :
  (String.length s ≤ fuel)%nat →
  validUTF8Loop fuel s = true →
  unquoteLoop (appendStringLoop fuel s +:+ t) =
  match unquoteLoop t with Some out => Some (s +:+ out) | None => None end.
Proof.
  revert s. induction fuel as [|fuel IH]; intros s Hlen Hv.
  - destruct s; [|cbn in Hlen; lia]. cbn [appendStringLoop].
    rewrite !append_nil. by destruct (unquoteLoop t).
  - destruct s as [|c rest].
    { cbn [appendStringLoop]. rewrite !append_nil. by destruct (unquoteLoop t). }
    cbn [appendStringLoop validUTF8Loop] in *.
    destruct (Go.byteVal c <? 0x80) eqn:Hc.
    + assert (HD : DecodeRune (String c rest) = (Go.byteVal c, 1%nat)).
      { unfold DecodeRune. by rewrite Hc. }
      rewrite HD in Hv.
      destruct ((Go.byteVal c =? RuneError) && (1 =? 1)%nat); [discriminate|].
      cbn [dropBytes] in Hv.
      rewrite append_assoc, unquoteLoop_escapeByte by done.
      rewrite IH; [|cbn in Hlen; lia|done].
      by destruct (unquoteLoop t).
    + destruct (DecodeRune (String c rest)) as [r size] eqn:HD.
      destruct ((r =? RuneError) && (size =? 1)%nat) eqn:Hok; [discriminate|].
      destruct (DecodeRune_multibyte c rest r size Hc HD Hok)
        as (p & tl & Hs & Htake & Hdrop & Hlt & Hp & Hsep).
      rewrite Hdrop in *. rewrite Htake.
      fold (isSeparator r). destruct (isSeparator r) eqn:Hr.
      * rewrite !append_assoc.
        rewrite unquoteLoop_separator by done.
        rewrite IH; [|cbn in Hlen, Hlt; lia|done].
        rewrite Hs, <- Hsep by done.
        destruct (unquoteLoop t); [|done]. by rewrite append_assoc.
      * rewrite append_assoc, unquoteLoop_allHigh by done.
        rewrite IH; [|cbn in Hlen, Hlt; lia|done].
        rewrite Hs. destruct (unquoteLoop t); [|done]. by rewrite append_assoc.
Qed.

(** The JSON encoding of a valid UTF-8 string reads back as the string. *)
Lemma append_empty_r (s : string) : s +:+ EmptyString = s.
Proof. induction s as [|c s IH]; [done|]. by rewrite append_cons, IH. Qed.

Lemma Unquote_MarshalString s :
  ValidString s = true → Unquote (MarshalString s) = Some s.
Proof.
  intros Hv. unfold MarshalString, Unquote. rewrite append_cons.
  rewrite Ascii.eqb_refl.
  rewrite unquoteLoop_appendStringLoop by done.
  cbn [unquoteLoop]. rewrite Ascii.eqb_refl. by rewrite append_empty_r.
Qed.

(** A rune of a non-empty string is one to four bytes wide. *)
Lemma DecodeRune_size c rest :
  (1 ≤ (DecodeRune (String c rest)).2 ≤ 4)%nat.
Proof.
  unfold DecodeRune.
  repeat match goal with
         | |- context [if ?b then _ else _] => destruct b
         | |- context [match leadInfo ?b with _ => _ end] =>
             destruct (leadInfo b) as [[[? ?] ?]|]
         | |- context [match ?s with EmptyString => _ | String _ _ => _ end] =>
             destruct s
         end; cbn [snd]; lia.
Qed.

Lemma dropBytes_length n s :
  String.length (dropBytes n s) = (String.length s - n)%nat.
Proof.
  revert s. induction n as [|n IH]; intros [|c s]; cbn; try done; try lia.
Qed.

(** The fuel [len(src)] is enough: more fuel gives the same encoding. *)
Lemma appendStringLoop_fuel fuel fuel' s :
  (String.length s ≤ fuel)%nat → (String.length s ≤ fuel')%nat →
  appendStringLoop fuel s = appendStringLoop fuel' s.
Proof.
  revert fuel' s. induction fuel as [|fuel IH]; intros fuel' s H H'.
  - destruct s; [|cbn in H; lia]. by destruct fuel'.
  - destruct s as [|c rest]; [by destruct fuel'|].
    destruct fuel' as [|fuel']; [cbn in H'; lia|].
    cbn [appendStringLoop]. cbn [String.length] in H, H'.
    destruct (Go.byteVal c <? 0x80).
    + f_equal. apply IH; lia.
    + pose proof (DecodeRune_size c rest) as Hs.
      destruct (DecodeRune (String c rest)) as [r size]. cbn [snd] in Hs.
      assert (Hd : (String.length (dropBytes size (String c rest)) ≤ String.length rest)%nat).
      { rewrite dropBytes_length. cbn [String.length]. lia. }
      destruct ((r =? RuneError) && (size =? 1)%nat).
      * f_equal. apply IH; lia.
      * destruct ((r =? 0x2028) || (r =? 0x2029)).
        -- do 2 f_equal. apply IH; lia.
        -- f_equal. apply IH; lia.
Qed.

End JsonFacts.

(** ** The proxy: redaction of headers *)

Section RedactionFacts.

Import Proxy.

Variable ToLower : string → string.

Lemma flattenHeaders_lookup (h : Http.Header) key :
  flattenHeaders ToLower h !! key = stored ToLower key <$> h !! key.
Proof.
  unfold flattenHeaders.
  apply (map_fold_weak_ind
           (fun (r : gmap string string) (m : Http.Header) =>
              r !! key = stored ToLower key <$> m !! key)).
  - by rewrite !lookup_empty.
  - intros k vs m r Hk IH. unfold flattenStep, stored in *.
    destruct (decide (k = key)) as [->|Hne].
    + rewrite lookup_insert_eq. cbn.
      destruct (sensitive ToLower key); by rewrite lookup_insert_eq.
    + rewrite (lookup_insert_ne m) by done.
      destruct (sensitive ToLower k); by rewrite lookup_insert_ne.
Qed.

Lemma sensitive_true key :
  sensitive ToLower key = true ↔
  ToLower key = "authorization" ∨ ToLower key = "x-api-key"
  ∨ ToLower key = "api-key".
Proof.
  unfold sensitive. rewrite !orb_true_iff, !String.eqb_eq. tauto.
Qed.

Lemma flattenHeaders_insert_sensitive (h : Http.Header) key values values' :
  h !! key = Some values → sensitive ToLower key = true →
  flattenHeaders ToLower (<[key := values']> h) = flattenHeaders ToLower h.
Proof.
  intros Hk Hs. apply map_eq. intros k. rewrite !flattenHeaders_lookup.
  destruct (decide (key = k)) as [<-|Hne].
  - rewrite lookup_insert_eq, Hk. cbn. unfold stored. by rewrite Hs.
  - by rewrite lookup_insert_ne.
Qed.

(** C3, as amended: when a header map has a key whose lower-case form is
    [authorization], [x-api-key] or [api-key], the stored map has the
    placeholder [[REDACTED]] under that key and does not depend on the
    values of that header; every stored value is the placeholder or the
    joined values of a header whose key is none of the three.  (The
    original value can so be stored only under the key of another
    header that carries it.) *)
Theorem flattenHeaders_redacts_credentials (h : Http.Header)
    (key : string) (values : list string) :
  h !! key = Some values →
  ToLower key = "authorization" ∨ ToLower key = "x-api-key"
    ∨ ToLower key = "api-key" →
  flattenHeaders ToLower h !! key = Some REDACTED
  ∧ (∀ values', flattenHeaders ToLower (<[key := values']> h)
                = flattenHeaders ToLower h)
  ∧ (∀ k v, flattenHeaders ToLower h !! k = Some v →
       v = REDACTED
       ∨ ∃ vs, h !! k = Some vs ∧ sensitive ToLower k = false
               ∧ v = Go.Join vs ", ").
Proof.
  intros Hk Hs. apply sensitive_true in Hs. repeat split.
  - rewrite flattenHeaders_lookup, Hk. cbn. unfold stored. by rewrite Hs.
  - intros values'. by eapply flattenHeaders_insert_sensitive.
  - intros k v. rewrite flattenHeaders_lookup.
    destruct (h !! k) as [vs|]; [|discriminate]. cbn. unfold stored.
    intros [= <-]. destruct (sensitive ToLower k); [by left|right; eauto].
Qed.

End RedactionFacts.

(** ** The proxy: stored bodies *)

Section BodyFacts.

Import Proxy.

Variable json_Unmarshal_ok : string → bool.

Lemma sanitizeBody_None body :
  sanitizeBody json_Unmarshal_ok body = None ↔ body = "".
Proof.
  unfold sanitizeBody, Go.len.
  destruct body as [|c body]; [done|]. cbn [String.length].
  destruct (Z.of_nat (S _) =? 0) eqn:E; [apply Z.eqb_eq in E; lia|].
  destruct (negb _); split; discriminate.
Qed.

(** C7, as amended: a non-empty body that [json.Unmarshal] accepts is
    stored as the identical byte sequence; a non-empty body that it
    rejects is stored as the JSON string that [json.Marshal] makes of
    it, which reads back as the body, byte for byte, when the body is
    valid UTF-8. *)
Theorem sanitizeBody_keeps_JSON_and_quotes_the_rest (body : string) :
  body ≠ "" →
  (json_Unmarshal_ok body = true →
     sanitizeBody json_Unmarshal_ok body = Some body)
  ∧ (json_Unmarshal_ok body = false →
     sanitizeBody json_Unmarshal_ok body = Some (Json.MarshalString body)
     ∧ (Json.ValidString body = true →
        Json.Unquote (Json.MarshalString body) = Some body)).
Proof.
  intros Hne. unfold sanitizeBody, Go.len.
  destruct body as [|c body]; [done|]. cbn [String.length].
  destruct (Z.of_nat (S _) =? 0) eqn:E; [apply Z.eqb_eq in E; lia|].
  split; intros ->; cbn [negb]; [done|]. split; [done|].
  apply Unquote_MarshalString.
Qed.


End BodyFacts.

(** ** The proxy: provider parsing *)

Section ParsingFacts.

Import Proxy.

Variable float64 : Type.
Variable int_of_float64 : float64 → Z.
Variable json_Unmarshal_map : string → gmap string (Json.value float64).
Variable json_Marshal : Json.value float64 → option string.

Abbreviation parse :=
  (parseAPIDetails float64 int_of_float64 json_Unmarshal_map json_Marshal).

Lemma parseAPIDetails_is_Some provider reqBody respBody :
  is_Some (parse provider reqBody respBody).
Proof.
  unfold parseAPIDetails.
  destruct (String.eqb provider "openai").
  - destruct (usageTokens _ _ _ _ _) as [tin tout].
    destruct (Json.asArray _) as [choices|]; [|eauto].
    destruct choices as [|c0 choices]; cbn; eauto.
  - destruct (String.eqb provider "anthropic"); [|eauto].
    destruct (usageTokens _ _ _ _ _) as [tin tout]. eauto.
Qed.


End ParsingFacts.

(** ** The proxy: the clock *)

Section ClockFacts.

Lemma Since_nonneg start now :
  - 2 ^ 63 ≤ start → start ≤ now → now < 2 ^ 63 → 0 ≤ Go.Since start now.
Proof.
  intros H1 H2 H3. unfold Go.Since, Go.subMono, Go.maxDuration, Go.minDuration.
  assert (Hw : (now - start < 2 ^ 63 ∧ Go.wrap64 (now - start) = now - start)
               ∨ (2 ^ 63 ≤ now - start
                  ∧ Go.wrap64 (now - start) = now - start - 2 ^ 64)).
  { unfold Go.wrap64.
    change (2 ^ 63) with 9223372036854775808 in *.
    change (2 ^ 64) with 18446744073709551616 in *.
    pose proof (Z.mod_pos_bound (now - start + 9223372036854775808)
                  18446744073709551616 eq_refl) as Hb.
    pose proof (Z.div_mod (now - start + 9223372036854775808)
                  18446744073709551616 ltac:(lia)) as Hd.
    lia. }
  change (2 ^ 63) with 9223372036854775808 in *.
  change (2 ^ 64) with 18446744073709551616 in *.
  destruct (Go.wrap64 (now - start) <? 0) eqn:E1; cbn [andb].
  - destruct (start <? now) eqn:E2; [lia|].
    apply Z.ltb_ge in E2. apply Z.ltb_lt in E1. lia.
  - apply Z.ltb_ge in E1.
    destruct (0 <? Go.wrap64 (now - start)) eqn:E3; cbn [andb]; [|lia].
    destruct (now <? start) eqn:E4; [apply Z.ltb_lt in E4; lia|lia].
Qed.

Lemma toMilliseconds_nonneg d : 0 ≤ d → 0 ≤ Go.toMilliseconds d.
Proof. intros H. unfold Go.toMilliseconds, Go.Millisecond. apply Z.quot_pos; lia. Qed.

End ClockFacts.

(** ** The proxy: the handler *)

Section HandlerFacts.

Import Proxy.

Variable ToLower : string → string.
Variable float64 : Type.
Variable int_of_float64 : float64 → Z.
Variable json_Unmarshal_map : string → gmap string (Json.value float64).
Variable json_Unmarshal_ok : string → bool.
Variable json_Marshal : Json.value float64 → option string.
Variable gunzip : string → Http.GzipResult.
Variable URL_String : Http.URL → string.
Variable http_NewRequest_error : string → string → option string.

Abbreviation handle := (handleRequest ToLower float64 int_of_float64
  json_Unmarshal_map json_Unmarshal_ok json_Marshal gunzip URL_String
  http_NewRequest_error).
Abbreviation serveAll := (serve ToLower float64 int_of_float64
  json_Unmarshal_map json_Unmarshal_ok json_Marshal gunzip URL_String
  http_NewRequest_error).
Abbreviation fateOf := (fate URL_String http_NewRequest_error).

Lemma createTrace_headers provider req reqBody resp respBody latency idNow stampNow t :
  createTrace ToLower float64 int_of_float64 json_Unmarshal_map
    json_Unmarshal_ok json_Marshal provider req reqBody resp respBody
    latency idNow stampNow = Some t →
  ReqHeaders (Request t) = flattenHeaders ToLower (Http.ReqHeader req)
  ∧ RespHeaders (Response t) = flattenHeaders ToLower (Http.RespHeader resp)
  ∧ ReqBody (Request t) = sanitizeBody json_Unmarshal_ok reqBody
  ∧ RespBody (Response t) = sanitizeBody json_Unmarshal_ok respBody
  ∧ Provider t = provider
  ∧ Latency t = Go.toMilliseconds latency.
Proof.
  unfold createTrace.
  destruct (parseAPIDetails _ _ _ _ _ _ _) as [[[[model tin] tout] tcs]|];
    [|discriminate].
  intros [= <-]. done.
Qed.

(** C10: an empty body is stored as no body (nil), and only an empty
    body is; the trace that [createTrace] builds has no request body
    when the request body is empty and no response body when the
    response body is empty. *)
Theorem sanitizeBody_empty_is_nil :
  sanitizeBody json_Unmarshal_ok "" = None
  ∧ (∀ body, sanitizeBody json_Unmarshal_ok body = None ↔ body = "")
  ∧ (∀ provider req resp respBody latency idNow stampNow,
       (fun t => ReqBody (Request t)) <$>
         createTrace ToLower float64 int_of_float64 json_Unmarshal_map
           json_Unmarshal_ok json_Marshal provider req "" resp respBody
           latency idNow stampNow
       = Some None)
  ∧ (∀ provider req reqBody resp latency idNow stampNow,
       (fun t => RespBody (Response t)) <$>
         createTrace ToLower float64 int_of_float64 json_Unmarshal_map
           json_Unmarshal_ok json_Marshal provider req reqBody resp ""
           latency idNow stampNow
       = Some None).
Proof.
  split; [done|]. split.
  - apply sanitizeBody_None.
  - split; intros; unfold createTrace;
      match goal with
      | |- context [parseAPIDetails ?a ?b ?c ?d ?e ?f ?g] =>
          destruct (parseAPIDetails_is_Some a b c d e f g)
            as [[[[m tin] tout] tcs] ->]
      end; done.
Qed.

Lemma createTrace_is_Some provider req reqBody resp respBody latency idNow stampNow :
  is_Some (createTrace ToLower float64 int_of_float64 json_Unmarshal_map
             json_Unmarshal_ok json_Marshal provider req reqBody resp respBody
             latency idNow stampNow).
Proof.
  unfold createTrace.
  destruct (parseAPIDetails_is_Some float64 int_of_float64 json_Unmarshal_map
              json_Marshal provider reqBody respBody) as [[[[m a] b] c] ->].
  eauto.
Qed.

(** The handler, by the fate of the forwarding. *)
Lemma handleRequest_by_fate (p : LLMProxy) (x : Exchange) :
  match fateOf (providers p) x with
  | UnknownProvider =>
      handle p x = (p, Some (Http.Error "Unknown provider" Http.StatusBadGateway))
  | RequestError err =>
      handle p x = (p, Some (Http.Error err Http.StatusInternalServerError))
  | TransportError err =>
      handle p x = (p, Some (Http.Error err Http.StatusBadGateway))
  | Forwarded resp =>
      ∃ t, handle p x =
             (mkLLMProxy (traces p ++ [t]) (config p) (providers p),
              Some (writeResponse resp (readResponseBody gunzip resp)))
           ∧ Provider t = targetProvider (request x)
           ∧ Latency t = Go.toMilliseconds (Go.Since (startTime x) (endTime x))
  end.
Proof.
  unfold fate, handleRequest, outbound. cbn.
  destruct (providers p !! targetProvider (request x)) as [u|]; [|done].
  destruct (http_NewRequest_error _ _); [done|].
  destruct (upstream x _) as [err|resp]; [done|].
  match goal with
  | |- context [createTrace ?a ?b ?c ?d ?e ?f ?g ?h ?i ?j ?k ?l ?m ?n] =>
      destruct (createTrace_is_Some g h i j k l m n) as [t Ht]
  end.
  rewrite Ht. exists t. split; [done|].
  apply createTrace_headers in Ht. tauto.
Qed.

(** The traces after a run of exchanges: those before, then one per
    forwarded exchange. *)
Lemma serve_traces (xs : list Exchange) : ∀ p : LLMProxy,
  Forall monotonic xs →
  ∃ new,
    traces (serveAll p xs) = (traces p ++ new)%list
    ∧ providers (serveAll p xs) = providers p
    ∧ length new =
        length (filter (fun x => isForwarded (fateOf (providers p) x) = true) xs)
    ∧ Forall (fun t => 0 ≤ Latency t) new.
Proof.
  induction xs as [|x xs IH]; intros p Hm.
  - exists []. cbn. by rewrite app_nil_r.
  - apply Forall_cons in Hm as [Hx Hm]. unfold serve. cbn [foldl].
    fold (serveAll (handle p x).1 xs).
    pose proof (handleRequest_by_fate p x) as Hf.
    rewrite filter_cons.
    destruct (fateOf (providers p) x) as [|err|err|resp] eqn:Ef; cbn [isForwarded];
      try (rewrite Hf; cbn [fst]; destruct (IH p Hm) as (new & ? & ? & ? & ?);
           exists new; rewrite decide_False by discriminate; done).
    destruct Hf as (t & Hh & _ & Hl). rewrite Hh. cbn [fst].
    destruct (IH (mkLLMProxy (traces p ++ [t]) (config p) (providers p)) Hm)
      as (new & Ht & Hp & Hn & Hlat).
    cbn in Ht, Hp, Hn. exists (t :: new). rewrite Ht, Hp, <- app_assoc.
    rewrite decide_True by done. cbn. repeat split; [by rewrite Hn|].
    apply Forall_cons. split; [|done]. rewrite Hl.
    destruct Hx as (? & ? & ?). by apply toMilliseconds_nonneg, Since_nonneg.
Qed.

(** C4: on any sequence of exchanges with a monotonic clock, the handler
    appends exactly one trace per forwarded request and none for the
    others; a request to an unknown provider or one whose transport
    fails is answered with 502 Bad Gateway and leaves the proxy as it
    was; after N forwarded requests on a proxy without traces, draining
    yields N traces; every appended trace has a latency of at least 0. *)
Theorem one_trace_per_forwarded_request (p : LLMProxy) (xs : list Exchange) :
  Forall monotonic xs →
  let forwarded x := isForwarded (fateOf (providers p) x) = true in
  let drained := getTraces (serveAll p xs) in
  length drained = (length (traces p) + length (filter forwarded xs))%nat
  ∧ Forall (fun t => 0 ≤ Latency t) (drop (length (traces p)) drained)
  ∧ (Forall forwarded xs → traces p = [] → length drained = length xs)
  ∧ (∀ x, fateOf (providers p) x = UnknownProvider
          ∨ (∃ err, fateOf (providers p) x = TransportError err) →
          ∃ w, handle p x = (p, Some w)
               ∧ Http.WStatus w = Http.StatusBadGateway).
Proof.
  intros Hm forwarded drained.
  destruct (serve_traces xs p Hm) as (new & Ht & _ & Hn & Hlat).
  assert (Hd : drained = (traces p ++ new)%list) by (unfold drained, getTraces; by rewrite Ht).
  repeat split.
  - rewrite Hd, length_app, Hn. reflexivity.
  - rewrite Hd, drop_app_length. exact Hlat.
  - intros Hall Hnil. rewrite Hd, length_app, Hn, Hnil. cbn.
    f_equal. clear -Hall. induction Hall as [|x xs Hx _ IH]; [done|].
    rewrite filter_cons_True by done. by f_equal.
  - intros x Hx. pose proof (handleRequest_by_fate p x) as Hf.
    destruct Hx as [Hx|[err Hx]]; rewrite Hx in Hf; rewrite Hf; eauto.
Qed.

Lemma canonical_Content_Encoding :
  Http.CanonicalMIMEHeaderKey "Content-Encoding" = "Content-Encoding".
Proof. reflexivity. Qed.

Lemma canonical_Content_Length :
  Http.CanonicalMIMEHeaderKey "Content-Length" = "Content-Length".
Proof. reflexivity. Qed.

(** C5: when the upstream response has [Content-Encoding: gzip] and its
    body is a complete gzip stream, the caller receives the decompressed
    bytes with the status of the upstream, no [Content-Encoding] header,
    and a [Content-Length] header that is the decimal byte count of the
    decompressed body. *)
Theorem gzip_response_reaches_caller_decompressed
    (p : LLMProxy) (x : Exchange) (resp : Http.Response) (data : string) :
  fateOf (providers p) x = Forwarded resp →
  Http.Get (Http.RespHeader resp) "Content-Encoding" = "gzip" →
  gunzip (Http.RespBody resp) = Http.GzipData data true →
  ∃ p' w,
    handle p x = (p', Some w)
    ∧ Http.WBody w = data
    ∧ Http.WStatus w = Http.StatusCode resp
    ∧ Http.WHeader w !! "Content-Encoding" = None
    ∧ Http.Get (Http.WHeader w) "Content-Encoding" = ""
    ∧ Http.WHeader w !! "Content-Length" = Some [Go.Sprintd (Go.len data)]
    ∧ Http.Get (Http.WHeader w) "Content-Length" = Go.Sprintd (Go.len data).
Proof.
  intros Hf Hce Hgz. pose proof (handleRequest_by_fate p x) as H.
  rewrite Hf in H. destruct H as (t & Hh & _).
  eexists _, _. split; [exact Hh|].
  assert (Hb : readResponseBody gunzip resp = data).
  { unfold readResponseBody. by rewrite Hce, Hgz. }
  rewrite Hb. unfold writeResponse. cbn [Http.WBody Http.WStatus Http.WHeader].
  unfold Http.Get, Http.Set_, Http.Del.
  rewrite canonical_Content_Encoding, canonical_Content_Length.
  rewrite lookup_insert_ne by discriminate.
  rewrite lookup_delete_eq, lookup_insert_eq. done.
Qed.

(** When the body of a response marked gzip does not start with a gzip
    header, the handler goes on with an empty body. *)
Remark gzip_header_error_gives_empty_body (resp : Http.Response) :
  Http.Get (Http.RespHeader resp) "Content-Encoding" = "gzip" →
  gunzip (Http.RespBody resp) = Http.GzipHeaderError →
  readResponseBody gunzip resp = "".
Proof. intros Hce Hgz. unfold readResponseBody. by rewrite Hce, Hgz. Qed.


Section DefaultTarget.

Variable url_Parse : string → option Http.URL.

(** C8, as amended: a request without the header [X-Regrada-Target] is
    forwarded to the fixed provider [openai] (the URL of
    [api.openai.com] in every proxy that [newLLMProxy] builds, whatever
    its configuration), and the trace it appends names that provider. *)
Theorem absent_target_header_selects_openai (r : Http.Request) :
  Http.ReqHeader r !! "X-Regrada-Target" = None →
  targetProvider r = "openai"
  ∧ (∀ config,
       providers (newLLMProxy url_Parse config) !! targetProvider r
       = Some openaiURL)
  ∧ (∀ p x t w, request x = r →
       handle p x = (mkLLMProxy (traces p ++ [t]) (config p) (providers p), w) →
       Provider t = "openai").
Proof.
  intros Hr.
  assert (Ht : targetProvider r = "openai").
  { unfold targetProvider, Http.Get.
    change (Http.CanonicalMIMEHeaderKey "X-Regrada-Target") with "X-Regrada-Target".
    by rewrite Hr. }
  split; [done|]. split.
  - intros config. rewrite Ht. unfold newLLMProxy. cbn [providers].
    destruct (negb _); [destruct (url_Parse _)|];
      rewrite ?(lookup_insert_ne _ "custom") by discriminate;
      rewrite (lookup_insert_ne _ "anthropic") by discriminate;
      by rewrite lookup_insert_eq.
  - intros p x t w Hx Hh. pose proof (handleRequest_by_fate p x) as Hf.
    destruct (fateOf (providers p) x).
    1-3: rewrite Hf in Hh; injection Hh as Hh _;
         apply (f_equal traces) in Hh; cbn in Hh;
         apply (f_equal length) in Hh; rewrite length_app in Hh; cbn in Hh; lia.
    destruct Hf as (t' & Hf & Hp & _). rewrite Hf in Hh.
    injection Hh as Hh _. apply app_inv_head in Hh. injection Hh as <-.
    by rewrite Hp, Hx, Ht.
Qed.

End DefaultTarget.

End HandlerFacts.

(** ** The properties on concrete inputs *)

(** The [Authorization] header of the sample is stored as the
    placeholder, whatever its value. *)
Lemma flattenHeaders_redacts_credentials_witness :
  Sample.credentialHeaders !! "Authorization" = Some ["Bearer secret123"]
  ∧ (Sample.asciiToLower "Authorization" = "authorization"
     ∨ Sample.asciiToLower "Authorization" = "x-api-key"
     ∨ Sample.asciiToLower "Authorization" = "api-key")
  ∧ Sample.flattenHeaders Sample.credentialHeaders !! "Authorization"
    = Some Proxy.REDACTED.
Proof.
  assert (H1 : Sample.credentialHeaders !! "Authorization"
               = Some ["Bearer secret123"]) by (vm_compute; reflexivity).
  assert (H2 : Sample.asciiToLower "Authorization" = "authorization"
               ∨ Sample.asciiToLower "Authorization" = "x-api-key"
               ∨ Sample.asciiToLower "Authorization" = "api-key")
    by (left; vm_compute; reflexivity).
  split; [exact H1|]. split; [exact H2|].
  exact (proj1 (flattenHeaders_redacts_credentials Sample.asciiToLower
                  Sample.credentialHeaders "Authorization"
                  ["Bearer secret123"] H1 H2)).
Defined.

(** C3, as stated, fails: the value of the [Authorization] header is in
    the stored map, under the key of the header [Proxy-Authorization],
    which carries the same credential and is not redacted. *)
Lemma credential_stored_under_other_key :
  Sample.credentialHeaders !! "Authorization" = Some ["Bearer secret123"]
  ∧ Sample.asciiToLower "Authorization" = "authorization"
  ∧ Sample.flattenHeaders Sample.credentialHeaders !! "Proxy-Authorization"
    = Some "Bearer secret123".
Proof. repeat split; vm_compute; reflexivity. Qed.

(** The scenario of the specification: [Authorization: Bearer secret123]
    is stored as [Authorization: [REDACTED]]. *)
Example authorization_scenario :
  Sample.flattenHeaders {[ "Authorization" := ["Bearer secret123"] ]}
  = {[ "Authorization" := "[REDACTED]" ]}.
Proof. vm_compute. reflexivity. Qed.

(** A body that is JSON and a body that is not. *)
Lemma sanitizeBody_keeps_JSON_and_quotes_the_rest_witness :
  Sample.modelBody "gpt-4" ≠ ""
  ∧ Sample.sanitizeBody (Sample.modelBody "gpt-4")
    = Some (Sample.modelBody "gpt-4")
  ∧ "plain text" ≠ ""
  ∧ Sample.sanitizeBody "plain text" = Some (Sample.quoted "plain text")
  ∧ Json.Unquote (Sample.quoted "plain text") = Some "plain text".
Proof.
  assert (H1 : Sample.modelBody "gpt-4" ≠ "") by discriminate.
  assert (H2 : "plain text" ≠ "") by discriminate.
  pose proof (sanitizeBody_keeps_JSON_and_quotes_the_rest Sample.decodeOK
                (Sample.modelBody "gpt-4") H1) as [Hjson _].
  pose proof (sanitizeBody_keeps_JSON_and_quotes_the_rest Sample.decodeOK
                "plain text" H2) as [_ Htext].
  split; [exact H1|]. split; [exact (Hjson eq_refl)|]. split; [exact H2|].
  split; [exact (proj1 (Htext eq_refl))|exact (proj2 (Htext eq_refl) eq_refl)].
Defined.

(** C7, as stated, fails: the bodies 0xFF and 0xFE, neither of which is
    JSON, are stored as the same JSON string, the escape of U+FFFD; the
    byte that was sent cannot be read back from the trace. *)
Lemma sanitizeBody_merges_invalid_bytes :
  Sample.byteFF ≠ Sample.byteFE
  ∧ Sample.byteFF ≠ "" ∧ Sample.byteFE ≠ ""
  ∧ Sample.decodeOK Sample.byteFF = false
  ∧ Sample.decodeOK Sample.byteFE = false
  ∧ Sample.sanitizeBody Sample.byteFF = Sample.sanitizeBody Sample.byteFE
  ∧ Sample.sanitizeBody Sample.byteFF
    = Some (Sample.quoted (String Json.backslash "ufffd")).
Proof. repeat split; try discriminate; vm_compute; reflexivity. Qed.



(** Three exchanges on a new proxy: two are forwarded, one meets an
    upstream that cannot be reached. *)
Lemma one_trace_per_forwarded_request_witness :
  Forall Proxy.monotonic
    [Sample.exchange Sample.echoHost; Sample.exchange Sample.unreachable;
     Sample.exchange Sample.gzipUpstream]
  ∧ length (Proxy.getTraces
              (Sample.serve (Sample.newLLMProxy Sample.anthropicConfig)
                 [Sample.exchange Sample.echoHost;
                  Sample.exchange Sample.unreachable;
                  Sample.exchange Sample.gzipUpstream])) = 2%nat.
Proof.
  assert (H : Forall Proxy.monotonic
                [Sample.exchange Sample.echoHost;
                 Sample.exchange Sample.unreachable;
                 Sample.exchange Sample.gzipUpstream]).
  { repeat constructor; vm_compute; discriminate. }
  split; [exact H|].
  exact (eq_trans
           (proj1 (one_trace_per_forwarded_request Sample.asciiToLower Z
                     (fun f => f) Sample.decodeMap Sample.decodeOK
                     Sample.encode Sample.gunzip Sample.showURL
                     Sample.newRequestError
                     (Sample.newLLMProxy Sample.anthropicConfig) _ H))
           eq_refl).
Defined.

(** An upstream that answers with a gzip-encoded body. *)
Lemma gzip_response_reaches_caller_decompressed_witness :
  Sample.fate (Proxy.providers (Sample.newLLMProxy Sample.anthropicConfig))
    (Sample.exchange Sample.gzipUpstream)
  = Proxy.Forwarded
      (Http.mkResponse 200
         {[ "Content-Encoding" := ["gzip"]; "Content-Length" := ["3"] ]} "zip")
  ∧ ∃ p' w,
      Sample.handleRequest (Sample.newLLMProxy Sample.anthropicConfig)
        (Sample.exchange Sample.gzipUpstream) = (p', Some w)
      ∧ Http.WBody w = "plain:zip"
      ∧ Http.WStatus w = 200
      ∧ Http.WHeader w !! "Content-Encoding" = None
      ∧ Http.Get (Http.WHeader w) "Content-Encoding" = ""
      ∧ Http.WHeader w !! "Content-Length" = Some ["9"]
      ∧ Http.Get (Http.WHeader w) "Content-Length" = "9".
Proof.
  assert (H : Sample.fate
                (Proxy.providers (Sample.newLLMProxy Sample.anthropicConfig))
                (Sample.exchange Sample.gzipUpstream)
              = Proxy.Forwarded
                  (Http.mkResponse 200
                     {[ "Content-Encoding" := ["gzip"];
                        "Content-Length" := ["3"] ]} "zip"))
    by (vm_compute; reflexivity).
  split; [exact H|].
  exact (gzip_response_reaches_caller_decompressed Sample.asciiToLower Z
           (fun f => f) Sample.decodeMap Sample.decodeOK Sample.encode
           Sample.gunzip Sample.showURL Sample.newRequestError
           (Sample.newLLMProxy Sample.anthropicConfig)
           (Sample.exchange Sample.gzipUpstream) _ "plain:zip" H
           eq_refl eq_refl).
Defined.

(** A request without the header, on a proxy configured for Anthropic. *)
Lemma absent_target_header_selects_openai_witness :
  Http.ReqHeader Sample.plainRequest !! "X-Regrada-Target" = None
  ∧ Proxy.targetProvider Sample.plainRequest = "openai"
  ∧ Proxy.providers (Sample.newLLMProxy Sample.anthropicConfig)
      !! Proxy.targetProvider Sample.plainRequest = Some Proxy.openaiURL.
Proof.
  assert (H : Http.ReqHeader Sample.plainRequest !! "X-Regrada-Target" = None)
    by (vm_compute; reflexivity).
  split; [exact H|].
  pose proof (absent_target_header_selects_openai Sample.asciiToLower Z
                (fun f => f) Sample.decodeMap Sample.decodeOK Sample.encode
                Sample.gunzip Sample.showURL Sample.newRequestError
                Sample.parseURL Sample.plainRequest H) as (H1 & H2 & _).
  split; [exact H1|exact (H2 Sample.anthropicConfig)].
Defined.

(** C8, as stated, fails: with a configuration whose provider is
    [anthropic], a request without the header is sent to
    [api.openai.com], and its trace names the provider [openai]. *)
Lemma default_target_ignores_configured_provider :
  Http.ReqHeader Sample.plainRequest !! "X-Regrada-Target" = None
  ∧ Config.Type_ (Config.Provider Sample.anthropicConfig) = "anthropic"
  ∧ Proxy.targetProvider Sample.plainRequest = "openai"
  ∧ (Http.WBody <$>
       (Sample.handleRequest (Sample.newLLMProxy Sample.anthropicConfig)
          (Sample.exchange Sample.echoHost)).2) = Some "api.openai.com"
  ∧ (Proxy.Provider <$>
       Proxy.traces
         (Sample.handleRequest (Sample.newLLMProxy Sample.anthropicConfig)
            (Sample.exchange Sample.echoHost)).1) = ["openai"].
Proof. repeat split; vm_compute; reflexivity. Qed.
Local Open Scope list_scope.

(** * Further properties of the code *)

(** ** Counting *)

Section CountFacts.

Import Props2.

Lemma count_cons {A} (P : A → bool) x l :
  count P (x :: l) = (if P x then 1 else 0) + count P l.
Proof. unfold count. cbn. destruct (P x); cbn [length]; lia. Qed.

Lemma count_nonneg {A} (P : A → bool) l : 0 ≤ count P l.
Proof. unfold count. lia. Qed.

Lemma count_le_length {A} (P : A → bool) l : count P l ≤ Z.of_nat (length l).
Proof.
  induction l as [|x l IH]; [done|]. rewrite count_cons. cbn [length].
  destruct (P x); lia.
Qed.

Lemma count_zero {A} (P : A → bool) l :
  count P l = 0 ↔ ∀ x, x ∈ l → P x = false.
Proof.
  induction l as [|x l IH].
  - split; [intros _ y Hy; by apply elem_of_nil in Hy|done].
  - rewrite count_cons. pose proof (count_nonneg P l). split.
    + intros H0 y Hy. apply elem_of_cons in Hy as [-> | Hy].
      * destruct (P x); [lia|done].
      * apply IH; [|done]. destruct (P x); lia.
    + intros Hall. rewrite (Hall x) by left.
      apply IH. intros y Hy. apply Hall. by right.
Qed.

Lemma count_app {A} (P : A → bool) a b : count P (a ++ b) = count P a + count P b.
Proof. unfold count. rewrite List.filter_app, length_app. lia. Qed.

Lemma count_Permutation {A} (P : A → bool) a b :
  a ≡ₚ b → count P a = count P b.
Proof.
  induction 1 as [|t a b _ IH|t t' a|a b c _ IH1 _ IH2];
    rewrite ?count_cons; lia.
Qed.

Lemma count_nil {A} (P : A → bool) : count P [] = 0.
Proof. reflexivity. Qed.

Lemma count_none {A} (P : A → bool) l :
  (∀ x, x ∈ l → P x = false) → count P l = 0.
Proof.
  induction l as [|x l IH]; intros H; [done|].
  rewrite count_cons, (H x) by left. rewrite IH; [done|].
  intros y Hy. apply H. by right.
Qed.

Lemma count_all {A} (P : A → bool) l :
  (∀ x, x ∈ l → P x = true) → count P l = Z.of_nat (length l).
Proof.
  induction l as [|x l IH]; intros H; [done|].
  rewrite count_cons, (H x) by left. rewrite IH; [cbn [length]; lia|].
  intros y Hy. apply H. by right.
Qed.

Lemma count_split {A} (P : A → bool) (l : list A) :
  count P l + count (fun x => negb (P x)) l = Z.of_nat (length l).
Proof.
  unfold count. induction l as [|x l IH]; [done|].
  cbn [List.filter]. destruct (P x); cbn [negb length] in *; lia.
Qed.

Lemma count_Forall2 {A B} (P : A → bool) (Q : B → bool) l k :
  Forall2 (fun a b => P a = Q b) l k → count P l = count Q k.
Proof.
  induction 1 as [|a b l k H _ IH]; [done|].
  rewrite !count_cons, H, IH. done.
Qed.

Lemma count_pos {A} (P : A → bool) l :
  count P l ≠ 0 → ∃ x, x ∈ l ∧ P x = true.
Proof.
  induction l as [|x l IH]; [done|]. rewrite count_cons.
  destruct (P x) eqn:E.
  - intros _. exists x. split; [left|done].
  - intros H. destruct IH as (y & Hy & HP); [lia|]. exists y. split; [by right|done].
Qed.

End CountFacts.

(** ** The eval runner *)

Section RunnerMore.

Import Eval Props Props2.

Variable TrimSpace : string → string.
Variable filepath_Join : list string → string.
Variable loadConfig : string → option Config.RegradaConfig.
Variable loadTestSuite : string → option TestSuite.
Variable baselineAt : string → BaselineFile.
Variable clock : nat → Z.

Lemma checkVerdict_passed checkType checkParam :
  (checkVerdict checkType checkParam).1
  = negb (String.eqb checkType "INTENTIONAL_FAIL").
Proof.
  unfold checkVerdict.
  repeat match goal with
         | |- context [String.eqb checkType ?s] =>
             lazymatch s with
             | "INTENTIONAL_FAIL" => fail
             | _ => idtac
             end;
             let E := fresh "E" in
             destruct (String.eqb checkType s) eqn:E; cbn [orb];
             [apply String.eqb_eq in E; subst checkType; reflexivity|]
         end.
  by destruct (String.eqb checkType "INTENTIONAL_FAIL").
Qed.

Lemma runCheck_passed check test config :
  CheckPassed (runCheck TrimSpace check test config)
  = negb (failing TrimSpace check)
  ∧ Check (runCheck TrimSpace check test config) = check.
Proof.
  unfold runCheck, failing, checkTypeOf.
  match goal with
  | |- context [checkVerdict ?a ?b] =>
      pose proof (checkVerdict_passed a b) as H;
      destruct (checkVerdict a b) as [passed message]
  end.
  cbn in *. by rewrite H.
Qed.

(** The loop of [runTest] over the checks. *)
Lemma runTest_loop test config checks : ∀ r,
  let r' := foldl (runTestStep TrimSpace test config) r checks in
  Name r' = Name r
  ∧ CheckResults r' =
      CheckResults r ++ ((fun c => runCheck TrimSpace c test config) <$> checks)
  ∧ Status r' =
      (if forallb (fun c => negb (failing TrimSpace c)) checks
       then Status r else "failed").
Proof.
  induction checks as [|c checks IH]; intros r.
  - cbn. by rewrite app_nil_r.
  - cbn [foldl]. destruct (IH (runTestStep TrimSpace test config r c)) as (H1 & H2 & H3).
    cbn zeta. rewrite H1, H2, H3. unfold runTestStep. cbn.
    destruct (runCheck_passed c test config) as [Hp _]. rewrite Hp.
    rewrite <- app_assoc. repeat split.
    destruct (failing TrimSpace c); cbn; [|done].
    by destruct (forallb _ checks).
Qed.

(** What [runTest] returns. *)
Lemma runTest_outcome
    (test : TestCase) (config : option Config.RegradaConfig)
    (verbose : bool) (tick : nat) :
  let r := (runTest TrimSpace clock test config verbose tick).1 in
  Name r = CaseName test
  ∧ Check <$> CheckResults r = Checks test
  ∧ CheckPassed <$> CheckResults r
    = (fun c => negb (failing TrimSpace c)) <$> Checks test
  ∧ (Status r = "failed" ↔ ∃ c, c ∈ Checks test ∧ failing TrimSpace c = true)
  ∧ (Status r = "passed" ↔ ∀ c, c ∈ Checks test → failing TrimSpace c = false).
Proof.
  unfold runTest. cbn.
  destruct (runTest_loop test config (Checks test)
              (mkTestResult (CaseName test) "passed" 0 [] "" false))
    as (H1 & H2 & H3).
  cbn in H1, H2, H3. rewrite H1, H2, H3. clear H1 H2 H3.
  assert (Hall : forallb (fun c => negb (failing TrimSpace c)) (Checks test) = true
                 ↔ ∀ c, c ∈ Checks test → failing TrimSpace c = false).
  { rewrite forallb_forall. split; intros H c Hc.
    - apply negb_true_iff, H. by apply list_elem_of_In.
    - apply negb_true_iff, H. by apply list_elem_of_In. }
  assert (Hex : forallb (fun c => negb (failing TrimSpace c)) (Checks test) = false
                ↔ ∃ c, c ∈ Checks test ∧ failing TrimSpace c = true).
  { clear Hall. induction (Checks test) as [|c l IH]; cbn.
    - split; [discriminate|]. intros (c & Hc & _). by apply elem_of_nil in Hc.
    - rewrite andb_false_iff, negb_false_iff, IH. split.
      + intros [H|(c' & Hc' & H)]; [exists c|exists c']; split; try done.
        * apply list_elem_of_here.
        * by apply list_elem_of_further.
      + intros (c' & Hc' & H). apply elem_of_cons in Hc' as [->|Hc'];
          [by left|right; eauto]. }
  split; [done|]. split.
  { rewrite <- list_fmap_compose. rewrite <- (list_fmap_id (Checks test)) at 2.
    apply list_fmap_ext. intros i c _. cbn. apply runCheck_passed. }
  split.
  { rewrite <- list_fmap_compose. apply list_fmap_ext. intros i c _. cbn.
    apply runCheck_passed. }
  destruct (forallb _ (Checks test)).
  - split; split; try discriminate; try done.
    + intros H. by apply Hex in H.
    + intros _. by apply Hall.
  - split; split; try discriminate; try done.
    + intros _. by apply Hex.
    + intros H. by apply Hall in H.
Qed.



Abbreviation looped config verbose r tick tests :=
  ((foldl (runEvalsStep TrimSpace clock config verbose) (r, tick) tests).1).

(** The loop of [runEvals] over the tests. *)
Lemma runEvals_loop config verbose tests : ∀ r tick,
  ∃ results,
    TestResults (looped config verbose r tick tests) = TestResults r ++ results
    ∧ Forall2 (ranTest TrimSpace clock config verbose) tests results
    ∧ Passed (looped config verbose r tick tests) =
        Passed r + count (fun t => String.eqb (Status t) "passed") results
    ∧ Failed (looped config verbose r tick tests) =
        Failed r + count (fun t => negb (String.eqb (Status t) "passed")) results
    ∧ Timestamp (looped config verbose r tick tests) = Timestamp r
    ∧ TestSuiteName (looped config verbose r tick tests) = TestSuiteName r
    ∧ TotalTests (looped config verbose r tick tests) = TotalTests r.
Proof.
  induction tests as [|test tests IH]; intros r tick.
  - exists []. cbn. rewrite app_nil_r. unfold count. cbn.
    repeat split; try lia. constructor.
  - cbn [foldl].
    destruct (runTest TrimSpace clock test config verbose tick) as [tr tick'] eqn:Ert.
    assert (Hs : runEvalsStep TrimSpace clock config verbose (r, tick) test
                 = (mkEvalResult (Timestamp r) (TestSuiteName r) (TotalTests r)
                      (if String.eqb (Status tr) "passed" then Passed r + 1 else Passed r)
                      (if String.eqb (Status tr) "passed" then Failed r else Failed r + 1)
                      (Regressions r) (TestResults r ++ [tr]) (Comparison r),
                    tick'))
      by (unfold runEvalsStep; by rewrite Ert).
    rewrite Hs.
    match goal with
    | |- context [foldl _ (?r1, _) tests] =>
        destruct (IH r1 tick') as (results & H1 & H2 & H3 & H4 & H5 & H6 & H7)
    end.
    exists (tr :: results). rewrite H1, H3, H4, H5, H6, H7. cbn.
    rewrite <- app_assoc. unfold count. cbn [List.filter].
    repeat split.
    + constructor; [|done]. exists tick. by rewrite Ert.
    + destruct (String.eqb (Status tr) "passed"); cbn [length]; lia.
    + destruct (String.eqb (Status tr) "passed"); cbn [negb length]; lia.
Qed.

Lemma attachComparison_fields r file :
  TestResults (attachComparison r file) = TestResults r
  ∧ Passed (attachComparison r file) = Passed r
  ∧ Failed (attachComparison r file) = Failed r
  ∧ TotalTests (attachComparison r file) = TotalTests r
  ∧ TestSuiteName (attachComparison r file) = TestSuiteName r.
Proof. by destruct file. Qed.


End RunnerMore.

Section RegressionBound.

Import Eval Props Props2.

(** A new failure is a test of the run that failed. *)
Lemma newFailures_are_failed (r : EvalResult) (file : BaselineFile) c name :
  tallied r →
  Comparison (attachComparison r file) = Some c →
  name ∈ NewFailures c →
  ∃ tr, tr ∈ TestResults r ∧ Name tr = name ∧ Status tr = "failed".
Proof.
  intros (_ & _ & HC0) Hc Hname. destruct file as [| |b]; cbn in Hc.
  - congruence.
  - injection Hc as <-. by apply elem_of_nil in Hname.
  - injection Hc as <-. apply in_NewFailures in Hname
      as (br & cr & _ & HC & _ & Hst).
    rewrite indexByName_lookup in HC. apply last_Some_elem_of in HC.
    apply list_elem_of_filter in HC as [Hn Hcr]. eauto.
Qed.

(** There are no more regressions than failed tests. *)
Lemma regressions_bounded (r : EvalResult) (file : BaselineFile) :
  tallied r → Regressions (attachComparison r file) ≤ Failed r.
Proof.
  intros Htal.
  destruct (attachComparison_regressions r file Htal) as (_ & _ & HR).
  destruct Htal as (HF & HR0 & HC0).
  rewrite HR, HF.
  destruct (Comparison (attachComparison r file)) as [c|] eqn:Ec; [|lia].
  apply inj_le.
  transitivity (length (Name <$> filter (fun t => Status t = "failed") (TestResults r)));
    [|by rewrite length_fmap].
  apply submseteq_length, NoDup_submseteq.
  - destruct file as [| |b]; cbn in Ec; [congruence| |].
    + injection Ec as <-. constructor.
    + injection Ec as <-. apply comparison_lists_NoDup.
  - intros name Hname.
    destruct (newFailures_are_failed r file c name (conj HF (conj HR0 HC0)) Ec Hname)
      as (tr & Htr & Hn & Hst).
    apply list_elem_of_fmap. exists tr. split; [done|].
    by apply list_elem_of_filter.
Qed.

End RegressionBound.

Section RunnerTheorems.

Import Eval Props Props2.

Variable TrimSpace : string → string.
Variable filepath_Join : list string → string.
Variable loadConfig : string → option Config.RegradaConfig.
Variable loadTestSuite : string → option TestSuite.
Variable baselineAt : string → BaselineFile.
Variable clock : nat → Z.

Abbreviation run := (runEvals TrimSpace filepath_Join loadConfig loadTestSuite
                       baselineAt clock).

(** X1: the result of [runTest] bears the name of the test and has one
    check result for each check of the test, in their order; the check
    result of a check passed unless the type of the check (the trimmed
    text before its first colon, or the whole check) is
    [INTENTIONAL_FAIL], an unknown type passing like a known one; the
    status is [failed] when a check of that type is among the checks of
    the test and [passed] otherwise. *)
Theorem runTest_fails_only_on_the_failing_check
    (test : TestCase) (config : option Config.RegradaConfig)
    (verbose : bool) (tick : nat) :
  let r := (runTest TrimSpace clock test config verbose tick).1 in
  Name r = CaseName test
  ∧ Check <$> CheckResults r = Checks test
  ∧ CheckPassed <$> CheckResults r
    = (fun c => negb (failing TrimSpace c)) <$> Checks test
  ∧ (Status r = "failed" ↔ ∃ c, c ∈ Checks test ∧ failing TrimSpace c = true)
  ∧ (Status r = "passed" ↔ ∀ c, c ∈ Checks test → failing TrimSpace c = false).
Proof. apply runTest_outcome. Qed.

(** What [runEvals] builds once its suite is loaded. *)
Lemma runEvals_loaded testsPath baselinePath ciMode outputFormat configPath
    path suite :
  resolveTestsPath filepath_Join
    (evalConfig loadConfig configPath outputFormat) testsPath = Some path →
  loadTestSuite path = Some suite →
  ∃ r,
    run testsPath baselinePath ciMode outputFormat configPath
    = Returned (exitCode ciMode
                  (attachComparison r
                     (baselineAt (resolveBaselinePath filepath_Join baselinePath))))
        (Some (attachComparison r
                 (baselineAt (resolveBaselinePath filepath_Join baselinePath))))
    ∧ tallied r
    ∧ Forall2 (ranTest TrimSpace clock
                 (evalConfig loadConfig configPath outputFormat)
                 (negb (String.eqb outputFormat "json")))
        (Tests suite) (TestResults r)
    ∧ Passed r = count (fun t => String.eqb (Status t) "passed") (TestResults r)
    ∧ Failed r =
        count (fun t => negb (String.eqb (Status t) "passed")) (TestResults r)
    ∧ Timestamp r = clock 0%nat ∧ TestSuiteName r = SuiteName suite
    ∧ TotalTests r = Z.of_nat (length (Tests suite)).
Proof.
  intros Hp Hs. unfold runEvals. rewrite Hp, Hs.
  set (r0 := mkEvalResult _ _ _ _ _ _ _ _).
  set (cfg := evalConfig loadConfig configPath outputFormat).
  set (vb := negb (String.eqb outputFormat "json")).
  pose proof (runEvals_loop_tallied TrimSpace clock cfg vb (Tests suite) r0 1%nat)
    as Ht.
  destruct (runEvals_loop TrimSpace clock cfg vb (Tests suite) r0 1%nat)
    as (results & H1 & H2 & H3 & H4 & H5 & H6 & H7).
  destruct (foldl _ (r0, 1%nat) (Tests suite)) as [r tick].
  cbn [fst] in *. exists r. subst r0. cbn in H1, H3, H4, H5, H6, H7. subst results.
  split; [done|]. split; [by apply Ht|]. split; [done|].
  split; [rewrite H3; lia|]. split; [rewrite H4; lia|]. done.
Qed.


Lemma Forall2_fmap_eq {A B C} (f : A → C) (g : B → C) (l : list A) (k : list B) :
  Forall2 (fun a b => g b = f a) l k → g <$> k = f <$> l.
Proof. induction 1 as [|a b l k H _ IH]; [done|]. cbn. by rewrite H, IH. Qed.

(** X2: when the test suite is loaded, the run returns a result that bears
    the name of the suite, counts as many tests as the suite has, and has
    one test result for each test of the suite, in the order of the
    suite and under the name of the test; [Passed] is the number of
    results with status [passed] and [Passed + Failed] is the number of
    tests; a test result lists the checks of its test and is [failed]
    exactly when one of them has the check type [INTENTIONAL_FAIL]. *)
Theorem runEvals_tallies_the_suite
    (testsPath baselinePath : string) (ciMode : bool)
    (outputFormat configPath path : string) (suite : TestSuite) :
  resolveTestsPath filepath_Join
    (evalConfig loadConfig configPath outputFormat) testsPath = Some path →
  loadTestSuite path = Some suite →
  ∃ code result,
    run testsPath baselinePath ciMode outputFormat configPath
    = Returned code (Some result)
    ∧ TestSuiteName result = SuiteName suite
    ∧ TotalTests result = Z.of_nat (length (Tests suite))
    ∧ Passed result + Failed result = TotalTests result
    ∧ Passed result
      = count (fun t => String.eqb (Status t) "passed") (TestResults result)
    ∧ Name <$> TestResults result = CaseName <$> Tests suite
    ∧ Forall2 (fun test tr =>
                 Check <$> CheckResults tr = Checks test
                 ∧ (Status tr = "failed"
                    ↔ ∃ c, c ∈ Checks test ∧ failing TrimSpace c = true)
                 ∧ (Status tr = "passed"
                    ↔ ∀ c, c ∈ Checks test → failing TrimSpace c = false))
        (Tests suite) (TestResults result).
Proof.
  intros Hp Hs.
  destruct (runEvals_loaded testsPath baselinePath ciMode outputFormat configPath
              path suite Hp Hs) as (r & Hrun & _ & Hran & HP & HF & _ & Hn & Ht).
  set (file := baselineAt (resolveBaselinePath filepath_Join baselinePath)) in *.
  destruct (attachComparison_fields r file) as (E1 & E2 & E3 & E4 & E5).
  eexists _, _. split; [exact Hrun|].
  rewrite E1, E2, E3, E4, E5.
  split; [done|]. split; [done|].
  split.
  { rewrite HP, HF, count_split, Ht. f_equal. symmetry.
    by eapply Forall2_length. }
  split; [done|]. split.
  - apply Forall2_fmap_eq. eapply Forall2_impl; [exact Hran|].
    intros test tr [tick ->]. apply runTest_outcome.
  - eapply Forall2_impl; [exact Hran|].
    intros test tr [tick ->].
    destruct (runTest_outcome TrimSpace clock test
                (evalConfig loadConfig configPath outputFormat)
                (negb (String.eqb outputFormat "json")) tick)
      as (_ & H1 & _ & H2 & H3).
    done.
Qed.

(** X3: when the test suite is loaded, every name among the new failures
    of the comparison is the name of a test result of this run with
    status [failed]; so there are no more regressions than failed tests,
    and the exit code is 1 exactly in CI mode with a failed test (the
    test on the regressions adds nothing). *)
Theorem regressions_are_failed_tests
    (testsPath baselinePath : string) (ciMode : bool)
    (outputFormat configPath path : string) (suite : TestSuite) :
  resolveTestsPath filepath_Join
    (evalConfig loadConfig configPath outputFormat) testsPath = Some path →
  loadTestSuite path = Some suite →
  ∃ code result,
    run testsPath baselinePath ciMode outputFormat configPath
    = Returned code (Some result)
    ∧ (∀ c name, Comparison result = Some c → name ∈ NewFailures c →
         ∃ tr, tr ∈ TestResults result ∧ Name tr = name ∧ Status tr = "failed")
    ∧ Regressions result ≤ Failed result
    ∧ (code = if ciMode && (0 <? Failed result) then 1 else 0).
Proof.
  intros Hp Hs.
  destruct (runEvals_loaded testsPath baselinePath ciMode outputFormat configPath
              path suite Hp Hs) as (r & Hrun & Htal & _).
  set (file := baselineAt (resolveBaselinePath filepath_Join baselinePath)) in *.
  eexists _, _. split; [exact Hrun|].
  destruct (attachComparison_fields r file) as (E1 & _ & E3 & _).
  pose proof (regressions_bounded r file Htal) as Hle.
  rewrite E1, E3. split; [intros c name; by apply newFailures_are_failed|]. split; [exact Hle|].
  unfold exitCode. rewrite E3. destruct ciMode; cbn [andb]; [|done].
  destruct (0 <? Failed r) eqn:Ef; [done|]. cbn [orb].
  apply Z.ltb_ge in Ef.
  destruct (0 <? Regressions (attachComparison r file)) eqn:Er; [|done].
  apply Z.ltb_lt in Er. lia.
Qed.

(** X4: without the CI flag the exit code tells only whether the test
    suite could be loaded: it is 0 when the suite is loaded, whatever
    fails and whatever the baseline says, and 1, with no result, when it
    is not. *)
Theorem runEvals_without_ci_flag
    (testsPath baselinePath outputFormat configPath path : string) :
  resolveTestsPath filepath_Join
    (evalConfig loadConfig configPath outputFormat) testsPath = Some path →
  ∃ code result,
    run testsPath baselinePath false outputFormat configPath
    = Returned code result
    ∧ (code = 0 ↔ is_Some (loadTestSuite path))
    ∧ (code = 1 ↔ loadTestSuite path = None)
    ∧ (is_Some result ↔ is_Some (loadTestSuite path)).
Proof.
  intros Hp. unfold runEvals. rewrite Hp.
  destruct (loadTestSuite path) as [suite|].
  - destruct (foldl _ _ (Tests suite)) as [r tick].
    eexists _, _. split; [reflexivity|]. cbn.
    repeat split; try done; try (by eexists); discriminate.
  - eexists _, _. split; [reflexivity|].
    repeat split; try done; try discriminate; by intros [? ?].
Qed.

(** X5: [runEvals] dereferences a nil configuration, and panics, exactly
    when the configuration cannot be loaded, the output format is
    [json] (the only format for which the defaults are not put in its
    place) and no path to the tests is given. *)
Theorem runEvals_nil_config_panic
    (testsPath baselinePath : string) (ciMode : bool)
    (outputFormat configPath : string) :
  runEvals TrimSpace filepath_Join loadConfig loadTestSuite baselineAt clock
    testsPath baselinePath ciMode outputFormat configPath = NilConfigPanic
  ↔ loadConfig configPath = None ∧ outputFormat = "json" ∧ testsPath = "".
Proof.
  unfold runEvals, resolveTestsPath, evalConfig.
  destruct (String.eqb testsPath "") eqn:Et.
  - apply String.eqb_eq in Et. subst testsPath.
    destruct (loadConfig configPath) as [c|].
    + split; [|by intros [? _]].
      destruct (loadTestSuite _); [|discriminate].
      destruct (foldl _ _ _). discriminate.
    + destruct (String.eqb outputFormat "json") eqn:Ej; cbn [negb].
      * apply String.eqb_eq in Ej. by subst.
      * apply String.eqb_neq in Ej. split; [|by intros (_ & ? & _)].
        destruct (loadTestSuite _); [|discriminate].
        destruct (foldl _ _ _). discriminate.
  - apply String.eqb_neq in Et. split; [|by intros (_ & _ & ?)].
    destruct (loadTestSuite _); [|discriminate].
    destruct (foldl _ _ _). discriminate.
Qed.

(** X6: when the test suite is loaded: without a file at the baseline
    path the result has no comparison and no regression; with a file
    that cannot be read or decoded it has the empty comparison and no
    regression; with a decoded baseline it has the comparison of its own
    test results with that baseline, and its number of regressions is
    the number of new failures of that comparison. *)
Theorem runEvals_attaches_the_comparison
    (testsPath baselinePath : string) (ciMode : bool)
    (outputFormat configPath path : string) (suite : TestSuite) :
  resolveTestsPath filepath_Join
    (evalConfig loadConfig configPath outputFormat) testsPath = Some path →
  loadTestSuite path = Some suite →
  ∃ code result,
    run testsPath baselinePath ciMode outputFormat configPath
    = Returned code (Some result)
    ∧ match baselineAt (resolveBaselinePath filepath_Join baselinePath) with
      | Missing => Comparison result = None ∧ Regressions result = 0
      | Unreadable =>
          Comparison result = Some emptyComparison ∧ Regressions result = 0
      | Decoded baseline =>
          Comparison result
          = Some (compareWithBaselineResults result (Decoded baseline))
          ∧ Regressions result
            = Z.of_nat (length (NewFailures
                                  (compareWithBaselineResults result
                                     (Decoded baseline))))
      end.
Proof.
  intros Hp Hs.
  destruct (runEvals_loaded testsPath baselinePath ciMode outputFormat configPath
              path suite Hp Hs) as (r & Hrun & (_ & HR & HC) & _).
  eexists _, _. split; [exact Hrun|].
  destruct (baselineAt _) as [| |b]; cbn; [done|done|].
  split; reflexivity.
Qed.

End RunnerTheorems.

(** ** The summary of a traced session *)

Section SummaryFacts.

Import Proxy Session Props2.

Lemma wrap64_add_l a b : Go.wrap64 (Go.wrap64 a + b) = Go.wrap64 (a + b).
Proof.
  unfold Go.wrap64. f_equal.
  replace ((a + 2 ^ 63) mod 2 ^ 64 - 2 ^ 63 + b + 2 ^ 63)
    with ((a + 2 ^ 63) mod 2 ^ 64 + b) by lia.
  rewrite Zplus_mod_idemp_l. f_equal. lia.
Qed.

Lemma wrap64_add_r a b : Go.wrap64 (a + Go.wrap64 b) = Go.wrap64 (a + b).
Proof. by rewrite Z.add_comm, wrap64_add_l, Z.add_comm. Qed.

Lemma wrap64_small a : - 2 ^ 63 ≤ a < 2 ^ 63 → Go.wrap64 a = a.
Proof.
  intros H. unfold Go.wrap64.
  change (2 ^ 63) with 9223372036854775808 in *.
  change (2 ^ 64) with 18446744073709551616 in *.
  rewrite Z.mod_small by lia. lia.
Qed.

(** A sum that wraps at each step is the wrapped sum. *)
Lemma wrapped_sum (f : LLMTrace → Z) traces : ∀ a,
  foldl (fun sum t => Go.wrap64 (sum + f t)) a traces
  = match traces with [] => a | _ => Go.wrap64 (a + sumOf f traces) end.
Proof.
  induction traces as [|t traces IH]; intros a; [done|].
  cbn [foldl]. rewrite IH. cbn [sumOf foldr]. fold (sumOf f traces).
  destruct traces as [|t' traces]; [cbn; f_equal; lia|].
  rewrite wrap64_add_l. f_equal. lia.
Qed.

Lemma increment_lookup m key k :
  increment m key !! k
  = if decide (key = k) then Some (default 0 (m !! key) + 1) else m !! k.
Proof. unfold increment. apply lookup_insert. Qed.

Lemma total_insert_fresh (m : gmap string Z) k n :
  m !! k = None → total (<[k := n]> m) = n + total m.
Proof.
  intros H. unfold total. rewrite map_fold_insert_L; [done| |done].
  intros. lia.
Qed.

Lemma total_empty : total ∅ = 0.
Proof. apply map_fold_empty. Qed.

Lemma total_increment m key : total (increment m key) = total m + 1.
Proof.
  unfold increment. destruct (m !! key) as [n|] eqn:E; cbn.
  - rewrite <- insert_delete_eq.
    rewrite <- (insert_id m key n E) at 2. rewrite <- (insert_delete_eq m).
    rewrite !total_insert_fresh by apply lookup_delete_eq. lia.
  - rewrite total_insert_fresh by done. lia.
Qed.

(** The loop of [calculateSummary], field by field. *)
Lemma summary_loop traces : ∀ summary toolSet,
  foldl summaryStep (summary, toolSet) traces
  = (mkTraceSummary (TotalCalls summary)
       (foldl (fun sum t => Go.wrap64 (sum + TokensIn t)) (TotalTokensIn summary) traces)
       (foldl (fun sum t => Go.wrap64 (sum + TokensOut t)) (TotalTokensOut summary) traces)
       (foldl (fun sum t => Go.wrap64 (sum + Latency t)) (TotalLatency summary) traces)
       (foldl (fun m t => if true then increment m (Provider t) else m)
          (ByProvider summary) traces)
       (foldl (fun m t => if negb (String.eqb (Model t) "")
                          then increment m (Model t) else m)
          (ByModel summary) traces)
       (ToolsCalled summary),
     foldl (fun toolSet t =>
              foldl (fun toolSet tc => <[ToolName tc := true]> toolSet)
                toolSet (ToolCalls t))
       toolSet traces).
Proof.
  induction traces as [|t traces IH]; intros summary toolSet.
  - by destruct summary.
  - cbn [foldl]. unfold summaryStep at 2. rewrite IH. reflexivity.
Qed.

Lemma collect_keys {A} (l : list (string * A)) : ∀ tools,
  foldl (fun tools entry => tools ++ [entry.1]) tools l = tools ++ l.*1.
Proof.
  induction l as [|e l IH]; intros tools; cbn.
  - by rewrite app_nil_r.
  - rewrite IH. by rewrite <- app_assoc.
Qed.

Section Counting.

Variable use : LLMTrace → bool.
Variable key : LLMTrace → string.

Abbreviation counted := (foldl (fun m t => if use t then increment m (key t) else m)).

Lemma counted_lookup traces : ∀ m k,
  counted m traces !! k
  = let n := count (fun t => use t && String.eqb (key t) k) traces in
    if n =? 0 then m !! k else Some (default 0 (m !! k) + n).
Proof.
  induction traces as [|t traces IH]; intros m k; [done|].
  cbn [foldl]. rewrite IH. cbn zeta. rewrite count_cons.
  pose proof (count_nonneg (fun t => use t && String.eqb (key t) k) traces) as Hn.
  destruct (use t) eqn:Hu; cbn [andb]; [|done].
  rewrite increment_lookup.
  destruct (String.eqb_spec (key t) k) as [Hk|Hk].
  - rewrite decide_True by done. subst k.
    destruct (Z.eqb_spec (count (fun t0 => use t0 && String.eqb (key t0) (key t)) traces) 0) as [->|Hz].
    + cbn. done.
    + rewrite (proj2 (Z.eqb_neq _ 0)) by lia. cbn. f_equal. lia.
  - rewrite decide_False by done. done.
Qed.

Lemma counted_total traces : ∀ m,
  total (counted m traces) = total m + count use traces.
Proof.
  induction traces as [|t traces IH]; intros m; [cbn; unfold count; cbn; lia|].
  cbn [foldl]. rewrite IH, count_cons.
  destruct (use t); [rewrite total_increment|]; lia.
Qed.

End Counting.

Lemma callsTool_spec tool t :
  callsTool tool t = true ↔ ∃ tc, tc ∈ ToolCalls t ∧ ToolName tc = tool.
Proof.
  unfold callsTool. rewrite existsb_exists. split.
  - intros (tc & Hin & Heq). exists tc. split; [by apply list_elem_of_In|].
    by apply String.eqb_eq.
  - intros (tc & Hin & Heq). exists tc. split; [by apply list_elem_of_In|].
    by apply String.eqb_eq.
Qed.

Lemma toolSet_inner tool tcs : ∀ (toolSet : gmap string bool),
  foldl (fun toolSet tc => <[ToolName tc := true]> toolSet) toolSet tcs !! tool
  = if existsb (fun tc => String.eqb (ToolName tc) tool) tcs
    then Some true else toolSet !! tool.
Proof.
  induction tcs as [|tc tcs IH]; intros toolSet; [done|].
  cbn [foldl existsb]. rewrite IH.
  destruct (String.eqb_spec (ToolName tc) tool) as [Heq|Hne]; cbn [orb].
  - subst tool. rewrite lookup_insert_eq. by destruct (existsb _ tcs).
  - by rewrite lookup_insert_ne.
Qed.

Lemma toolSet_lookup tool traces : ∀ (toolSet : gmap string bool),
  foldl (fun toolSet t =>
           foldl (fun toolSet tc => <[ToolName tc := true]> toolSet)
             toolSet (ToolCalls t))
    toolSet traces !! tool
  = if existsb (callsTool tool) traces then Some true else toolSet !! tool.
Proof.
  induction traces as [|t traces IH]; intros toolSet; [done|].
  cbn [foldl existsb]. rewrite IH, toolSet_inner. fold (callsTool tool t).
  by destruct (callsTool tool t), (existsb (callsTool tool) traces).
Qed.

Lemma calculateSummary_eq traces :
  calculateSummary traces
  = mkTraceSummary (Z.of_nat (length traces))
      (Go.wrap64 (sumOf TokensIn traces))
      (Go.wrap64 (sumOf TokensOut traces))
      (Go.wrap64 (sumOf Latency traces))
      (foldl (fun m t => if true then increment m (Provider t) else m) ∅ traces)
      (foldl (fun m t => if negb (String.eqb (Model t) "")
                         then increment m (Model t) else m) ∅ traces)
      (map_to_list
         (foldl (fun toolSet t =>
                   foldl (fun toolSet tc => <[ToolName tc := true]> toolSet)
                     toolSet (ToolCalls t))
            (∅ : gmap string bool) traces)).*1.
Proof.
  unfold calculateSummary. rewrite summary_loop. cbn.
  rewrite collect_keys, !wrapped_sum. cbn [app].
  destruct traces; [done|]. by rewrite !Z.add_0_l.
Qed.

Lemma ToolsCalled_elem traces tool :
  tool ∈ ToolsCalled (calculateSummary traces)
  ↔ existsb (callsTool tool) traces = true.
Proof.
  rewrite calculateSummary_eq. cbn [ToolsCalled].
  rewrite list_elem_of_fmap. split.
  - intros ([k v] & -> & Hin). apply elem_of_map_to_list in Hin.
    rewrite toolSet_lookup in Hin. cbn in *.
    destruct (existsb _ traces); [done|]. by rewrite lookup_empty in Hin.
  - intros H. exists (tool, true). split; [done|].
    apply elem_of_map_to_list. by rewrite toolSet_lookup, H.
Qed.

Lemma existsb_elem_of {A} (P : A → bool) l :
  existsb P l = true ↔ ∃ x, x ∈ l ∧ P x = true.
Proof.
  rewrite existsb_exists. split; intros (x & H1 & H2); exists x;
    (split; [by apply list_elem_of_In|done]).
Qed.

Lemma ByProvider_lookup traces provider :
  ByProvider (calculateSummary traces) !! provider
  = let n := count (fun t => String.eqb (Provider t) provider) traces in
    if n =? 0 then None else Some n.
Proof.
  rewrite calculateSummary_eq. cbn [ByProvider].
  rewrite (counted_lookup (fun _ => true) Provider). cbn zeta.
  rewrite lookup_empty. cbn. by destruct (_ =? 0).
Qed.

Lemma ByModel_lookup traces model :
  ByModel (calculateSummary traces) !! model
  = if String.eqb model "" then None
    else let n := count (fun t => String.eqb (Model t) model) traces in
         if n =? 0 then None else Some n.
Proof.
  rewrite calculateSummary_eq. cbn [ByModel].
  rewrite (counted_lookup (fun t => negb (String.eqb (Model t) "")) Model).
  cbn zeta. rewrite lookup_empty. cbn [default]. rewrite Z.add_0_l.
  destruct (String.eqb_spec model "") as [->|Hne].
  - rewrite (proj2 (Z.eqb_eq _ 0)); [done|].
    apply count_zero. intros t _. by destruct (String.eqb (Model t) "").
  - assert (Hc : count (fun t => negb (String.eqb (Model t) "") && String.eqb (Model t) model) traces
               = count (fun t => String.eqb (Model t) model) traces).
    { unfold count. do 2 f_equal. apply filter_ext. intros t.
      destruct (String.eqb_spec (Model t) model) as [->|]; [|by rewrite andb_false_r].
      by rewrite (proj2 (String.eqb_neq _ _) Hne). }
    by rewrite Hc.
Qed.

(** X7: the summary counts every trace (the [int] sums aside, nothing of
    a trace is left out): [TotalCalls] is the number of traces, the
    entry of [ByProvider] for a provider is the number of traces of that
    provider, there is no entry for a provider without a trace, and the
    entries of [ByProvider] add up to [TotalCalls]. *)
Theorem calculateSummary_counts_by_provider traces provider :
  let summary := calculateSummary traces in
  let n := count (fun t => String.eqb (Provider t) provider) traces in
  TotalCalls summary = Z.of_nat (length traces)
  ∧ ByProvider summary !! provider = (if n =? 0 then None else Some n)
  ∧ total (ByProvider summary) = TotalCalls summary.
Proof.
  cbn zeta. split; [by rewrite calculateSummary_eq|]. split.
  - apply ByProvider_lookup.
  - rewrite calculateSummary_eq. cbn [ByProvider TotalCalls].
    rewrite (counted_total (fun _ => true) Provider).
    rewrite total_empty. unfold count. rewrite (forallb_filter_id _ traces); [lia|].
    by apply forallb_forall.
Qed.

(** X8: [ByModel] has no entry for the empty model name; its entry for
    another model is the number of traces of that model (no entry when
    there is none); its entries add up to the number of traces with a
    model name, which is at most [TotalCalls]. *)
Theorem calculateSummary_counts_by_model traces model :
  let summary := calculateSummary traces in
  let n := count (fun t => String.eqb (Model t) model) traces in
  ByModel summary !! model
  = (if String.eqb model "" then None else if n =? 0 then None else Some n)
  ∧ total (ByModel summary)
    = count (fun t => negb (String.eqb (Model t) "")) traces
  ∧ total (ByModel summary) ≤ TotalCalls summary.
Proof.
  cbn zeta. split; [apply ByModel_lookup|].
  rewrite calculateSummary_eq. cbn [ByModel TotalCalls].
  rewrite (counted_total (fun t => negb (String.eqb (Model t) "")) Model).
  rewrite !total_empty, !Z.add_0_l.
  split; [done|]. apply count_le_length.
Qed.

(** X9: [ToolsCalled] holds no name twice, and holds a name exactly
    when a tool call of one of the traces bears it. *)
Theorem calculateSummary_lists_each_tool_once traces :
  let summary := calculateSummary traces in
  NoDup (ToolsCalled summary)
  ∧ ∀ tool, tool ∈ ToolsCalled summary
      ↔ ∃ t tc, t ∈ traces ∧ tc ∈ ToolCalls t ∧ ToolName tc = tool.
Proof.
  cbn zeta. split.
  - rewrite calculateSummary_eq. cbn [ToolsCalled]. apply NoDup_fst_map_to_list.
  - intros tool. rewrite ToolsCalled_elem, existsb_elem_of. split.
    + intros (t & Hin & Hc). apply callsTool_spec in Hc as (tc & ? & ?).
      by exists t, tc.
    + intros (t & tc & Hin & ? & ?). exists t. split; [done|].
      apply callsTool_spec. by exists tc.
Qed.

(** X10: the three totals of the summary are the sums of the input
    tokens, of the output tokens and of the latencies of the traces,
    reduced to 64 bits: wrapping at each addition, as the code does,
    gives the wrapped sum. *)
Theorem calculateSummary_totals_wrap traces :
  let summary := calculateSummary traces in
  TotalTokensIn summary = Go.wrap64 (sumOf TokensIn traces)
  ∧ TotalTokensOut summary = Go.wrap64 (sumOf TokensOut traces)
  ∧ TotalLatency summary = Go.wrap64 (sumOf Latency traces).
Proof. cbn zeta. by rewrite calculateSummary_eq. Qed.

Lemma sumOf_app f a b : sumOf f (a ++ b) = sumOf f a + sumOf f b.
Proof.
  induction a as [|t a IH]; [done|]. cbn [app sumOf foldr].
  fold (sumOf f (a ++ b)). fold (sumOf f a). lia.
Qed.

Lemma sumOf_Permutation f a b : a ≡ₚ b → sumOf f a = sumOf f b.
Proof.
  induction 1 as [|t a b _ IH|t t' a|a b c _ IH1 _ IH2]; cbn [sumOf foldr];
    fold (sumOf f) in *; try fold (sumOf f a); try fold (sumOf f b); lia.
Qed.

Lemma existsb_Permutation {A} (P : A → bool) a b :
  a ≡ₚ b → existsb P a = existsb P b.
Proof.
  induction 1 as [|t a b _ IH|t t' a|a b c _ IH1 _ IH2]; cbn [existsb];
    [done|by rewrite IH|by destruct (P t), (P t')|congruence].
Qed.

Lemma default_counted (n : Z) : default 0 (if n =? 0 then None else Some n) = n.
Proof. by destruct (Z.eqb_spec n 0) as [->|]. Qed.

(** X11: the summary of two lists of traces put end to end is the sum of
    their summaries: the call counts add, the token and latency totals
    add (in 64 bits), the counts by provider and by model add entry by
    entry, and a tool is listed when one of the two summaries lists
    it. *)
Theorem calculateSummary_of_appended_traces a b :
  let sa := calculateSummary a in
  let sb := calculateSummary b in
  let s := calculateSummary (a ++ b) in
  TotalCalls s = TotalCalls sa + TotalCalls sb
  ∧ TotalTokensIn s = Go.wrap64 (TotalTokensIn sa + TotalTokensIn sb)
  ∧ TotalTokensOut s = Go.wrap64 (TotalTokensOut sa + TotalTokensOut sb)
  ∧ TotalLatency s = Go.wrap64 (TotalLatency sa + TotalLatency sb)
  ∧ (∀ provider,
       default 0 (ByProvider s !! provider)
       = default 0 (ByProvider sa !! provider)
         + default 0 (ByProvider sb !! provider))
  ∧ (∀ model,
       default 0 (ByModel s !! model)
       = default 0 (ByModel sa !! model) + default 0 (ByModel sb !! model))
  ∧ (∀ tool, tool ∈ ToolsCalled s
       ↔ tool ∈ ToolsCalled sa ∨ tool ∈ ToolsCalled sb).
Proof.
  cbn zeta. repeat split.
  - rewrite !calculateSummary_eq. cbn [TotalCalls]. rewrite length_app. lia.
  - rewrite !calculateSummary_eq. cbn [TotalTokensIn].
    by rewrite sumOf_app, wrap64_add_l, wrap64_add_r.
  - rewrite !calculateSummary_eq. cbn [TotalTokensOut].
    by rewrite sumOf_app, wrap64_add_l, wrap64_add_r.
  - rewrite !calculateSummary_eq. cbn [TotalLatency].
    by rewrite sumOf_app, wrap64_add_l, wrap64_add_r.
  - intros provider. rewrite !ByProvider_lookup. cbn zeta.
    by rewrite !default_counted, count_app.
  - intros model. rewrite !ByModel_lookup. cbn zeta.
    destruct (String.eqb model ""); [done|].
    by rewrite !default_counted, count_app.
  - rewrite !ToolsCalled_elem, existsb_app. apply orb_prop.
  - rewrite !ToolsCalled_elem, existsb_app. intros [-> | ->]; [done|apply orb_true_r].
Qed.

(** X12: the summary does not depend on the order of the traces: two
    lists with the same traces in another order have the same counts,
    totals and maps, and list the same tools (in an order that the
    iteration over a Go map leaves open). *)
Theorem calculateSummary_ignores_the_order a b :
  a ≡ₚ b →
  let sa := calculateSummary a in
  let sb := calculateSummary b in
  TotalCalls sa = TotalCalls sb
  ∧ TotalTokensIn sa = TotalTokensIn sb
  ∧ TotalTokensOut sa = TotalTokensOut sb
  ∧ TotalLatency sa = TotalLatency sb
  ∧ ByProvider sa = ByProvider sb
  ∧ ByModel sa = ByModel sb
  ∧ ToolsCalled sa ≡ₚ ToolsCalled sb.
Proof.
  intros Hp. cbn zeta. repeat split.
  - rewrite !calculateSummary_eq. cbn [TotalCalls]. by rewrite Hp.
  - rewrite !calculateSummary_eq. cbn [TotalTokensIn]. by rewrite (sumOf_Permutation _ _ _ Hp).
  - rewrite !calculateSummary_eq. cbn [TotalTokensOut]. by rewrite (sumOf_Permutation _ _ _ Hp).
  - rewrite !calculateSummary_eq. cbn [TotalLatency]. by rewrite (sumOf_Permutation _ _ _ Hp).
  - apply map_eq. intros provider. rewrite !ByProvider_lookup.
    by rewrite (count_Permutation _ _ _ Hp).
  - apply map_eq. intros model. rewrite !ByModel_lookup.
    by rewrite (count_Permutation _ _ _ Hp).
  - apply NoDup_Permutation.
    + rewrite calculateSummary_eq. apply NoDup_fst_map_to_list.
    + rewrite calculateSummary_eq. apply NoDup_fst_map_to_list.
    + intros tool. by rewrite !ToolsCalled_elem, (existsb_Permutation _ _ _ Hp).
Qed.

(** *** The comparison of a session with its baseline *)

Lemma toolSetOf_lookup tools tool :
  toolSetOf tools !! tool = if bool_decide (tool ∈ tools) then Some true else None.
Proof.
  unfold toolSetOf.
  assert (H : ∀ (m : gmap string bool),
    foldl (fun m t => <[t := true]> m) m tools !! tool
    = if bool_decide (tool ∈ tools) then Some true else m !! tool).
  { induction tools as [|t tools IH]; intros m.
    - rewrite bool_decide_false; [done|]. apply not_elem_of_nil.
    - cbn [foldl]. rewrite IH.
      destruct (decide (t = tool)) as [->|Hne].
      + rewrite (bool_decide_true (tool ∈ tool :: tools)) by left.
        rewrite lookup_insert_eq. by case_bool_decide.
      + rewrite lookup_insert_ne by done.
        case_bool_decide as H1; case_bool_decide as H2; try done.
        * exfalso. apply H2. by right.
        * exfalso. apply elem_of_cons in H2 as [-> | ?]; done. }
  by rewrite H, lookup_empty.
Qed.

Lemma called_toolSetOf tools tool :
  called (toolSetOf tools) tool = bool_decide (tool ∈ tools).
Proof. unfold called. rewrite toolSetOf_lookup. by case_bool_decide. Qed.

Lemma toolSetOf_entry tools entry :
  entry ∈ map_to_list (toolSetOf tools) ↔ entry.1 ∈ tools ∧ entry.2 = true.
Proof.
  destruct entry as [tool v]. rewrite elem_of_map_to_list, toolSetOf_lookup. cbn.
  case_bool_decide; split; try done.
  - by intros [= <-].
  - by intros [_ ->].
  - by intros [? _].
Qed.

Lemma elem_of_flat_map {A B} (f : A → list B) l y :
  y ∈ flat_map f l ↔ ∃ x, x ∈ l ∧ y ∈ f x.
Proof.
  rewrite list_elem_of_In, in_flat_map. split; intros (x & H1 & H2); exists x;
    (split; [by apply list_elem_of_In|by apply list_elem_of_In]).
Qed.

Lemma flat_map_nil {A B} (f : A → list B) l :
  (∀ x, x ∈ l → f x = []) → flat_map f l = [].
Proof.
  induction l as [|x l IH]; intros H; [done|]. cbn.
  rewrite (H x) by left. apply IH. intros y Hy. apply H. by right.
Qed.

Lemma wrap64_0 : Go.wrap64 0 = 0.
Proof. reflexivity. Qed.

(** X13: a session compared with itself as the baseline prints the empty
    line, the heading and [Call count unchanged], and nothing else: no
    tool, model or token line. *)
Theorem compareWithBaseline_itself session :
  compareWithBaseline session (Decoded session)
  = [Blank; Heading; CallCountUnchanged (TotalCalls (Summary session))].
Proof.
  unfold compareWithBaseline. cbn zeta.
  rewrite Z.eqb_refl. cbn [negb].
  rewrite !flat_map_nil; cycle 1.
  - intros [model n] Hin. apply elem_of_map_to_list in Hin.
    unfold modelLine. cbn. by rewrite Hin, Z.eqb_refl.
  - intros entry Hin. apply toolSetOf_entry in Hin as [Hin _].
    by rewrite called_toolSetOf, bool_decide_true.
  - intros entry Hin. apply toolSetOf_entry in Hin as [Hin _].
    by rewrite called_toolSetOf, bool_decide_true.
  - unfold tokenLines. by rewrite Z.sub_diag, wrap64_0.
Qed.

(** The lines of a comparison, part by part. *)
Lemma compareWithBaseline_elem session baseline line :
  line ∈ compareWithBaseline session (Decoded baseline)
  ↔ line = Blank ∨ line = Heading
    ∨ line = (if negb (TotalCalls (Summary session) =? TotalCalls (Summary baseline))
              then CallCountChanged (TotalCalls (Summary baseline))
                     (TotalCalls (Summary session))
              else CallCountUnchanged (TotalCalls (Summary session)))
    ∨ (∃ tool, line = NewTool tool
         ∧ tool ∈ ToolsCalled (Summary session)
         ∧ tool ∉ ToolsCalled (Summary baseline))
    ∨ (∃ tool, line = ToolGone tool
         ∧ tool ∈ ToolsCalled (Summary baseline)
         ∧ tool ∉ ToolsCalled (Summary session))
    ∨ (∃ model count, ByModel (Summary session) !! model = Some count
         ∧ line ∈ modelLine (ByModel (Summary baseline)) (model, count))
    ∨ line ∈ tokenLines (Summary session) (Summary baseline).
Proof.
  unfold compareWithBaseline. cbn zeta.
  rewrite !elem_of_app, !elem_of_cons, !elem_of_flat_map.
  assert (Htools : ∀ mk current other,
    (∃ entry, entry ∈ map_to_list (toolSetOf current)
       ∧ line ∈ (if negb (called (toolSetOf other) entry.1)
                 then [mk entry.1] else []))
    ↔ ∃ tool, line = mk tool ∧ tool ∈ current ∧ tool ∉ other).
  { intros mk current other. split.
    - intros (entry & Hin & Hl). apply toolSetOf_entry in Hin as [Hin _].
      rewrite called_toolSetOf in Hl. case_bool_decide; cbn in Hl.
      + by apply elem_of_nil in Hl.
      + apply list_elem_of_singleton in Hl. by exists entry.1.
    - intros (tool & -> & Hin & Hnot). exists (tool, true). split.
      + by apply toolSetOf_entry.
      + rewrite called_toolSetOf, bool_decide_false by done. cbn. left. }
  rewrite (Htools NewTool), (Htools ToolGone).
  assert (Hmodels :
    (∃ entry, entry ∈ map_to_list (ByModel (Summary session))
       ∧ line ∈ modelLine (ByModel (Summary baseline)) entry)
    ↔ ∃ model count, ByModel (Summary session) !! model = Some count
        ∧ line ∈ modelLine (ByModel (Summary baseline)) (model, count)).
  { split.
    - intros ([model count] & Hin & Hl). apply elem_of_map_to_list in Hin.
      by exists model, count.
    - intros (model & count & Hin & Hl). exists (model, count).
      split; [by apply elem_of_map_to_list|done]. }
  rewrite Hmodels, !elem_of_nil. tauto.
Qed.

Lemma tokenLines_elem summary baseline line :
  line ∈ tokenLines summary baseline → ∃ direction n, line = TokenUsage direction n.
Proof.
  unfold tokenLines. repeat case_match; intros Hin;
    try (by apply elem_of_nil in Hin);
    apply list_elem_of_singleton in Hin; eauto.
Qed.

Lemma modelLine_elem baselineByModel model count line :
  line ∈ modelLine baselineByModel (model, count)
  ↔ (line = NewModel model ∧ baselineByModel !! model = None)
    ∨ (∃ baselineCount, line = ModelUsageChanged model baselineCount count
         ∧ baselineByModel !! model = Some baselineCount
         ∧ count ≠ baselineCount).
Proof.
  unfold modelLine. cbn [fst snd].
  destruct (baselineByModel !! model) as [baselineCount|].
  - destruct (Z.eqb_spec count baselineCount) as [->|Hne]; cbn [negb].
    + rewrite elem_of_nil. split; [done|].
      intros [[_ [=]]|(? & _ & [= <-] & ?)]. done.
    + rewrite list_elem_of_singleton. split.
      * intros ->. right. by exists baselineCount.
      * by intros [[_ [=]]|(? & -> & [= <-] & ?)].
  - rewrite list_elem_of_singleton. split.
    + intros ->. by left.
    + by intros [[-> _]|(? & _ & [=] & _)].
Qed.

(** X14: against a decoded baseline, [New tool called: t] is printed
    exactly for the tools that the session lists and the baseline does
    not, and [Tool no longer called: t] exactly for the tools that the
    baseline lists and the session does not. *)
Theorem compareWithBaseline_reports_tools session baseline tool :
  let lines := compareWithBaseline session (Decoded baseline) in
  (NewTool tool ∈ lines
   ↔ tool ∈ ToolsCalled (Summary session)
     ∧ tool ∉ ToolsCalled (Summary baseline))
  ∧ (ToolGone tool ∈ lines
     ↔ tool ∈ ToolsCalled (Summary baseline)
       ∧ tool ∉ ToolsCalled (Summary session)).
Proof.
  cbn zeta. rewrite !compareWithBaseline_elem. split; split.
  - intros [?|[?|[H|[H|[H|[H|H]]]]]]; try done.
    + by destruct (negb _).
    + by destruct H as (? & [= <-] & ?).
    + by destruct H as (? & [=] & ?).
    + destruct H as (model & count & _ & H). apply modelLine_elem in H.
      by destruct H as [[[=] _]|(? & [=] & _)].
    + apply tokenLines_elem in H. by destruct H as (? & ? & [=]).
  - intros H. do 3 right. left. by exists tool.
  - intros [?|[?|[H|[H|[H|[H|H]]]]]]; try done.
    + by destruct (negb _).
    + by destruct H as (? & [=] & ?).
    + by destruct H as (? & [= <-] & ?).
    + destruct H as (model & count & _ & H). apply modelLine_elem in H.
      by destruct H as [[[=] _]|(? & [=] & _)].
    + apply tokenLines_elem in H. by destruct H as (? & ? & [=]).
  - intros H. do 4 right. left. by exists tool.
Qed.

(** X15: against a decoded baseline, [New model used: m] is printed
    exactly for the models counted in the session and not in the
    baseline, and [Model m usage changed: b → c] exactly for the models
    counted in both with different counts [b] (baseline) and [c]
    (session); a model that only the baseline counts gives no line. *)
Theorem compareWithBaseline_reports_models session baseline model :
  let lines := compareWithBaseline session (Decoded baseline) in
  (NewModel model ∈ lines
   ↔ is_Some (ByModel (Summary session) !! model)
     ∧ ByModel (Summary baseline) !! model = None)
  ∧ (∀ baselineCount count,
       ModelUsageChanged model baselineCount count ∈ lines
       ↔ ByModel (Summary session) !! model = Some count
         ∧ ByModel (Summary baseline) !! model = Some baselineCount
         ∧ count ≠ baselineCount).
Proof.
  cbn zeta. split; [|intros baselineCount count];
    rewrite compareWithBaseline_elem; split.
  - intros [?|[?|[H|[H|[H|[H|H]]]]]]; try done.
    + by destruct (negb _).
    + by destruct H as (? & [=] & ?).
    + by destruct H as (? & [=] & ?).
    + destruct H as (model' & count & Hs & H). apply modelLine_elem in H.
      destruct H as [[[= <-] Hb]|(? & [=] & _)]. by split.
    + apply tokenLines_elem in H. by destruct H as (? & ? & [=]).
  - intros [[count Hs] Hb]. do 5 right. left. exists model, count.
    split; [done|]. apply modelLine_elem. by left.
  - intros [?|[?|[H|[H|[H|[H|H]]]]]]; try done.
    + by destruct (negb _).
    + by destruct H as (? & [=] & ?).
    + by destruct H as (? & [=] & ?).
    + destruct H as (model' & count' & Hs & H). apply modelLine_elem in H.
      destruct H as [[[=] _]|(? & [= <- <- <-] & Hb & Hne)]. done.
    + apply tokenLines_elem in H. by destruct H as (? & ? & [=]).
  - intros (Hs & Hb & Hne). do 5 right. left. exists model, count.
    split; [done|]. apply modelLine_elem. right. by exists baselineCount.
Qed.

(** X16: when the token totals (input plus output) of the session and
    of the baseline lie between [-2^62] and [2^62], where no [int]
    operation wraps: [Token usage increased by n] is printed exactly
    when the session has [n > 0] tokens more than the baseline,
    [Token usage decreased by n] exactly when it has [n > 0] tokens
    fewer, and no token line when the totals are equal. *)
Theorem compareWithBaseline_reports_token_change session baseline direction n :
  let tokens := TotalTokensIn (Summary session) + TotalTokensOut (Summary session) in
  let baselineTokens :=
    TotalTokensIn (Summary baseline) + TotalTokensOut (Summary baseline) in
  - 2 ^ 62 ≤ tokens < 2 ^ 62 →
  - 2 ^ 62 ≤ baselineTokens < 2 ^ 62 →
  TokenUsage direction n ∈ compareWithBaseline session (Decoded baseline)
  ↔ (direction = "increased" ∧ baselineTokens < tokens
       ∧ n = tokens - baselineTokens)
    ∨ (direction = "decreased" ∧ tokens < baselineTokens
       ∧ n = baselineTokens - tokens).
Proof.
  cbn zeta. intros Hs Hb.
  change (2 ^ 62) with 4611686018427387904 in *.
  rewrite compareWithBaseline_elem.
  assert (Htok : TokenUsage direction n
                   ∈ tokenLines (Summary session) (Summary baseline)
    ↔ (direction = "increased"
         ∧ TotalTokensIn (Summary baseline) + TotalTokensOut (Summary baseline)
           < TotalTokensIn (Summary session) + TotalTokensOut (Summary session)
         ∧ n = TotalTokensIn (Summary session) + TotalTokensOut (Summary session)
               - (TotalTokensIn (Summary baseline) + TotalTokensOut (Summary baseline)))
      ∨ (direction = "decreased"
         ∧ TotalTokensIn (Summary session) + TotalTokensOut (Summary session)
           < TotalTokensIn (Summary baseline) + TotalTokensOut (Summary baseline)
         ∧ n = TotalTokensIn (Summary baseline) + TotalTokensOut (Summary baseline)
               - (TotalTokensIn (Summary session) + TotalTokensOut (Summary session)))).
  { unfold tokenLines.
    rewrite (wrap64_small (TotalTokensIn (Summary session) + _))
      by (change (2 ^ 63) with 9223372036854775808; lia).
    rewrite (wrap64_small (TotalTokensIn (Summary baseline) + _))
      by (change (2 ^ 63) with 9223372036854775808; lia).
    rewrite wrap64_small by (change (2 ^ 63) with 9223372036854775808; lia).
    destruct (Z.eqb_spec (TotalTokensIn (Summary session) + TotalTokensOut (Summary session)
                          - (TotalTokensIn (Summary baseline) + TotalTokensOut (Summary baseline))) 0)
      as [Hz|Hz]; cbn [negb].
    - rewrite elem_of_nil. split; [done|]. intros [(_ & ? & _)|(_ & ? & _)]; lia.
    - destruct (Z.ltb_spec (TotalTokensIn (Summary session) + TotalTokensOut (Summary session)
                          - (TotalTokensIn (Summary baseline) + TotalTokensOut (Summary baseline))) 0)
        as [Hlt|Hge].
      + rewrite wrap64_small by (change (2 ^ 63) with 9223372036854775808; lia).
        rewrite list_elem_of_singleton. split.
        * intros [= -> ->]. right. repeat split; lia.
        * intros [(_ & ? & _)|(-> & _ & ->)]; [lia|]. f_equal. lia.
      + rewrite list_elem_of_singleton. split.
        * intros [= -> ->]. left. repeat split; lia.
        * intros [(-> & _ & ->)|(_ & ? & _)]; [done|lia]. }
  rewrite <- Htok. split.
  - intros [?|[?|[H|[H|[H|[H|H]]]]]]; try done.
    + by destruct (negb _).
    + by destruct H as (? & [=] & ?).
    + by destruct H as (? & [=] & ?).
    + destruct H as (model' & count' & _ & H). apply modelLine_elem in H.
      by destruct H as [[[=] _]|(? & [=] & _)].
  - intros H. by do 6 right.
Qed.

End SummaryFacts.

(** ** The comparison of two runs and the GitHub output *)

Section ComparisonSymmetry.

Import Eval Props.

(** X17: exchanging the roles of the run and of the baseline exchanges
    the new failures with the new passes and the added tests with the
    removed tests (as sets of names: the order of a list is that of the
    iteration over a Go map). *)
Theorem compareWithBaselineResults_swapped (a b : EvalResult) :
  let forth := compareWithBaselineResults a (Decoded b) in
  let back := compareWithBaselineResults b (Decoded a) in
  NewFailures forth ≡ₚ NewPasses back
  ∧ NewPasses forth ≡ₚ NewFailures back
  ∧ AddedTests forth ≡ₚ RemovedTests back
  ∧ RemovedTests forth ≡ₚ AddedTests back.
Proof.
  cbn zeta.
  destruct (comparison_lists_NoDup b a) as (N1 & N2 & N3 & N4).
  destruct (comparison_lists_NoDup a b) as (M1 & M2 & M3 & M4).
  repeat split; apply NoDup_Permutation; try done; intros name.
  - rewrite in_NewFailures, in_NewPasses. split;
      intros (x & y & ? & ? & ? & ?); by exists y, x.
  - rewrite in_NewFailures, in_NewPasses. split;
      intros (x & y & ? & ? & ? & ?); by exists y, x.
  - by rewrite in_AddedTests, in_RemovedTests.
  - by rewrite in_AddedTests, in_RemovedTests.
Qed.

End ComparisonSymmetry.

Section GitHubFacts.

Import Eval Props Props2 GitHub.

Lemma prefix_append (p s : string) : String.prefix p (p +:+ s) = true.
Proof.
  induction p as [|c p IH]; [by destruct s|].
  rewrite append_cons. cbn. by destruct (ascii_dec c c).
Qed.

Lemma prefix_cons c p d s :
  String.prefix (String c p) (String d s)
  = if Ascii.eqb c d then String.prefix p s else false.
Proof.
  cbn. destruct (ascii_dec c d) as [->|Hne].
  - by rewrite Ascii.eqb_refl.
  - by rewrite (proj2 (Ascii.eqb_neq _ _) Hne).
Qed.

Ltac heads := rewrite ?append_cons, ?append_nil, ?prefix_cons; reflexivity.

(** A line that starts with a given byte starts with no marker that
    starts with another. *)
Lemma failedCheckLines_unmarked tr marker c rest :
  marker = String c rest → Ascii.eqb c " " = false →
  count (fun line => Go.HasPrefix line marker) (failedCheckLines tr) = 0.
Proof.
  intros -> Hc. apply count_none. intros line Hin.
  unfold failedCheckLines in Hin. apply list_elem_of_In, in_flat_map in Hin
    as (cr & _ & Hin).
  destruct (negb (CheckPassed cr)); [|done].
  destruct Hin as [<-|[]]. unfold Go.HasPrefix.
  by rewrite !append_cons, prefix_cons, Hc.
Qed.

Lemma testLines_passed trs :
  count (fun line => Go.HasPrefix line "✓ ") (flat_map testLines trs)
  = count (fun t => String.eqb (Status t) "passed") trs.
Proof.
  induction trs as [|tr trs IH]; [done|].
  cbn [flat_map]. rewrite count_app, IH, (count_cons _ tr). f_equal.
  unfold testLines. destruct (String.eqb (Status tr) "passed").
  - rewrite count_cons, count_nil. unfold Go.HasPrefix. by rewrite prefix_append.
  - rewrite count_cons, (failedCheckLines_unmarked tr "✓ " _ _ eq_refl eq_refl).
    unfold Go.HasPrefix. heads.
Qed.

Lemma testLines_failed trs :
  count (fun line => Go.HasPrefix line "✗ ") (flat_map testLines trs)
  = count (fun t => negb (String.eqb (Status t) "passed")) trs.
Proof.
  induction trs as [|tr trs IH]; [done|].
  cbn [flat_map]. rewrite count_app, IH, (count_cons _ tr). f_equal.
  unfold testLines. destruct (String.eqb (Status tr) "passed"); cbn [negb].
  - rewrite count_cons, count_nil. unfold Go.HasPrefix. heads.
  - rewrite count_cons, (failedCheckLines_unmarked tr "✗ " _ _ eq_refl eq_refl).
    unfold Go.HasPrefix. by rewrite prefix_append.
Qed.

Lemma testLines_no_annotation trs :
  count (fun line => Go.HasPrefix line "::error title=Regression::")
    (flat_map testLines trs) = 0.
Proof.
  induction trs as [|tr trs IH]; [done|].
  cbn [flat_map]. rewrite count_app, IH.
  unfold testLines. destruct (String.eqb (Status tr) "passed").
  - rewrite count_cons, count_nil. unfold Go.HasPrefix. heads.
  - rewrite count_cons, (failedCheckLines_unmarked tr "::error title=Regression::" _ _ eq_refl eq_refl).
    unfold Go.HasPrefix. heads.
Qed.

Lemma regressionLines_unmarked result marker c rest :
  marker = String c rest → Ascii.eqb c ":" = false →
  count (fun line => Go.HasPrefix line marker) (regressionLines result) = 0.
Proof.
  intros -> Hc. apply count_none. intros line Hin. unfold Go.HasPrefix.
  unfold regressionLines in Hin.
  destruct (Comparison result) as [c0|]; [|by apply elem_of_nil in Hin].
  destruct (0 <? length (NewFailures c0))%nat; [|by apply elem_of_nil in Hin].
  apply elem_of_app in Hin as [Hin|Hin].
  { apply list_elem_of_singleton in Hin as ->. by rewrite prefix_cons, Hc. }
  apply elem_of_app in Hin as [Hin|Hin].
  - apply list_elem_of_In, in_map_iff in Hin as (name & <- & _).
    by rewrite !append_cons, prefix_cons, Hc.
  - apply list_elem_of_singleton in Hin as ->. by rewrite prefix_cons, Hc.
Qed.

Lemma regressionLines_annotations result :
  count (fun line => Go.HasPrefix line "::error title=Regression::")
    (regressionLines result)
  = match Comparison result with
    | Some c => Z.of_nat (length (NewFailures c))
    | None => 0
    end.
Proof.
  unfold regressionLines. destruct (Comparison result) as [c|]; [|done].
  destruct (Nat.ltb_spec 0 (length (NewFailures c))) as [Hlt|Hge];
    [|rewrite count_nil; lia].
  rewrite !count_app, !count_cons, !count_nil.
  rewrite count_all.
  - rewrite length_map. unfold Go.HasPrefix. rewrite !prefix_cons. cbn. lia.
  - intros line Hin. apply list_elem_of_In, in_map_iff in Hin as (n & <- & _).
    unfold Go.HasPrefix. apply prefix_append.
Qed.

Lemma summaryLine_level result :
  (Go.HasPrefix (summaryLine result) "::error::" = (0 <? Regressions result))
  ∧ (Go.HasPrefix (summaryLine result) "::warning::"
     = negb (0 <? Regressions result) && (0 <? Failed result))
  ∧ (Go.HasPrefix (summaryLine result) "::notice::"
     = negb (0 <? Regressions result) && negb (0 <? Failed result)).
Proof.
  unfold summaryLine, Go.HasPrefix.
  destruct (0 <? Regressions result); [|destruct (0 <? Failed result)]; cbn [negb andb].
  - split; [apply prefix_append|]. by rewrite !append_cons, !prefix_cons.
  - split; [|split; [apply prefix_append|]]; by rewrite !append_cons, !prefix_cons.
  - split; [|split]; by rewrite !append_cons, !prefix_cons.
Qed.

Lemma summaryLine_unmarked result marker c rest :
  marker = String c rest → Ascii.eqb c ":" = false →
  Go.HasPrefix (summaryLine result) marker = false.
Proof.
  intros -> Hc. unfold summaryLine, Go.HasPrefix.
  destruct (0 <? Regressions result); [|destruct (0 <? Failed result)];
    by rewrite !append_cons, prefix_cons, Hc.
Qed.

Lemma summaryLine_no_annotation result :
  Go.HasPrefix (summaryLine result) "::error title=Regression::" = false.
Proof.
  unfold summaryLine, Go.HasPrefix.
  destruct (0 <? Regressions result); [|destruct (0 <? Failed result)]; heads.
Qed.

(** The marked lines of the output, counted. *)
Lemma outputGitHub_marked (result : EvalResult) (ciMode : bool) :
  let marked marker :=
    count (fun line => Go.HasPrefix line marker) (outputGitHub result ciMode) in
  marked "✓ "
  = count (fun t => String.eqb (Status t) "passed") (TestResults result)
  ∧ marked "✗ "
    = count (fun t => negb (String.eqb (Status t) "passed")) (TestResults result)
  ∧ marked "::error title=Regression::"
    = match Comparison result with
      | Some c => Z.of_nat (length (NewFailures c))
      | None => 0
      end.
Proof.
  cbn zeta. unfold outputGitHub. split; [|split].
  - rewrite !count_app, !count_cons, !count_nil, testLines_passed.
    rewrite (regressionLines_unmarked result "✓ " _ _ eq_refl eq_refl).
    rewrite (summaryLine_unmarked result "✓ " _ _ eq_refl eq_refl).
    unfold Go.HasPrefix. rewrite !append_cons, !prefix_cons. cbn. lia.
  - rewrite !count_app, !count_cons, !count_nil, testLines_failed.
    rewrite (regressionLines_unmarked result "✗ " _ _ eq_refl eq_refl).
    rewrite (summaryLine_unmarked result "✗ " _ _ eq_refl eq_refl).
    unfold Go.HasPrefix. rewrite !append_cons, !prefix_cons. cbn. lia.
  - rewrite !count_app, !count_cons, !count_nil, testLines_no_annotation.
    rewrite regressionLines_annotations, summaryLine_no_annotation.
    unfold Go.HasPrefix. rewrite !append_cons, !prefix_cons. cbn. lia.
Qed.

(** X18: in the GitHub output of a result, the last line is the summary
    annotation; the lines marked [✓] are as many as the test results
    with status [passed], the lines marked [✗] as many as the others,
    and the annotations [::error title=Regression::] as many as the new
    failures of the comparison (none without a comparison); the summary
    is an [::error::] exactly when the result counts a regression and a
    [::notice::] exactly when the result would give exit code 0 in CI
    mode. *)
Theorem outputGitHub_annotations (result : EvalResult) (ciMode : bool) :
  let lines := outputGitHub result ciMode in
  let marked marker := count (fun line => Go.HasPrefix line marker) lines in
  last lines = Some (summaryLine result)
  ∧ marked "✓ "
    = count (fun t => String.eqb (Status t) "passed") (TestResults result)
  ∧ marked "✗ "
    = count (fun t => negb (String.eqb (Status t) "passed")) (TestResults result)
  ∧ marked "::error title=Regression::"
    = match Comparison result with
      | Some c => Z.of_nat (length (NewFailures c))
      | None => 0
      end
  ∧ (Go.HasPrefix (summaryLine result) "::error::" = true
     ↔ 0 < Regressions result)
  ∧ (Go.HasPrefix (summaryLine result) "::notice::" = true
     ↔ exitCode true result = 0).
Proof.
  cbn zeta. split.
  { unfold outputGitHub. rewrite !app_assoc. apply last_snoc. }
  destruct (outputGitHub_marked result ciMode) as (H1 & H2 & H3).
  split; [exact H1|]. split; [exact H2|]. split; [exact H3|].
  destruct (summaryLine_level result) as (He & _ & Hn). rewrite He, Hn.
  split; [apply Z.ltb_lt|].
  unfold exitCode. cbn [andb].
  destruct (0 <? Regressions result), (0 <? Failed result); cbn; split; done.
Qed.

End GitHubFacts.

Section GitHubRun.

Import Eval Props Props2 GitHub.

Variable TrimSpace : string → string.
Variable filepath_Join : list string → string.
Variable loadConfig : string → option Config.RegradaConfig.
Variable loadTestSuite : string → option TestSuite.
Variable baselineAt : string → BaselineFile.
Variable clock : nat → Z.

(** X19: for the result of a run with the output format [github] whose
    test suite is loaded, the GitHub output agrees with the numbers it
    sets as outputs: it marks [Passed] lines with [✓] and [Failed] lines
    with [✗], has [Regressions] annotations
    [::error title=Regression::], and ends with the [::notice::] that
    all tests passed exactly when no test failed. *)
Theorem github_output_agrees_with_the_result
    (testsPath baselinePath : string) (ciMode : bool)
    (configPath path : string) (suite : TestSuite) :
  resolveTestsPath filepath_Join
    (evalConfig loadConfig configPath "github") testsPath = Some path →
  loadTestSuite path = Some suite →
  ∃ code result,
    runEvals TrimSpace filepath_Join loadConfig loadTestSuite baselineAt clock
      testsPath baselinePath ciMode "github" configPath
    = Returned code (Some result)
    ∧ let marked marker :=
        count (fun line => Go.HasPrefix line marker)
          (outputGitHub result ciMode) in
      marked "✓ " = Passed result
      ∧ marked "✗ " = Failed result
      ∧ marked "::error title=Regression::" = Regressions result
      ∧ (Go.HasPrefix (summaryLine result) "::notice::" = true
         ↔ Failed result = 0).
Proof.
  intros Hp Hs.
  destruct (runEvals_loaded TrimSpace filepath_Join loadConfig loadTestSuite
              baselineAt clock testsPath baselinePath ciMode "github" configPath
              path suite Hp Hs) as (r & Hrun & Htal & _ & HP & HF & _).
  set (file := baselineAt (resolveBaselinePath filepath_Join baselinePath)) in *.
  eexists _, _. split; [exact Hrun|]. cbn zeta.
  destruct (outputGitHub_marked (attachComparison r file) ciMode) as (H1 & H2 & H3).
  destruct (attachComparison_fields r file) as (E1 & E2 & E3 & E4 & E5).
  destruct (attachComparison_regressions r file Htal) as (_ & _ & HR).
  rewrite H1, H2, H3, E1, E2, E3, HR. split; [by rewrite HP|].
  split; [by rewrite HF|]. split; [done|].
  destruct (summaryLine_level (attachComparison r file)) as (_ & _ & Hn).
  rewrite Hn, E3, HR.
  assert (Hnn : 0 ≤ Failed r) by (rewrite HF; apply count_nonneg).
  assert (Hle : match Comparison (attachComparison r file) with
                | Some c => Z.of_nat (length (NewFailures c))
                | None => 0
                end ≤ Failed r).
  { rewrite <- HR. apply (regressions_bounded r file Htal). }
  destruct (0 <? Failed r) eqn:Ef.
  - apply Z.ltb_lt in Ef. rewrite andb_false_r. split; [done|lia].
  - apply Z.ltb_ge in Ef. rewrite andb_true_r. split; [lia|]. intros _.
    apply negb_true_iff, Z.ltb_ge. lia.
Qed.

End GitHubRun.

(** ** The proxy *)

Section HeaderFacts.

Import Props2.

Lemma Add_lookup (dst : Http.Header) key value k :
  Http.Add dst key value !! k
  = if decide (k = Http.CanonicalMIMEHeaderKey key)
    then Some (default [] (dst !! k) ++ [value]) else dst !! k.
Proof.
  unfold Http.Add. case_decide as Hk.
  - subst k. by rewrite lookup_insert_eq.
  - by rewrite lookup_insert_ne.
Qed.

Lemma Add_loop key values k : ∀ dst : Http.Header,
  foldl (fun dst value => Http.Add dst key value) dst values !! k
  = if decide (k = Http.CanonicalMIMEHeaderKey key)
    then match values with
         | [] => dst !! k
         | _ => Some (default [] (dst !! k) ++ values)
         end
    else dst !! k.
Proof.
  induction values as [|v vs IH]; intros dst; [by case_decide|].
  cbn [foldl]. rewrite IH, Add_lookup. case_decide as Hk; [|done].
  destruct vs; [done|]. cbn. by rewrite <- app_assoc.
Qed.

Lemma addAll_entries keep (l : list (string * list string)) :
  NoDup l.*1 →
  Forall (fun entry => Http.CanonicalMIMEHeaderKey entry.1 = entry.1) l →
  ∀ (dst : Http.Header) k,
    foldl (fun dst entry =>
             if keep entry.1 : bool
             then foldl (fun dst value => Http.Add dst entry.1 value) dst entry.2
             else dst) dst l !! k
    = match (list_to_map l : Http.Header) !! k with
      | Some (v :: vs) =>
          if keep k then Some (default [] (dst !! k) ++ v :: vs) else dst !! k
      | _ => dst !! k
      end.
Proof.
  induction l as [|[k0 vs0] l IH]; intros Hnd Hc dst k; [done|].
  apply NoDup_cons in Hnd as [Hk0 Hnd]. apply Forall_cons in Hc as [Hc0 Hc].
  cbn in Hk0, Hc0. cbn [foldl list_to_map foldr fst snd].
  rewrite (IH Hnd Hc). clear IH.
  destruct (decide (k = k0)) as [->|Hne].
  - rewrite lookup_insert_eq.
    rewrite (not_elem_of_list_to_map_1 l k0 Hk0).
    destruct (keep k0); [|by destruct vs0].
    rewrite Add_loop, Hc0, decide_True by done. by destruct vs0.
  - rewrite lookup_insert_ne by done.
    assert (Hd : (if keep k0
                  then foldl (fun dst value => Http.Add dst k0 value) dst vs0
                  else dst) !! k = dst !! k).
    { destruct (keep k0); [|done]. rewrite Add_loop, Hc0. by rewrite decide_False. }
    by rewrite Hd.
Qed.

Lemma canonicalKeys_spec (h : Http.Header) :
  canonicalKeys h = true
  ↔ ∀ key values, h !! key = Some values → Http.CanonicalMIMEHeaderKey key = key.
Proof.
  unfold canonicalKeys. rewrite forallb_forall. split.
  - intros H key values Hk. apply String.eqb_eq.
    apply (H (key, values)). by apply list_elem_of_In, elem_of_map_to_list.
  - intros H [key values] Hin. apply String.eqb_eq. cbn.
    apply (H key values). by apply elem_of_map_to_list, list_elem_of_In.
Qed.

(** The header loop copies each kept header with its values, in their
    order. *)
Lemma addAll_lookup keep (src : Http.Header) key :
  canonicalKeys src = true →
  Http.addAll keep src ∅ !! key = if keep key then copied (src !! key) else None.
Proof.
  intros Hc. unfold Http.addAll. rewrite addAll_entries.
  - rewrite list_to_map_to_list, lookup_empty. cbn [default app].
    unfold copied. destruct (src !! key) as [[|v vs]|]; by destruct (keep key).
  - apply NoDup_fst_map_to_list.
  - apply Forall_forall. intros [k vs] Hin. cbn.
    apply elem_of_map_to_list in Hin.
    by apply (proj1 (canonicalKeys_spec src) Hc k vs).
Qed.

End HeaderFacts.

Section ClockMore.

(** On a monotonic clock [time.Since] is the elapsed time, saturated. *)
Lemma Since_elapsed start now :
  - 2 ^ 63 ≤ start → start ≤ now → now < 2 ^ 63 →
  Go.Since start now = Z.min (now - start) Go.maxDuration.
Proof.
  intros H1 H2 H3. unfold Go.Since, Go.subMono, Go.maxDuration, Go.minDuration.
  assert (Hw : (now - start < 2 ^ 63 ∧ Go.wrap64 (now - start) = now - start)
               ∨ (2 ^ 63 ≤ now - start
                  ∧ Go.wrap64 (now - start) = now - start - 2 ^ 64)).
  { unfold Go.wrap64.
    change (2 ^ 63) with 9223372036854775808 in *.
    change (2 ^ 64) with 18446744073709551616 in *.
    pose proof (Z.mod_pos_bound (now - start + 9223372036854775808)
                  18446744073709551616 eq_refl) as Hb.
    pose proof (Z.div_mod (now - start + 9223372036854775808)
                  18446744073709551616 ltac:(lia)) as Hd.
    lia. }
  change (2 ^ 63) with 9223372036854775808 in *.
  change (2 ^ 64) with 18446744073709551616 in *.
  destruct (Go.wrap64 (now - start) <? 0) eqn:E1; cbn [andb].
  - apply Z.ltb_lt in E1. destruct (start <? now) eqn:E2; [lia|].
    apply Z.ltb_ge in E2. lia.
  - apply Z.ltb_ge in E1.
    destruct (0 <? Go.wrap64 (now - start)) eqn:E3; cbn [andb]; [|lia].
    destruct (now <? start) eqn:E4; [apply Z.ltb_lt in E4; lia|lia].
Qed.

End ClockMore.

Section ProviderTable.

Import Proxy.

Variable url_Parse : string → option Http.URL.

(** The provider table of a fresh proxy. *)
Lemma newLLMProxy_providers (config : Config.RegradaConfig) :
  let p := newLLMProxy url_Parse config in
  let baseURL := Config.BaseURL (Config.Provider config) in
  providers p !! "openai" = Some openaiURL
  ∧ providers p !! "anthropic" = Some anthropicURL
  ∧ providers p !! "custom"
    = (if String.eqb baseURL "" then None else url_Parse baseURL)
  ∧ (∀ name, is_Some (providers p !! name) →
       name = "openai" ∨ name = "anthropic" ∨ name = "custom").
Proof.
  cbn zeta. unfold newLLMProxy.
  set (base := <["anthropic" := anthropicURL]> (<["openai" := openaiURL]> ∅)).
  assert (Hbase : ∀ name, is_Some (base !! name) →
                    name = "openai" ∨ name = "anthropic").
  { intros name. unfold base.
    destruct (decide (name = "anthropic")) as [->|H1]; [by right|].
    destruct (decide (name = "openai")) as [->|H2]; [by left|].
    rewrite !lookup_insert_ne by done. rewrite lookup_empty. by intros [? ?]. }
  assert (Ho : base !! "openai" = Some openaiURL) by reflexivity.
  assert (Ha : base !! "anthropic" = Some anthropicURL) by reflexivity.
  assert (Hc : base !! "custom" = None) by reflexivity.
  destruct (String.eqb_spec (Config.BaseURL (Config.Provider config)) "")
    as [He|Hne]; cbn [negb Proxy.providers].
  { split; [done|]. split; [done|]. split; [done|].
    intros name Hs. destruct (Hbase name Hs); tauto. }
  destruct (url_Parse _) as [u|]; cbn [Proxy.providers].
  - rewrite !lookup_insert_ne by discriminate. rewrite lookup_insert_eq.
    split; [done|]. split; [done|]. split; [done|].
    intros name Hs. destruct (decide (name = "custom")) as [->|Hcu]; [tauto|].
    rewrite lookup_insert_ne in Hs by done. destruct (Hbase name Hs); tauto.
  - split; [done|]. split; [done|]. split; [done|].
    intros name Hs. destruct (Hbase name Hs); tauto.
Qed.

End ProviderTable.

Section HandlerMore.

Import Proxy Props2.

Variable ToLower : string → string.
Variable float64 : Type.
Variable int_of_float64 : float64 → Z.
Variable json_Unmarshal_map : string → gmap string (Json.value float64).
Variable json_Unmarshal_ok : string → bool.
Variable json_Marshal : Json.value float64 → option string.
Variable gunzip : string → Http.GzipResult.
Variable url_Parse : string → option Http.URL.
Variable URL_String : Http.URL → string.
Variable http_NewRequest_error : string → string → option string.

Abbreviation handle := (handleRequest ToLower float64 int_of_float64
  json_Unmarshal_map json_Unmarshal_ok json_Marshal gunzip URL_String
  http_NewRequest_error).
Abbreviation serveAll := (serve ToLower float64 int_of_float64
  json_Unmarshal_map json_Unmarshal_ok json_Marshal gunzip URL_String
  http_NewRequest_error).
Abbreviation fateOf := (fate URL_String http_NewRequest_error).
Abbreviation trace := (createTrace ToLower float64 int_of_float64
  json_Unmarshal_map json_Unmarshal_ok json_Marshal).
Abbreviation parse :=
  (parseAPIDetails float64 int_of_float64 json_Unmarshal_map json_Marshal).

(** The handler on a forwarded request: the trace it appends is the one
    [createTrace] builds from the request, the body sent upstream, the
    response and the body written to the caller. *)
Lemma handleRequest_forwarded (p : LLMProxy) (x : Exchange) resp :
  fateOf (providers p) x = Forwarded resp →
  ∃ t,
    handle p x
    = (mkLLMProxy (traces p ++ [t]) (config p) (providers p),
       Some (writeResponse resp (readResponseBody gunzip resp)))
    ∧ trace (targetProvider (request x)) (request x)
        (default "" (Http.ReqBody (request x))) resp
        (readResponseBody gunzip resp)
        (Go.Since (startTime x) (endTime x)) (idTime x) (stampTime x) = Some t.
Proof.
  unfold fate, handleRequest, outbound. cbn.
  destruct (providers p !! targetProvider (request x)) as [u|]; [|done].
  destruct (http_NewRequest_error _ _); [done|].
  destruct (upstream x _) as [err|resp']; [done|].
  intros [= <-].
  destruct (createTrace_is_Some ToLower float64 int_of_float64 json_Unmarshal_map
              json_Unmarshal_ok json_Marshal (targetProvider (request x))
              (request x) (default "" (Http.ReqBody (request x))) resp'
              (readResponseBody gunzip resp')
              (Go.Since (startTime x) (endTime x)) (idTime x) (stampTime x))
    as [t Ht].
  exists t. by rewrite Ht.
Qed.

Lemma createTrace_fields provider req reqBody resp respBody latency idNow stampNow t :
  trace provider req reqBody resp respBody latency idNow stampNow = Some t →
  ID t = Go.Sprintd idNow ∧ Timestamp t = stampNow ∧ Provider t = provider
  ∧ Endpoint t = Http.URLPath req
  ∧ Model t = getString (json_Unmarshal_map reqBody) "model"
  ∧ Request t
    = mkTraceRequest (Http.Method req) (Http.URLPath req)
        (flattenHeaders ToLower (Http.ReqHeader req))
        (sanitizeBody json_Unmarshal_ok reqBody)
  ∧ Response t
    = mkTraceResponse (Http.StatusCode resp)
        (flattenHeaders ToLower (Http.RespHeader resp))
        (sanitizeBody json_Unmarshal_ok respBody)
  ∧ Latency t = Go.toMilliseconds latency
  ∧ parse provider reqBody respBody
    = Some (Model t, TokensIn t, TokensOut t, ToolCalls t).
Proof.
  unfold createTrace.
  destruct (parseAPIDetails _ _ _ _ _ _ _) as [[[[model tin] tout] tcs]|] eqn:E;
    [|discriminate].
  intros [= <-]. cbn. repeat split.
  unfold parseAPIDetails in E.
  destruct (String.eqb provider "openai").
  - destruct (usageTokens _ _ _ _ _) as [a b].
    destruct (Json.asArray _) as [choices|]; [|by injection E as <-].
    destruct (0 <? length choices)%nat; [|by injection E as <-].
    destruct (choices !! 0%nat); [by injection E as <-|done].
  - destruct (String.eqb provider "anthropic").
    + destruct (usageTokens _ _ _ _ _) as [a b]. by injection E as <-.
    + by injection E as <-.
Qed.

Lemma foldl_Forall {A B} (P : A → Prop) (step : list A → B → list A) l :
  (∀ acc b, Forall P acc → Forall P (step acc b)) →
  ∀ acc, Forall P acc → Forall P (foldl step acc l).
Proof.
  intros Hs. induction l as [|b l IH]; intros acc Ha; [done|].
  cbn. apply IH. by apply Hs.
Qed.

(** No step of the two extractions fills the response of a tool call. *)
Lemma parseAPIDetails_no_tool_response provider reqBody respBody model tin tout calls :
  parse provider reqBody respBody = Some (model, tin, tout, calls) →
  Forall (fun tc => ToolResponse tc = None) calls.
Proof.
  assert (Ho : ∀ acc b, Forall (fun tc => ToolResponse tc = None) acc →
                 Forall (fun tc => ToolResponse tc = None)
                   (openaiToolStep float64 acc b)).
  { intros acc b Ha. unfold openaiToolStep.
    destruct (Json.asObject (Some b)) as [tcMap|]; [|done].
    apply Forall_app. split; [done|]. apply Forall_singleton.
    by destruct (Json.asObject (tcMap !! "function")). }
  assert (Han : ∀ acc b, Forall (fun tc => ToolResponse tc = None) acc →
                  Forall (fun tc => ToolResponse tc = None)
                    (anthropicToolStep float64 json_Marshal acc b)).
  { intros acc b Ha. unfold anthropicToolStep.
    destruct (Json.asObject (Some b)) as [cMap|]; [|done].
    destruct (Json.asString (cMap !! "type")) as [ty|]; [|done].
    destruct (String.eqb ty "tool_use"); [|done].
    apply Forall_app. split; [done|]. by apply Forall_singleton. }
  unfold parseAPIDetails.
  destruct (String.eqb provider "openai").
  - destruct (usageTokens _ _ _ _ _) as [a b].
    destruct (Json.asArray _) as [choices|]; [|by intros [= <- <- <- <-]].
    destruct (0 <? length choices)%nat; [|by intros [= <- <- <- <-]].
    destruct (choices !! 0%nat) as [c0|]; [|discriminate]. intros [= <- <- <- <-].
    destruct c0; try done.
    destruct (Json.asObject (_ !! "message")) as [msg|]; [|done].
    destruct (Json.asArray (msg !! "tool_calls")) as [tcs|]; [|done].
    by apply foldl_Forall.
  - destruct (String.eqb provider "anthropic").
    + destruct (usageTokens _ _ _ _ _) as [a b]. intros [= <- <- <- <-].
      destruct (Json.asArray _) as [content|]; [|done].
      by apply foldl_Forall.
    + by intros [= <- <- <- <-].
Qed.

(** X20: a proxy made by [newLLMProxy] has no trace; its provider table
    has [openai] and [anthropic] with their fixed URLs, has [custom]
    exactly when the configured base URL is not empty and parses (then
    with the parsed URL), and has no other name; a request whose target
    is not in the table is answered [Unknown provider] with status 502
    and leaves the proxy as it is (no trace, nothing forwarded). *)
Theorem fresh_proxy_knows_three_providers
    (config : Config.RegradaConfig) (x : Exchange) :
  let p := newLLMProxy url_Parse config in
  let baseURL := Config.BaseURL (Config.Provider config) in
  traces p = []
  ∧ providers p !! "openai" = Some openaiURL
  ∧ providers p !! "anthropic" = Some anthropicURL
  ∧ providers p !! "custom"
    = (if String.eqb baseURL "" then None else url_Parse baseURL)
  ∧ (∀ name, is_Some (providers p !! name) →
       name = "openai" ∨ name = "anthropic" ∨ name = "custom")
  ∧ (providers p !! targetProvider (request x) = None →
     handle p x
     = (p, Some (Http.Error "Unknown provider" Http.StatusBadGateway))).
Proof.
  cbn zeta. destruct (newLLMProxy_providers url_Parse config) as (Ho & Ha & Hc & Hk).
  split; [done|]. split; [exact Ho|]. split; [exact Ha|]. split; [exact Hc|].
  split; [exact Hk|].
  intros Hn. unfold handleRequest. by rewrite Hn.
Qed.

(** X21: when the target of a request is in the provider table and the
    keys of the request headers are canonical, the handler calls the
    upstream with one request, on which alone its result depends: the
    method, path, query and body of the inbound request (an absent body
    as the empty body), the scheme and host of the target, and every
    inbound header with its values in their order, except the headers
    whose key starts with [X-Regrada-], none of which is sent. *)
Theorem handler_forwards_all_but_proxy_headers
    (p : LLMProxy) (x : Exchange) (targetURL : Http.URL) :
  let r := request x in
  providers p !! targetProvider r = Some targetURL →
  canonicalKeys (Http.ReqHeader r) = true →
  ∃ sent,
    sent = outbound targetURL r
    ∧ (∀ upstream',
         upstream' sent = upstream x sent →
         handle p (mkExchange r (startTime x) (endTime x) (idTime x)
                     (stampTime x) upstream')
         = handle p x)
    ∧ Http.OutMethod sent = Http.Method r
    ∧ Http.OutURL sent
      = Http.mkURL (Http.Scheme targetURL) (Http.Host targetURL)
          (Http.URLPath r) (Http.URLRawQuery r)
    ∧ Http.OutBody sent = default "" (Http.ReqBody r)
    ∧ (∀ key,
         Http.OutHeader sent !! key
         = if Go.HasPrefix key "X-Regrada-" then None
           else copied (Http.ReqHeader r !! key))
    ∧ Http.Get (Http.OutHeader sent) "X-Regrada-Target" = "".
Proof.
  cbn zeta. intros Hu Hc. eexists. split; [reflexivity|].
  assert (Hk : ∀ key,
    Http.OutHeader (outbound targetURL (request x)) !! key
    = if Go.HasPrefix key "X-Regrada-" then None
      else copied (Http.ReqHeader (request x) !! key)).
  { intros key. unfold outbound. cbn [Http.OutHeader].
    rewrite addAll_lookup by done. by destruct (Go.HasPrefix key "X-Regrada-"). }
  split.
  { intros upstream' Hup. unfold handleRequest. cbn [request upstream startTime
      endTime idTime stampTime]. rewrite Hu.
    destruct (http_NewRequest_error _ _); [done|].
    unfold outbound in Hup. by rewrite Hup. }
  repeat split; [exact Hk|].
  unfold Http.Get.
  change (Http.CanonicalMIMEHeaderKey "X-Regrada-Target") with "X-Regrada-Target".
  by rewrite Hk.
Qed.

Lemma writeResponse_header resp body key :
  canonicalKeys (Http.RespHeader resp) = true →
  Http.WHeader (writeResponse resp body) !! key
  = if String.eqb key "Content-Length" then Some [Go.Sprintd (Go.len body)]
    else if String.eqb key "Content-Encoding" then None
    else copied (Http.RespHeader resp !! key).
Proof.
  intros Hc. unfold writeResponse. cbn [Http.WHeader].
  unfold Http.Set_, Http.Del.
  rewrite canonical_Content_Encoding, canonical_Content_Length.
  destruct (String.eqb_spec key "Content-Length") as [->|H1].
  { by rewrite lookup_insert_eq. }
  rewrite lookup_insert_ne by done.
  destruct (String.eqb_spec key "Content-Encoding") as [->|H2].
  { by rewrite lookup_delete_eq. }
  rewrite lookup_delete_ne by done. by rewrite addAll_lookup.
Qed.

(** X22: for a forwarded request whose response headers have canonical
    keys, the caller gets the status of the upstream and every header
    of the upstream with its values, except that [Content-Encoding] is
    removed and [Content-Length] is the decimal length of the body
    written; a header without values is not copied. *)
Theorem response_headers_reach_the_caller
    (p : LLMProxy) (x : Exchange) (resp : Http.Response) :
  fateOf (providers p) x = Forwarded resp →
  canonicalKeys (Http.RespHeader resp) = true →
  ∃ p' w,
    handle p x = (p', Some w)
    ∧ Http.WStatus w = Http.StatusCode resp
    ∧ ∀ key,
        Http.WHeader w !! key
        = if String.eqb key "Content-Length"
          then Some [Go.Sprintd (Go.len (Http.WBody w))]
          else if String.eqb key "Content-Encoding" then None
          else copied (Http.RespHeader resp !! key).
Proof.
  intros Hf Hc. destruct (handleRequest_forwarded p x resp Hf) as (t & Hh & _).
  eexists _, _. split; [exact Hh|]. split; [done|].
  intros key. by apply writeResponse_header.
Qed.

(** X23: for a forwarded request whose response does not declare
    [Content-Encoding: gzip], the caller gets the body of the upstream
    byte for byte, with the status of the upstream and its length as
    [Content-Length], and the trace appended stores that status and the
    stored form of that body. *)
Theorem plain_response_passes_through
    (p : LLMProxy) (x : Exchange) (resp : Http.Response) :
  fateOf (providers p) x = Forwarded resp →
  Http.Get (Http.RespHeader resp) "Content-Encoding" ≠ "gzip" →
  ∃ t w,
    handle p x
    = (mkLLMProxy (traces p ++ [t]) (config p) (providers p), Some w)
    ∧ Http.WBody w = Http.RespBody resp
    ∧ Http.WStatus w = Http.StatusCode resp
    ∧ Http.Get (Http.WHeader w) "Content-Length"
      = Go.Sprintd (Go.len (Http.RespBody resp))
    ∧ Http.Get (Http.WHeader w) "Content-Encoding" = ""
    ∧ RespBody (Response t) = sanitizeBody json_Unmarshal_ok (Http.RespBody resp)
    ∧ RespStatusCode (Response t) = Http.StatusCode resp.
Proof.
  intros Hf Hne. destruct (handleRequest_forwarded p x resp Hf) as (t & Hh & Ht).
  assert (Hb : readResponseBody gunzip resp = Http.RespBody resp).
  { unfold readResponseBody.
    by rewrite (proj2 (String.eqb_neq _ _) Hne). }
  rewrite Hb in Hh, Ht.
  apply createTrace_fields in Ht as (_ & _ & _ & _ & _ & _ & Hr & _).
  exists t, (writeResponse resp (Http.RespBody resp)).
  split; [exact Hh|]. rewrite Hr.
  cbn [RespBody RespStatusCode]. unfold writeResponse.
  cbn [Http.WBody Http.WStatus Http.WHeader].
  unfold Http.Get, Http.Set_, Http.Del.
  rewrite canonical_Content_Encoding, canonical_Content_Length.
  rewrite lookup_insert_eq.
  rewrite lookup_insert_ne by discriminate.
  by rewrite lookup_delete_eq.
Qed.

(** X24: for a forwarded request whose response declares
    [Content-Encoding: gzip]: the caller gets the status of the
    upstream, whatever the decompression gives; when the body has no
    gzip header the caller gets an empty body with [Content-Length: 0]
    and the trace has no response body; when the stream breaks off the
    caller gets the bytes read before the error; in each case
    [Content-Length] is the length of the body written and the trace
    stores the body written. *)
Theorem broken_gzip_response_is_cut
    (p : LLMProxy) (x : Exchange) (resp : Http.Response) :
  fateOf (providers p) x = Forwarded resp →
  Http.Get (Http.RespHeader resp) "Content-Encoding" = "gzip" →
  ∃ t w,
    handle p x
    = (mkLLMProxy (traces p ++ [t]) (config p) (providers p), Some w)
    ∧ Http.WStatus w = Http.StatusCode resp
    ∧ Http.Get (Http.WHeader w) "Content-Length"
      = Go.Sprintd (Go.len (Http.WBody w))
    ∧ RespBody (Response t) = sanitizeBody json_Unmarshal_ok (Http.WBody w)
    ∧ match gunzip (Http.RespBody resp) with
      | Http.GzipHeaderError =>
          Http.WBody w = "" ∧ RespBody (Response t) = None
          ∧ Http.Get (Http.WHeader w) "Content-Length" = "0"
      | Http.GzipData data _ => Http.WBody w = data
      end.
Proof.
  intros Hf Hgz. destruct (handleRequest_forwarded p x resp Hf) as (t & Hh & Ht).
  apply createTrace_fields in Ht as (_ & _ & _ & _ & _ & _ & Hr & _).
  exists t, (writeResponse resp (readResponseBody gunzip resp)).
  split; [exact Hh|]. rewrite Hr.
  assert (Hl : Http.Get (Http.WHeader (writeResponse resp (readResponseBody gunzip resp)))
                 "Content-Length"
               = Go.Sprintd (Go.len (readResponseBody gunzip resp))).
  { unfold writeResponse, Http.Get, Http.Set_. cbn [Http.WHeader].
    rewrite canonical_Content_Length. by rewrite lookup_insert_eq. }
  rewrite Hl. cbn [RespBody Http.WBody Http.WStatus writeResponse].
  split; [done|]. split; [done|]. split; [done|].
  unfold readResponseBody.
  rewrite (proj2 (String.eqb_eq _ _) Hgz).
  destruct (gunzip (Http.RespBody resp)) as [|data complete]; [|done].
  done.
Qed.

(** X25: the trace appended for a forwarded request records that
    exchange: the identifier and time stamp read from the clock, the
    target provider, the path of the request as endpoint, the method,
    path and flattened headers of the inbound request (the [X-Regrada-]
    headers included), the stored form of the body sent upstream, the
    status and the stored form of the body written to the caller, the
    flattened headers of the upstream response, and the latency in
    milliseconds; no tool call of the trace has a response. *)
Theorem trace_records_the_exchange
    (p : LLMProxy) (x : Exchange) (resp : Http.Response) :
  fateOf (providers p) x = Forwarded resp →
  ∃ t w,
    handle p x
    = (mkLLMProxy (traces p ++ [t]) (config p) (providers p), Some w)
    ∧ ID t = Go.Sprintd (idTime x)
    ∧ Timestamp t = stampTime x
    ∧ Provider t = targetProvider (request x)
    ∧ Endpoint t = Http.URLPath (request x)
    ∧ ReqMethod (Request t) = Http.Method (request x)
    ∧ ReqPath (Request t) = Http.URLPath (request x)
    ∧ ReqHeaders (Request t) = flattenHeaders ToLower (Http.ReqHeader (request x))
    ∧ ReqBody (Request t)
      = sanitizeBody json_Unmarshal_ok (default "" (Http.ReqBody (request x)))
    ∧ RespStatusCode (Response t) = Http.WStatus w
    ∧ RespHeaders (Response t) = flattenHeaders ToLower (Http.RespHeader resp)
    ∧ RespBody (Response t) = sanitizeBody json_Unmarshal_ok (Http.WBody w)
    ∧ Latency t = Go.toMilliseconds (Go.Since (startTime x) (endTime x))
    ∧ Forall (fun tc => ToolResponse tc = None) (ToolCalls t).
Proof.
  intros Hf. destruct (handleRequest_forwarded p x resp Hf) as (t & Hh & Ht).
  apply createTrace_fields in Ht
    as (H1 & H2 & H3 & H4 & _ & H6 & H7 & H8 & H9).
  exists t, (writeResponse resp (readResponseBody gunzip resp)).
  split; [exact Hh|]. rewrite H6, H7. cbn. repeat split; try done.
  by eapply parseAPIDetails_no_tool_response.
Qed.

(** X26: on a monotonic clock, the latency of the trace appended for a
    forwarded request is the time between the entry of the handler and
    the end of the reading of the upstream body, in whole milliseconds
    (rounded down); an interval of [2^63] nanoseconds or more counts as
    [2^63 - 1] nanoseconds, so that the latency never wraps. *)
Theorem latency_is_the_elapsed_milliseconds
    (p : LLMProxy) (x : Exchange) (resp : Http.Response) :
  fateOf (providers p) x = Forwarded resp →
  monotonic x →
  ∃ t w,
    handle p x
    = (mkLLMProxy (traces p ++ [t]) (config p) (providers p), Some w)
    ∧ Latency t
      = Z.min (endTime x - startTime x) Go.maxDuration / Go.Millisecond
    ∧ Latency t * 1000000
      ≤ Z.min (endTime x - startTime x) Go.maxDuration
      < (Latency t + 1) * 1000000.
Proof.
  intros Hf (H1 & H2 & H3).
  destruct (handleRequest_forwarded p x resp Hf) as (t & Hh & Ht).
  apply createTrace_fields in Ht as (_ & _ & _ & _ & _ & _ & _ & Hl & _).
  exists t, (writeResponse resp (readResponseBody gunzip resp)).
  split; [exact Hh|].
  assert (Hlat : Latency t
                 = Z.min (endTime x - startTime x) Go.maxDuration / Go.Millisecond).
  { rewrite Hl, (Since_elapsed _ _ H1 H2 H3). unfold Go.toMilliseconds.
    apply Z.quot_div_nonneg; [|done].
    unfold Go.maxDuration. change (2 ^ 63) with 9223372036854775808. lia. }
  split; [exact Hlat|]. rewrite Hlat. unfold Go.Millisecond.
  pose proof (Z.div_mod (Z.min (endTime x - startTime x) Go.maxDuration)
                1000000 ltac:(lia)) as Hd.
  pose proof (Z.mod_pos_bound (Z.min (endTime x - startTime x) Go.maxDuration)
                1000000 eq_refl) as Hb.
  lia.
Qed.

(** The handler leaves the configuration and the provider table as they
    are, and the traces it had in place. *)
Lemma serve_in_order (xs : list Exchange) : ∀ p : LLMProxy,
  ∃ new,
    traces (serveAll p xs) = traces p ++ new
    ∧ config (serveAll p xs) = config p
    ∧ providers (serveAll p xs) = providers p
    ∧ Forall2 (fun x t =>
                 Provider t = targetProvider (request x)
                 ∧ Endpoint t = Http.URLPath (request x)
                 ∧ ID t = Go.Sprintd (idTime x)
                 ∧ Timestamp t = stampTime x)
        (filter (fun x => isForwarded (fateOf (providers p) x) = true) xs) new.
Proof.
  induction xs as [|x xs IH]; intros p.
  - exists []. cbn. rewrite app_nil_r. repeat split. constructor.
  - unfold serve. cbn [foldl]. fold (serveAll (handle p x).1 xs).
    rewrite filter_cons.
    pose proof (handleRequest_by_fate ToLower float64 int_of_float64
                  json_Unmarshal_map json_Unmarshal_ok json_Marshal gunzip
                  URL_String http_NewRequest_error p x) as Hf.
    destruct (fateOf (providers p) x) as [|err|err|resp] eqn:Ef; cbn [isForwarded];
      try (rewrite Hf; cbn [fst]; destruct (IH p) as (new & ? & ? & ? & ?);
           exists new; rewrite decide_False by discriminate; done).
    clear Hf. destruct (handleRequest_forwarded p x resp Ef) as (t & Hh & Ht).
    apply createTrace_fields in Ht as (H1 & H2 & H3 & H4 & _).
    rewrite Hh. cbn [fst].
    destruct (IH (mkLLMProxy (traces p ++ [t]) (config p) (providers p)))
      as (new & Htr & Hc & Hp & Hall).
    cbn in Htr, Hc, Hp, Hall. exists (t :: new).
    rewrite Htr, Hc, Hp, <- app_assoc. rewrite decide_True by done.
    repeat split. by constructor.
Qed.

(** X27: serving a sequence of requests only appends to the traces: the
    traces read afterwards are the traces the proxy had, followed by one
    trace for each forwarded request, in the order of the requests, each
    with the target provider, path, identifier and time stamp of its
    request; the configuration and the provider table stay as they
    are. *)
Theorem serve_appends_traces_in_order (p : LLMProxy) (xs : list Exchange) :
  ∃ new,
    getTraces (serveAll p xs) = traces p ++ new
    ∧ config (serveAll p xs) = config p
    ∧ providers (serveAll p xs) = providers p
    ∧ Forall2 (fun x t =>
                 Provider t = targetProvider (request x)
                 ∧ Endpoint t = Http.URLPath (request x)
                 ∧ ID t = Go.Sprintd (idTime x)
                 ∧ Timestamp t = stampTime x)
        (filter (fun x => isForwarded (fateOf (providers p) x) = true) xs) new.
Proof. apply serve_in_order. Qed.

(** X28: when the response body decodes to no JSON object (the error of
    [json.Unmarshal] is dropped and the map stays empty),
    [parseAPIDetails] returns zero tokens and no tool call for every
    provider, and still the model named in the request. *)
Theorem undecodable_response_gives_no_usage (provider reqBody respBody : string) :
  json_Unmarshal_map respBody = ∅ →
  parse provider reqBody respBody
  = Some (getString (json_Unmarshal_map reqBody) "model", 0, 0, []).
Proof.
  intros He. unfold parseAPIDetails, usageTokens. rewrite He, !lookup_empty. cbn.
  by destruct (String.eqb provider "openai"), (String.eqb provider "anthropic").
Qed.

End HandlerMore.

Section SessionOfProxy.

Import Proxy Session Props2.

Variable ToLower : string → string.
Variable float64 : Type.
Variable int_of_float64 : float64 → Z.
Variable json_Unmarshal_map : string → gmap string (Json.value float64).
Variable json_Unmarshal_ok : string → bool.
Variable json_Marshal : Json.value float64 → option string.
Variable gunzip : string → Http.GzipResult.
Variable url_Parse : string → option Http.URL.
Variable URL_String : Http.URL → string.
Variable http_NewRequest_error : string → string → option string.

(** X29: the summary of the traces of a new proxy that served a sequence
    of requests counts the forwarded requests: [TotalCalls] is their
    number, the count of a provider is the number of forwarded requests
    with that target, and only [openai], [anthropic] and [custom] are
    counted. *)
Theorem summary_counts_the_forwarded_requests
    (config : Config.RegradaConfig) (xs : list Exchange) (name : string) :
  let p := newLLMProxy url_Parse config in
  let forwarded :=
    filter (fun x => isForwarded
                       (fate URL_String http_NewRequest_error (providers p) x)
                     = true) xs in
  let summary :=
    calculateSummary
      (getTraces (serve ToLower float64 int_of_float64 json_Unmarshal_map
                    json_Unmarshal_ok json_Marshal gunzip URL_String
                    http_NewRequest_error p xs)) in
  TotalCalls summary = Z.of_nat (length forwarded)
  ∧ default 0 (ByProvider summary !! name)
    = count (fun x => String.eqb (targetProvider (request x)) name) forwarded
  ∧ (is_Some (ByProvider summary !! name) →
     name = "openai" ∨ name = "anthropic" ∨ name = "custom").
Proof.
  cbn zeta.
  destruct (serve_in_order ToLower float64 int_of_float64 json_Unmarshal_map
              json_Unmarshal_ok json_Marshal gunzip URL_String
              http_NewRequest_error xs (newLLMProxy url_Parse config))
    as (new & Htr & _ & _ & Hall).
  unfold getTraces. cbn [app]. rewrite Htr.
  replace (traces (newLLMProxy url_Parse config)) with (@nil LLMTrace)
    by (unfold newLLMProxy; done).
  cbn [app].
  assert (Hcount : count (fun t => String.eqb (Provider t) name) new
                   = count (fun x => String.eqb (targetProvider (request x)) name)
                       (filter (fun x => isForwarded
                          (fate URL_String http_NewRequest_error
                             (providers (newLLMProxy url_Parse config)) x) = true) xs)).
  { symmetry. apply count_Forall2. eapply Forall2_impl; [exact Hall|].
    intros x t (-> & _). done. }
  split; [|split].
  - rewrite calculateSummary_eq. cbn [TotalCalls].
    f_equal. symmetry. by eapply Forall2_length.
  - by rewrite ByProvider_lookup, default_counted.
  - rewrite ByProvider_lookup. cbn zeta. rewrite Hcount.
    destruct (Z.eqb_spec (count (fun x => String.eqb (targetProvider (request x)) name)
                (filter (fun x => isForwarded
                          (fate URL_String http_NewRequest_error
                             (providers (newLLMProxy url_Parse config)) x) = true) xs)) 0)
      as [Hz|Hnz]; [by intros [? ?]|]. intros _.
    apply count_pos in Hnz as (x & Hin & Hx).
    apply String.eqb_eq in Hx. subst name.
    apply list_elem_of_filter in Hin as [Hfw _].
    unfold fate in Hfw.
    destruct (providers (newLLMProxy url_Parse config) !! targetProvider (request x))
      as [u|] eqn:Eu; [|done].
    destruct (newLLMProxy_providers url_Parse config) as (_ & _ & _ & Hk).
    apply Hk. by rewrite Eu.
Qed.

End SessionOfProxy.

(** ** The environment of the traced command *)

Section EnvFacts.

Import TraceEnv.

Lemma IndexByte_key (name value : string) :
  Go.IndexByte name "=" < 0 →
  Go.IndexByte (name +:+ String "=" value) "=" = Go.len name.
Proof.
  induction name as [|c name IH]; [done|].
  rewrite append_cons. cbn [Go.IndexByte]. unfold Go.len in *.
  destruct (Ascii.eqb c "="); [lia|]. cbn zeta. intros H.
  destruct (Go.IndexByte name "=" <? 0) eqn:E; [|apply Z.ltb_ge in E; lia].
  apply Z.ltb_lt in E. rewrite (IH E).
  rewrite (proj2 (Z.ltb_ge _ 0)) by lia. cbn [String.length]. lia.
Qed.

Lemma substring_key (name rest : string) :
  substring 0 (String.length name) (name +:+ rest) = name.
Proof.
  induction name as [|c name IH]; [by destruct rest|].
  rewrite append_cons. cbn. by rewrite IH.
Qed.

Lemma substring_whole (s : string) : substring 0 (String.length s) s = s.
Proof. induction s as [|c s IH]; [done|]. cbn. by rewrite IH. Qed.

Lemma substring_value (name value : string) :
  substring (S (String.length name)) (String.length value)
    (name +:+ String "=" value) = value.
Proof.
  induction name as [|c name IH].
  - rewrite append_nil. cbn [String.length substring]. apply substring_whole.
  - rewrite append_cons. cbn [String.length]. exact IH.
Qed.

Lemma length_append (a b : string) :
  String.length (a +:+ b) = (String.length a + String.length b)%nat.
Proof.
  induction a as [|c a IH]; [done|]. rewrite append_cons. cbn. by rewrite IH.
Qed.

(** What an entry [name=value] gives a key. *)
Lemma entryFor_pair (key name value : string) :
  Go.IndexByte name "=" < 0 →
  entryFor key (name +:+ String "=" value)
  = if String.eqb name key then Some value else None.
Proof.
  intros Hn. unfold entryFor. rewrite (IndexByte_key name value Hn).
  unfold Go.len, Go.slice.
  rewrite (proj2 (Z.ltb_ge _ 0)) by lia.
  rewrite Z.sub_0_r, Nat2Z.id. change (Z.to_nat 0) with 0%nat.
  rewrite substring_key.
  destruct (String.eqb name key); [|done]. f_equal.
  rewrite length_append. cbn [String.length].
  replace (Z.to_nat (Z.of_nat (String.length name) + 1))
    with (S (String.length name)) by lia.
  replace (Z.to_nat (Z.of_nat (String.length name + S (String.length value))
                     - (Z.of_nat (String.length name) + 1)))
    with (String.length value) by lia.
  apply substring_value.
Qed.

(** X30: the environment that [buildProxyEnv] returns is the inherited
    environment followed by seven entries; the traced command finds the
    address [http://proxyAddr] of the proxy under each of
    [OPENAI_BASE_URL], [OPENAI_API_BASE], [ANTHROPIC_BASE_URL],
    [AZURE_OPENAI_ENDPOINT], [LLM_API_BASE] and [REGRADA_PROXY],
    whatever the inherited environment sets for them, finds [1] under
    [REGRADA_TRACING], and finds every other variable as inherited. *)
Theorem buildProxyEnv_points_to_the_proxy
    (environ : list string) (proxyAddr : string)
    (config : Config.RegradaConfig) (key : string) :
  let env := buildProxyEnv environ proxyAddr config in
  (∃ added, env = environ ++ added ∧ length added = 7%nat)
  ∧ Getenv env key
    = if existsb (String.eqb key) proxyVariables
      then Some ("http://" +:+ proxyAddr)
      else if String.eqb key "REGRADA_TRACING" then Some "1"
      else Getenv environ key.
Proof.
  cbn zeta. unfold buildProxyEnv. rewrite <- !app_assoc. cbn [app].
  split; [eexists; split; [reflexivity|reflexivity]|].
  unfold Getenv. rewrite omap_app, last_app. cbn [omap].
  set (proxyURL := "http://" +:+ proxyAddr).
  change ("OPENAI_BASE_URL=" +:+ proxyURL)
    with ("OPENAI_BASE_URL" +:+ String "=" proxyURL).
  change ("OPENAI_API_BASE=" +:+ proxyURL)
    with ("OPENAI_API_BASE" +:+ String "=" proxyURL).
  change ("ANTHROPIC_BASE_URL=" +:+ proxyURL)
    with ("ANTHROPIC_BASE_URL" +:+ String "=" proxyURL).
  change ("AZURE_OPENAI_ENDPOINT=" +:+ proxyURL)
    with ("AZURE_OPENAI_ENDPOINT" +:+ String "=" proxyURL).
  change ("LLM_API_BASE=" +:+ proxyURL)
    with ("LLM_API_BASE" +:+ String "=" proxyURL).
  change ("REGRADA_PROXY=" +:+ proxyURL)
    with ("REGRADA_PROXY" +:+ String "=" proxyURL).
  change "REGRADA_TRACING=1" with ("REGRADA_TRACING" +:+ String "=" "1").
  cbn [list_omap].
  rewrite !entryFor_pair by reflexivity.
  unfold proxyVariables. cbn [existsb].
  rewrite !(String.eqb_sym key).
  destruct (String.eqb_spec "OPENAI_BASE_URL" key) as [<-|H1]; [reflexivity|].
  destruct (String.eqb_spec "OPENAI_API_BASE" key) as [<-|H2]; [reflexivity|].
  destruct (String.eqb_spec "ANTHROPIC_BASE_URL" key) as [<-|H3]; [reflexivity|].
  destruct (String.eqb_spec "AZURE_OPENAI_ENDPOINT" key) as [<-|H4]; [reflexivity|].
  destruct (String.eqb_spec "LLM_API_BASE" key) as [<-|H5]; [reflexivity|].
  destruct (String.eqb_spec "REGRADA_PROXY" key) as [<-|H6]; [reflexivity|].
  destruct (String.eqb_spec "REGRADA_TRACING" key) as [<-|H7]; [reflexivity|].
  cbn. by destruct (last _).
Qed.

End EnvFacts.

(** ** The properties on concrete inputs *)

(** The run of the demo: three tests, of which [B] fails. *)
Lemma runEvals_tallies_the_suite_witness :
  ∃ code result,
    Sample.demoRun true = Eval.Returned code (Some result)
    ∧ Eval.TestSuiteName result = "demo"
    ∧ Eval.TotalTests result = 3
    ∧ Eval.Passed result + Eval.Failed result = Eval.TotalTests result
    ∧ Eval.Passed result
      = Props2.count (fun t => String.eqb (Eval.Status t) "passed")
          (Eval.TestResults result)
    ∧ Eval.Name <$> Eval.TestResults result = ["A"; "B"; "C"]
    ∧ Forall2 (fun test tr =>
                 Eval.Check <$> Eval.CheckResults tr = Eval.Checks test
                 ∧ (Eval.Status tr = "failed"
                    ↔ ∃ c, c ∈ Eval.Checks test
                           ∧ Props2.failing Sample.noSpace c = true)
                 ∧ (Eval.Status tr = "passed"
                    ↔ ∀ c, c ∈ Eval.Checks test
                           → Props2.failing Sample.noSpace c = false))
        (Eval.Tests Sample.demoSuite) (Eval.TestResults result).
Proof.
  apply (runEvals_tallies_the_suite Sample.noSpace Sample.joinPath (fun _ => None)
           (fun _ => Some Sample.demoSuite)
           (fun _ => Eval.Decoded Sample.demoBaseline) (fun n => Z.of_nat n)
           "" "" true "text" ".regrada.yaml" "evals/tests.yaml" Sample.demoSuite);
    reflexivity.
Defined.

(** The run of the demo in CI mode: the regression [B] is a failed
    test. *)
Lemma regressions_are_failed_tests_witness :
  ∃ code result,
    Sample.demoRun true = Eval.Returned code (Some result)
    ∧ (∀ c name, Eval.Comparison result = Some c → name ∈ Eval.NewFailures c →
         ∃ tr, tr ∈ Eval.TestResults result ∧ Eval.Name tr = name
               ∧ Eval.Status tr = "failed")
    ∧ Eval.Regressions result ≤ Eval.Failed result
    ∧ (code = if true && (0 <? Eval.Failed result) then 1 else 0).
Proof.
  apply (regressions_are_failed_tests Sample.noSpace Sample.joinPath
           (fun _ => None) (fun _ => Some Sample.demoSuite)
           (fun _ => Eval.Decoded Sample.demoBaseline) (fun n => Z.of_nat n)
           "" "" true "text" ".regrada.yaml" "evals/tests.yaml" Sample.demoSuite);
    reflexivity.
Defined.

(** The run of the demo without the CI flag: [B] fails and the exit code
    is 0. *)
Lemma runEvals_without_ci_flag_witness :
  ∃ code result,
    Sample.demoRun false = Eval.Returned code result
    ∧ (code = 0 ↔ is_Some (Some Sample.demoSuite))
    ∧ (code = 1 ↔ Some Sample.demoSuite = None)
    ∧ (is_Some result ↔ is_Some (Some Sample.demoSuite)).
Proof.
  apply (runEvals_without_ci_flag Sample.noSpace Sample.joinPath
           (fun _ => None) (fun _ => Some Sample.demoSuite)
           (fun _ => Eval.Decoded Sample.demoBaseline) (fun n => Z.of_nat n)
           "" "" "text" ".regrada.yaml" "evals/tests.yaml");
    reflexivity.
Defined.

(** The run of the demo, whose baseline is decoded. *)
Lemma runEvals_attaches_the_comparison_witness :
  ∃ code result,
    Sample.demoRun true = Eval.Returned code (Some result)
    ∧ Eval.Comparison result
      = Some (Eval.compareWithBaselineResults result
                (Eval.Decoded Sample.demoBaseline))
    ∧ Eval.Regressions result
      = Z.of_nat (length (Eval.NewFailures
                            (Eval.compareWithBaselineResults result
                               (Eval.Decoded Sample.demoBaseline)))).
Proof.
  apply (runEvals_attaches_the_comparison Sample.noSpace Sample.joinPath
           (fun _ => None) (fun _ => Some Sample.demoSuite)
           (fun _ => Eval.Decoded Sample.demoBaseline) (fun n => Z.of_nat n)
           "" "" true "text" ".regrada.yaml" "evals/tests.yaml" Sample.demoSuite);
    reflexivity.
Defined.

(** The run of the demo with the GitHub output. *)
Lemma github_output_agrees_with_the_result_witness :
  ∃ code result,
    Sample2.githubRun true = Eval.Returned code (Some result)
    ∧ Props2.count (fun line => Go.HasPrefix line "✓ ")
        (GitHub.outputGitHub result true) = Eval.Passed result
    ∧ Props2.count (fun line => Go.HasPrefix line "✗ ")
        (GitHub.outputGitHub result true) = Eval.Failed result
    ∧ Props2.count (fun line => Go.HasPrefix line "::error title=Regression::")
        (GitHub.outputGitHub result true) = Eval.Regressions result
    ∧ (Go.HasPrefix (GitHub.summaryLine result) "::notice::" = true
       ↔ Eval.Failed result = 0).
Proof.
  apply (github_output_agrees_with_the_result Sample.noSpace Sample.joinPath
           (fun _ => None) (fun _ => Some Sample.demoSuite)
           (fun _ => Eval.Decoded Sample.demoBaseline) (fun n => Z.of_nat n)
           "" "" true ".regrada.yaml" "evals/tests.yaml" Sample.demoSuite);
    reflexivity.
Defined.

(** Two traces, in the two orders. *)
Lemma calculateSummary_ignores_the_order_witness :
  [Sample2.searchTrace; Sample2.plainTrace]
    ≡ₚ [Sample2.plainTrace; Sample2.searchTrace]
  ∧ Session.ByProvider
      (Session.calculateSummary [Sample2.searchTrace; Sample2.plainTrace])
    = Session.ByProvider
        (Session.calculateSummary [Sample2.plainTrace; Sample2.searchTrace])
  ∧ Session.ToolsCalled
      (Session.calculateSummary [Sample2.searchTrace; Sample2.plainTrace])
    ≡ₚ Session.ToolsCalled
         (Session.calculateSummary [Sample2.plainTrace; Sample2.searchTrace]).
Proof.
  assert (H : [Sample2.searchTrace; Sample2.plainTrace]
                ≡ₚ [Sample2.plainTrace; Sample2.searchTrace])
    by apply perm_swap.
  split; [exact H|].
  pose proof (calculateSummary_ignores_the_order _ _ H)
    as (_ & _ & _ & _ & Hp & _ & Ht).
  split; [exact Hp|exact Ht].
Defined.

(** A session of two calls against a baseline of one: 60 tokens more. *)
Lemma compareWithBaseline_reports_token_change_witness :
  Session.TokenUsage "increased" 60
    ∈ Session.compareWithBaseline
        (Sample2.sessionOf [Sample2.searchTrace; Sample2.plainTrace])
        (Session.Decoded (Sample2.sessionOf [Sample2.searchTrace])).
Proof.
  apply (compareWithBaseline_reports_token_change
           (Sample2.sessionOf [Sample2.searchTrace; Sample2.plainTrace])
           (Sample2.sessionOf [Sample2.searchTrace]) "increased" 60).
  - vm_compute. split; [discriminate|reflexivity].
  - vm_compute. split; [discriminate|reflexivity].
  - left. vm_compute. repeat split.
Defined.

(** A request for Anthropic on a new proxy: the key is sent, the target
    header is not. *)
Lemma handler_forwards_all_but_proxy_headers_witness :
  ∃ sent,
    sent = Proxy.outbound Proxy.anthropicURL Sample2.targetedRequest
    ∧ Http.OutHeader sent !! "X-Api-Key" = Some ["sk-ant-1"]
    ∧ Http.OutHeader sent !! "Accept" = Some ["application/json"; "text/plain"]
    ∧ Http.OutHeader sent !! "X-Regrada-Target" = None
    ∧ Http.Host (Http.OutURL sent) = "api.anthropic.com"
    ∧ Http.OutBody sent = "{}".
Proof.
  destruct (handler_forwards_all_but_proxy_headers Sample.asciiToLower Z
              (fun f => f) Sample.decodeMap Sample.decodeOK Sample.encode
              Sample.gunzip Sample.showURL Sample.newRequestError
              (Sample.newLLMProxy Sample.anthropicConfig)
              (Sample2.targetedExchange Sample.echoHost) Proxy.anthropicURL
              eq_refl eq_refl)
    as (sent & Hs & _ & _ & Hu & Hb & Hk & _).
  exists sent. split; [exact Hs|].
  rewrite !Hk, Hu, Hb. repeat split.
Defined.

(** An upstream that sets two cookies. *)
Lemma response_headers_reach_the_caller_witness :
  ∃ p' w,
    Sample.handleRequest (Sample.newLLMProxy Sample.anthropicConfig)
      (Sample.exchange Sample2.cookieUpstream) = (p', Some w)
    ∧ Http.WStatus w = 200
    ∧ ∀ key,
        Http.WHeader w !! key
        = if String.eqb key "Content-Length"
          then Some [Go.Sprintd (Go.len (Http.WBody w))]
          else if String.eqb key "Content-Encoding" then None
          else Props2.copied
                 (({[ "Set-Cookie" := ["a=1"; "b=2"];
                      "Content-Length" := ["2"] ]} : Http.Header) !! key).
Proof.
  exact (response_headers_reach_the_caller Sample.asciiToLower Z
           (fun f => f) Sample.decodeMap Sample.decodeOK Sample.encode
           Sample.gunzip Sample.showURL Sample.newRequestError
           (Sample.newLLMProxy Sample.anthropicConfig)
           (Sample.exchange Sample2.cookieUpstream)
           (Http.mkResponse 200
              {[ "Set-Cookie" := ["a=1"; "b=2"]; "Content-Length" := ["2"] ]}
              "ok") eq_refl eq_refl).
Defined.

(** An upstream that answers with a plain body. *)
Lemma plain_response_passes_through_witness :
  ∃ t w,
    Sample.handleRequest (Sample.newLLMProxy Sample.anthropicConfig)
      (Sample.exchange Sample2.cookieUpstream)
    = (Proxy.mkLLMProxy [t] Sample.anthropicConfig
         (Proxy.providers (Sample.newLLMProxy Sample.anthropicConfig)),
       Some w)
    ∧ Http.WBody w = "ok"
    ∧ Http.WStatus w = 200
    ∧ Http.Get (Http.WHeader w) "Content-Length" = "2"
    ∧ Http.Get (Http.WHeader w) "Content-Encoding" = ""
    ∧ Proxy.RespBody (Proxy.Response t) = Sample.sanitizeBody "ok"
    ∧ Proxy.RespStatusCode (Proxy.Response t) = 200.
Proof.
  apply (plain_response_passes_through Sample.asciiToLower Z
           (fun f => f) Sample.decodeMap Sample.decodeOK Sample.encode
           Sample.gunzip Sample.showURL Sample.newRequestError
           (Sample.newLLMProxy Sample.anthropicConfig)
           (Sample.exchange Sample2.cookieUpstream)
           (Http.mkResponse 200
              {[ "Set-Cookie" := ["a=1"; "b=2"]; "Content-Length" := ["2"] ]}
              "ok")).
  - vm_compute; reflexivity.
  - vm_compute. discriminate.
Defined.

(** An upstream that answers with a body marked gzip. *)
Lemma broken_gzip_response_is_cut_witness :
  ∃ t w,
    Sample.handleRequest (Sample.newLLMProxy Sample.anthropicConfig)
      (Sample.exchange Sample.gzipUpstream)
    = (Proxy.mkLLMProxy [t] Sample.anthropicConfig
         (Proxy.providers (Sample.newLLMProxy Sample.anthropicConfig)),
       Some w)
    ∧ Http.WStatus w = 200
    ∧ Http.Get (Http.WHeader w) "Content-Length"
      = Go.Sprintd (Go.len (Http.WBody w))
    ∧ Proxy.RespBody (Proxy.Response t) = Sample.sanitizeBody (Http.WBody w)
    ∧ Http.WBody w = "plain:zip".
Proof.
  apply (broken_gzip_response_is_cut Sample.asciiToLower Z
           (fun f => f) Sample.decodeMap Sample.decodeOK Sample.encode
           Sample.gunzip Sample.showURL Sample.newRequestError
           (Sample.newLLMProxy Sample.anthropicConfig)
           (Sample.exchange Sample.gzipUpstream)
           (Http.mkResponse 200
              {[ "Content-Encoding" := ["gzip"]; "Content-Length" := ["3"] ]}
              "zip"));
    vm_compute; reflexivity.
Defined.

(** The trace of a request that reached the upstream. *)
Lemma trace_records_the_exchange_witness :
  ∃ t w,
    Sample.handleRequest (Sample.newLLMProxy Sample.anthropicConfig)
      (Sample.exchange Sample.echoHost)
    = (Proxy.mkLLMProxy [t] Sample.anthropicConfig
         (Proxy.providers (Sample.newLLMProxy Sample.anthropicConfig)),
       Some w)
    ∧ Proxy.ID t = "1700000000"
    ∧ Proxy.Provider t = "openai"
    ∧ Proxy.Endpoint t = "/v1/chat/completions"
    ∧ Proxy.ReqMethod (Proxy.Request t) = "POST"
    ∧ Proxy.RespStatusCode (Proxy.Response t) = Http.WStatus w
    ∧ Proxy.RespBody (Proxy.Response t) = Sample.sanitizeBody (Http.WBody w)
    ∧ Proxy.Latency t = 42.
Proof.
  destruct (trace_records_the_exchange Sample.asciiToLower Z
              (fun f => f) Sample.decodeMap Sample.decodeOK Sample.encode
              Sample.gunzip Sample.showURL Sample.newRequestError
              (Sample.newLLMProxy Sample.anthropicConfig)
              (Sample.exchange Sample.echoHost)
              (Http.mkResponse 200 ∅ "api.openai.com") eq_refl)
    as (t & w & Hh & H1 & _ & H3 & H4 & H5 & _ & _ & _ & H9 & _ & H11 & H12 & _).
  exists t, w. split; [exact Hh|].
  rewrite H1, H3, H4, H5, H9, H11, H12. repeat split.
Defined.

(** A response body that is no JSON. *)
Lemma undecodable_response_gives_no_usage_witness :
  Sample.parseAPIDetails "openai" (Sample.modelBody "gpt-4") "upstream timed out"
  = Some ("gpt-4", 0, 0, []).
Proof.
  exact (undecodable_response_gives_no_usage Z (fun f => f) Sample.decodeMap
           Sample.encode "openai" (Sample.modelBody "gpt-4")
           "upstream timed out" eq_refl).
Defined.

(** A request answered 42 ms after it came in. *)
Lemma latency_is_the_elapsed_milliseconds_witness :
  Proxy.monotonic (Sample.exchange Sample.echoHost)
  ∧ ∃ t w,
      Sample.handleRequest (Sample.newLLMProxy Sample.anthropicConfig)
        (Sample.exchange Sample.echoHost)
      = (Proxy.mkLLMProxy [t] Sample.anthropicConfig
           (Proxy.providers (Sample.newLLMProxy Sample.anthropicConfig)),
         Some w)
      ∧ Proxy.Latency t = 42.
Proof.
  assert (H : Proxy.monotonic (Sample.exchange Sample.echoHost))
    by (vm_compute; repeat split; discriminate).
  split; [exact H|].
  destruct (latency_is_the_elapsed_milliseconds Sample.asciiToLower Z
              (fun f => f) Sample.decodeMap Sample.decodeOK Sample.encode
              Sample.gunzip Sample.showURL Sample.newRequestError
              (Sample.newLLMProxy Sample.anthropicConfig)
              (Sample.exchange Sample.echoHost)
              (Http.mkResponse 200 ∅ "api.openai.com") eq_refl H)
    as (t & w & Hh & Hl & _).
  exists t, w. split; [exact Hh|]. rewrite Hl. reflexivity.
Defined.
